(** * ScreenshotApp: the capture-trigger engine of [screen_capture_app.py]

    A shallow embedding of the core functions of the application
    ([images_different], [save_image], [do_capture], [manual_capture],
    [auto_monitor_loop], [start_capture], [stop_capture],
    [init_capture_count], [interactive_select_region], [get_window_list],
    [capture_window_thumbnail], [detect_retina_scale],
    [keyboard_callback] and the routes of [RequestHandler.do_GET])
    together with the properties that
    the specification states about them and further properties that the
    code itself shows.

    Conventions of the embedding:
    - the module-level singleton [state] becomes an explicit [AppState]
      record that every function receives and returns;
    - Python [float]s are IEEE binary64 values, modelled by the primitive
      floats of the kernel ([PrimFloat]), so comparisons and arithmetic on
      time stamps and on the difference percentage are bit-exact;
    - Python [int]s are [Z];
    - a Python [str] is the string of its UTF-8 bytes (for a file name,
      the bytes of the directory entry); the one operation of the code
      that looks beyond ASCII, [int()] on part of a file name, decodes
      them;
    - everything the operating system decides (what a capture returns,
      whether a write succeeds, what the clock reads) is an explicit
      argument of the function that asks for it, and every action on
      the outside world is recorded in a trace of effects;
    - a Python exception is an explicit outcome;
    - console output and the bodies of the HTTP responses are left out;
      the time that a [time.sleep] call lets pass shows in the clock of
      the next snapshot of the world, and the call itself is modelled
      where its argument comes from the session and can make it raise;
    - a request is served to a client that stays connected (the handler
      swallows [BrokenPipeError]). *)

From Stdlib Require Import ZArith List String Ascii Bool Lia DecimalString.
From Stdlib Require Import PrimFloat Uint63 SpecFloat FloatOps.
From Stdlib Require DecimalPos DecimalN.
From Stdlib Require Import Permutation.
Import ListNotations.
Open Scope string_scope.
Open Scope Z_scope.

(** ** Python values *)

Module Py.

(** Outcome of a call that may raise. *)
Inductive result (A : Type) : Type :=
| Ok (a : A)
| Raise (exn : string).
Arguments Ok {A} a.
Arguments Raise {A} exn.

(** [bool(x)] for an [int]. *)
Definition truthy_int (n : Z) : bool := negb (n =? 0).

(** [bool(x)] for an [Optional[int]]: [None] and [0] are false. *)
Definition truthy_opt_int (o : option Z) : bool :=
  match o with
  | None => false
  | Some n => truthy_int n
  end.

(** [bool(x)] for a [float]: only [0.0] and [-0.0] are false. *)
Definition truthy_float (x : float) : bool := negb (PrimFloat.eqb x 0%float).

Definition truthy_opt_float (o : option float) : bool :=
  match o with
  | None => false
  | Some x => truthy_float x
  end.

(** [bool(x)] for an optional object without [__bool__] or [__len__]
    (a PIL image, a non-empty tuple): only [None] is false. *)
Definition truthy_opt_obj {A : Type} (o : option A) : bool :=
  match o with
  | None => false
  | Some _ => true
  end.

(** [float(n)] for an [int] below [2^63]. *)
Definition float_of_int (n : Z) : float := PrimFloat.of_uint63 (Uint63.of_Z n).

(** [a / b], the true division of two [int]s (exact for operands below
    [2^53], where it is the correctly rounded quotient). *)
Definition truediv (a b : Z) : result float :=
  if b =? 0 then Raise "ZeroDivisionError"
  else Ok (PrimFloat.div (float_of_int a) (float_of_int b)).

(** [x > y] on floats. *)
Definition float_gt (x y : float) : bool := PrimFloat.ltb y x.

(** [x >= y] on floats. *)
Definition float_ge (x y : float) : bool := PrimFloat.leb y x.

(** [a // b] on [int]s: floor division, as [Z.div]. *)
Definition floordiv (a b : Z) : result Z :=
  if b =? 0 then Raise "ZeroDivisionError" else Ok (a / b).

(** [s in (t1, t2, ...)] for strings. *)
Definition str_in (s : string) (ts : list string) : bool :=
  existsb (String.eqb s) ts.

(** The decimal digits of a non-negative [int]. *)
Definition digits_of_nonneg (n : Z) : string :=
  NilZero.string_of_uint (N.to_uint (Z.to_N n)).

(** [str(n)] for an [int]. *)
Definition str_of_int (n : Z) : string :=
  if n <? 0 then "-" ++ digits_of_nonneg (- n) else digits_of_nonneg n.

(** [k] copies of the character ["0"]. *)
Fixpoint zeros (k : nat) : string :=
  match k with
  | O => ""
  | S k' => String "0" (zeros k')
  end.

(** [format(n, "04d")]: sign-aware zero padding to four characters. *)
Definition format_04d (n : Z) : string :=
  if n <? 0 then
    let ds := digits_of_nonneg (- n) in
    "-" ++ zeros (3 - String.length ds) ++ ds
  else
    let ds := digits_of_nonneg n in
    zeros (4 - String.length ds) ++ ds.

(** [sep.join(parts)] *)
Fixpoint join (sep : string) (parts : list string) : string :=
  match parts with
  | [] => ""
  | [p] => p
  | p :: rest => p ++ sep ++ join sep rest
  end.

(** [s.rfind(c)]: the last index of the character, if any. *)
Fixpoint rfind_from (c : ascii) (s : string) (i : nat) (found : option nat) : option nat :=
  match s with
  | EmptyString => found
  | String d s' =>
      rfind_from c s' (S i) (if Ascii.eqb c d then Some i else found)
  end.

Definition rfind (c : ascii) (s : string) : option nat := rfind_from c s 0 None.

(** [s.startswith(p)] *)
Definition startswith (p s : string) : bool := String.prefix p s.

(** [s.endswith(p)] *)
Definition endswith (p s : string) : bool :=
  (String.length p <=? String.length s)%nat
  && String.eqb (substring (String.length s - String.length p) (String.length p) s) p.

(** [s.split(sep)] for a one-character separator. *)
Fixpoint split_acc (sep : ascii) (s : string) (cur : string) : list string :=
  match s with
  | EmptyString => [cur]
  | String c s' =>
      if Ascii.eqb c sep then cur :: split_acc sep s' ""
      else split_acc sep s' (cur ++ String c "")
  end.

Definition split (sep : ascii) (s : string) : list string := split_acc sep s "".

(** [xs[i]], raising [IndexError] out of range (non-negative [i]). *)
Definition getitem {A : Type} (xs : list A) (i : nat) : result A :=
  match nth_error xs i with
  | Some x => Ok x
  | None => Raise "IndexError"
  end.

(** White space that [int()] skips around a numeral in an ASCII text:
    space, tab, line feed, vertical tab, form feed and carriage return
    (the separators 28 to 31, which [str.strip()] removes, are not among
    them). *)
Definition is_space (c : ascii) : bool :=
  let n := nat_of_ascii c in
  (n =? 32)%nat || ((9 <=? n)%nat && (n <=? 13)%nat).

(** Removes leading white space. *)
Fixpoint lstrip (s : string) : string :=
  match s with
  | String c s' => if is_space c then lstrip s' else s
  | EmptyString => EmptyString
  end.

(** Removes trailing white space. *)
Fixpoint rstrip (s : string) : string :=
  match s with
  | EmptyString => EmptyString
  | String c s' =>
      match rstrip s' with
      | EmptyString => if is_space c then EmptyString else String c EmptyString
      | r => String c r
      end
  end.

Definition strip (s : string) : string := rstrip (lstrip s).

Definition digit_value (c : ascii) : option Z :=
  let n := nat_of_ascii c in
  if (48 <=? n)%nat && (n <=? 57)%nat then Some (Z.of_nat (n - 48)) else None.

Definition is_digit (c : ascii) : bool :=
  match digit_value c with
  | Some _ => true
  | None => false
  end.

(** Reads decimal digits, most significant first; one underscore may
    stand between two digits. *)
Fixpoint digits_value (s : string) (acc : Z) : option Z :=
  match s with
  | EmptyString => Some acc
  | String c s' =>
      match digit_value c with
      | Some d => digits_value s' (10 * acc + d)
      | None =>
          if Ascii.eqb c "_" then
            match s' with
            | String c' _ => if is_digit c' then digits_value s' acc else None
            | EmptyString => None
            end
          else None
      end
  end.

(** A numeral without sign: it starts with a digit. *)
Definition unsigned_value (s : string) : option Z :=
  match s with
  | EmptyString => None
  | String c _ => if is_digit c then digits_value s 0 else None
  end.

(** All bytes of the text are below 128. *)
Fixpoint is_ascii (s : string) : bool :=
  match s with
  | EmptyString => true
  | String c s' => (nat_of_ascii c <? 128)%nat && is_ascii s'
  end.

(** The numeral of an ASCII text in base ten: surrounding white space,
    one sign and single underscores between digits are allowed. *)
Definition ascii_numeral (s : string) : option Z :=
  let body := strip s in
  match body with
  | String "-" rest => option_map Z.opp (unsigned_value rest)
  | String "+" rest => unsigned_value rest
  | _ => unsigned_value body
  end.

(** The payload of a UTF-8 continuation byte. *)
Definition continuation (c : ascii) : option Z :=
  let b := Z.of_nat (nat_of_ascii c) in
  if (128 <=? b) && (b <? 192) then Some (b - 128) else None.

(** A code point that a UTF-8 sequence of the given length may encode:
    not one that a shorter sequence encodes, not a surrogate, not above
    U+10FFFF. *)
Definition scalar_value (low cp : Z) : bool :=
  (low <=? cp) && (cp <=? 0x10FFFF) && negb ((0xD800 <=? cp) && (cp <=? 0xDFFF)).

(** The code points of a text, [None] when the bytes are not UTF-8 (a
    file name with such bytes reaches the program with lone surrogates
    in their place).  [pending] continuation bytes are still to come for
    the code point begun in [acc], which must reach [low]. *)
Fixpoint code_points_from (s : string) (pending : nat) (acc low : Z) : option (list Z) :=
  match s with
  | EmptyString =>
      match pending with
      | O => Some []
      | S _ => None
      end
  | String c s' =>
      let b := Z.of_nat (nat_of_ascii c) in
      match pending with
      | O =>
          if b <? 128 then option_map (cons b) (code_points_from s' 0 0 0)
          else if (192 <=? b) && (b <? 224) then code_points_from s' 1 (b - 192) 0x80
          else if (224 <=? b) && (b <? 240) then code_points_from s' 2 (b - 224) 0x800
          else if (240 <=? b) && (b <? 248) then code_points_from s' 3 (b - 240) 0x10000
          else None
      | S O =>
          match continuation c with
          | Some bits =>
              let cp := acc * 64 + bits in
              if scalar_value low cp then option_map (cons cp) (code_points_from s' 0 0 0)
              else None
          | None => None
          end
      | S more =>
          match continuation c with
          | Some bits => code_points_from s' more (acc * 64 + bits) low
          | None => None
          end
      end
  end.

Definition code_points (s : string) : option (list Z) := code_points_from s 0 0 0.

(** The code point of the digit zero of each set of decimal digits
    beyond ASCII; the digits one to nine of the set follow it (Unicode
    14.0, the character database of CPython 3.11). *)
Definition decimal_zeros : list Z :=
  [0x660; 0x6f0; 0x7c0; 0x966; 0x9e6; 0xa66; 0xae6; 0xb66; 0xbe6; 0xc66; 0xce6;
   0xd66; 0xde6; 0xe50; 0xed0; 0xf20; 0x1040; 0x1090; 0x17e0; 0x1810; 0x1946;
   0x19d0; 0x1a80; 0x1a90; 0x1b50; 0x1bb0; 0x1c40; 0x1c50; 0xa620; 0xa8d0;
   0xa900; 0xa9d0; 0xa9f0; 0xaa50; 0xabf0; 0xff10; 0x104a0; 0x10d30; 0x11066;
   0x110f0; 0x11136; 0x111d0; 0x112f0; 0x11450; 0x114d0; 0x11650; 0x116c0;
   0x11730; 0x118e0; 0x11950; 0x11c50; 0x11d50; 0x11da0; 0x16a60; 0x16ac0;
   0x16b50; 0x1d7ce; 0x1d7d8; 0x1d7e2; 0x1d7ec; 0x1d7f6; 0x1e140; 0x1e2f0;
   0x1e950; 0x1fbf0].

(** The white space beyond ASCII. *)
Definition unicode_spaces : list Z :=
  [0x85; 0xa0; 0x1680; 0x2000; 0x2001; 0x2002; 0x2003; 0x2004; 0x2005; 0x2006;
   0x2007; 0x2008; 0x2009; 0x200a; 0x2028; 0x2029; 0x202f; 0x205f; 0x3000].

(** The ASCII character that [int()] reads in place of a code point: the
    character itself below 127, a space for white space, the ASCII digit
    for a decimal digit; any other character makes the text invalid. *)
Definition ascii_form (cp : Z) : option ascii :=
  if cp <? 127 then Some (ascii_of_nat (Z.to_nat cp))
  else if existsb (Z.eqb cp) unicode_spaces then Some " "%char
  else
    match find (fun zero => (zero <=? cp) && (cp <? zero + 10)) decimal_zeros with
    | Some zero => Some (ascii_of_nat (Z.to_nat (48 + (cp - zero))))
    | None => None
    end.

Fixpoint ascii_forms (cps : list Z) : option string :=
  match cps with
  | [] => Some EmptyString
  | cp :: rest =>
      match ascii_form cp, ascii_forms rest with
      | Some c, Some s => Some (String c s)
      | _, _ => None
      end
  end.

(** [int(s)] in base ten.  An ASCII text is read as it stands; in a text
    with other characters, white space and decimal digits of any script
    are first replaced by their ASCII forms.  Anything that is not a
    numeral raises [ValueError].  (The texts converted here are parts of
    file names, far shorter than the 4300 digits at which recent
    interpreters refuse a numeral.) *)
Definition int_of_str (s : string) : result Z :=
  let parsed :=
    if is_ascii s then ascii_numeral s
    else
      match code_points s with
      | Some cps =>
          match ascii_forms cps with
          | Some text => ascii_numeral text
          | None => None
          end
      | None => None
      end in
  match parsed with
  | Some n => Ok n
  | None => Raise "ValueError"
  end.

(** [int(x)] for a [float]: truncation towards zero. *)
Definition int_of_float (x : float) : result Z :=
  match Prim2SF x with
  | S754_zero _ => Ok 0
  | S754_finite negative m e =>
      let magnitude := if 0 <=? e then Z.pos m * 2 ^ e else Z.pos m / 2 ^ (- e) in
      Ok (if negative then - magnitude else magnitude)
  | S754_infinity _ => Raise "OverflowError"
  | S754_nan => Raise "ValueError"
  end.

(** [time.sleep(secs)] for a [float], as far as it can raise.  The
    interpreter converts the duration to a signed 64-bit count of
    nanoseconds: [ValueError] for a NaN, [OverflowError] beyond that
    range (an infinity included), [ValueError] for a negative duration.
    A duration that passes is handed to the operating system, which
    sleeps or refuses it (a duration of centuries): [platform] is its
    answer. *)
Definition sleep (platform : float -> result unit) (secs : float) : result unit :=
  let nanoseconds := PrimFloat.mul secs 1000000000%float in
  if negb (PrimFloat.eqb secs secs) then Raise "ValueError"
  else if PrimFloat.ltb nanoseconds (-0x1p63)%float
          || PrimFloat.ltb 0x1p63%float nanoseconds
  then Raise "OverflowError"
  else if PrimFloat.ltb secs 0%float then Raise "ValueError"
  else platform secs.

End Py.

(** ** Images (PIL, mode RGB) *)

Module Img.

(** One RGB pixel, each sample in [0, 255]. *)
Definition pixel : Type := (Z * Z * Z)%type.

Definition red (p : pixel) : Z := fst (fst p).
Definition green (p : pixel) : Z := snd (fst p).
Definition blue (p : pixel) : Z := snd p.

(** An image: its size and its pixels in row-major order. *)
Record Image : Type := mkImage {
  width : Z;
  height : Z;
  pixels : list pixel
}.

Definition sample_ok (v : Z) : bool := (0 <=? v) && (v <=? 255).

Definition pixel_ok (p : pixel) : bool :=
  sample_ok (red p) && sample_ok (green p) && sample_ok (blue p).

(** A well-formed image has [width * height] pixels of 8-bit samples. *)
Definition wf (im : Image) : bool :=
  (0 <=? width im) && (0 <=? height im)
  && (Z.of_nat (List.length (pixels im)) =? width im * height im)
  && forallb pixel_ok (pixels im).

(** [img.size] *)
Definition size (im : Image) : Z * Z := (width im, height im).

Definition size_eqb (a b : Z * Z) : bool :=
  (fst a =? fst b) && (snd a =? snd b).

(** [ImageChops.difference]: the absolute value of the pixel-by-pixel
    difference, channel by channel. *)
Definition pixel_difference (p q : pixel) : pixel :=
  (Z.abs (red p - red q), Z.abs (green p - green q), Z.abs (blue p - blue q)).

Fixpoint pixels_difference (ps qs : list pixel) : list pixel :=
  match ps, qs with
  | p :: ps', q :: qs' => pixel_difference p q :: pixels_difference ps' qs'
  | _, _ => []
  end.

Definition difference (a b : Image) : Image :=
  {| width := width a; height := height a;
     pixels := pixels_difference (pixels a) (pixels b) |}.

(** Number of samples of one band that have the value [v]. *)
Definition count_value (band : list Z) (v : Z) : Z :=
  Z.of_nat (List.length (filter (Z.eqb v) band)).

(** The 256 bins of one band. *)
Definition band_histogram (band : list Z) : list Z :=
  map (fun v => count_value band (Z.of_nat v)) (seq 0 256).

(** [Image.histogram()]: for a multi-band image the histograms of all
    bands are concatenated, so an RGB image yields 768 bins: red in
    [0, 256), green in [256, 512), blue in [512, 768). *)
Definition histogram (im : Image) : list Z :=
  band_histogram (map red (pixels im))
  ++ band_histogram (map green (pixels im))
  ++ band_histogram (map blue (pixels im)).

End Img.

Import Py Img.

(** ** The shared session state *)

(** A screen rectangle [(x, y, w, h)]. *)
Definition Rect : Type := (Z * Z * Z * Z)%type.

Definition rect_x (r : Rect) : Z := fst (fst (fst r)).
Definition rect_y (r : Rect) : Z := snd (fst (fst r)).
Definition rect_w (r : Rect) : Z := snd (fst r).
Definition rect_h (r : Rect) : Z := snd r.

(** [class AppState]; [save_dir] is the path as text and [auto_thread]
    the identifier of the polling thread. *)
Record AppState : Type := mkState {
  capture_mode : string;
  target_window_id : option Z;
  target_window_name : string;
  target_owner_name : string;
  region : option Rect;
  retina_scale : Z;
  save_dir : string;
  save_mode : string;
  is_running : bool;
  capture_count : Z;
  mode : string;
  last_image : option Image;
  change_detected_time : option float;
  auto_thread : option nat;
  status : string;
  settling_time : float;
  polling_interval : float
}.

(** The defaults of the class body, with the home directory as text. *)
Definition initial_state (home : string) : AppState :=
  {| capture_mode := "window";
     target_window_id := None;
     target_window_name := "";
     target_owner_name := "";
     region := None;
     retina_scale := 2;
     save_dir := home ++ "/Desktop/screenshots";
     save_mode := "folder";
     is_running := false;
     capture_count := 0;
     mode := "manual";
     last_image := None;
     change_detected_time := None;
     auto_thread := None;
     status := "停止中";
     settling_time := 0.5%float;
     polling_interval := 0x1.999999999999ap-3%float (* 0.2 *) |}.

(** Assignments [state.field = v]. *)

Definition set_capture_mode (v : string) (s : AppState) : AppState :=
  mkState v (target_window_id s) (target_window_name s) (target_owner_name s)
    (region s) (retina_scale s) (save_dir s) (save_mode s) (is_running s)
    (capture_count s) (mode s) (last_image s) (change_detected_time s)
    (auto_thread s) (status s) (settling_time s) (polling_interval s).

Definition set_target_window_id (v : option Z) (s : AppState) : AppState :=
  mkState (capture_mode s) v (target_window_name s) (target_owner_name s)
    (region s) (retina_scale s) (save_dir s) (save_mode s) (is_running s)
    (capture_count s) (mode s) (last_image s) (change_detected_time s)
    (auto_thread s) (status s) (settling_time s) (polling_interval s).

Definition set_target_window_name (v : string) (s : AppState) : AppState :=
  mkState (capture_mode s) (target_window_id s) v (target_owner_name s)
    (region s) (retina_scale s) (save_dir s) (save_mode s) (is_running s)
    (capture_count s) (mode s) (last_image s) (change_detected_time s)
    (auto_thread s) (status s) (settling_time s) (polling_interval s).

Definition set_target_owner_name (v : string) (s : AppState) : AppState :=
  mkState (capture_mode s) (target_window_id s) (target_window_name s) v
    (region s) (retina_scale s) (save_dir s) (save_mode s) (is_running s)
    (capture_count s) (mode s) (last_image s) (change_detected_time s)
    (auto_thread s) (status s) (settling_time s) (polling_interval s).

Definition set_region (v : option Rect) (s : AppState) : AppState :=
  mkState (capture_mode s) (target_window_id s) (target_window_name s)
    (target_owner_name s) v (retina_scale s) (save_dir s) (save_mode s)
    (is_running s) (capture_count s) (mode s) (last_image s)
    (change_detected_time s) (auto_thread s) (status s) (settling_time s)
    (polling_interval s).

Definition set_retina_scale (v : Z) (s : AppState) : AppState :=
  mkState (capture_mode s) (target_window_id s) (target_window_name s)
    (target_owner_name s) (region s) v (save_dir s) (save_mode s)
    (is_running s) (capture_count s) (mode s) (last_image s)
    (change_detected_time s) (auto_thread s) (status s) (settling_time s)
    (polling_interval s).

Definition set_save_dir (v : string) (s : AppState) : AppState :=
  mkState (capture_mode s) (target_window_id s) (target_window_name s)
    (target_owner_name s) (region s) (retina_scale s) v (save_mode s)
    (is_running s) (capture_count s) (mode s) (last_image s)
    (change_detected_time s) (auto_thread s) (status s) (settling_time s)
    (polling_interval s).

Definition set_save_mode (v : string) (s : AppState) : AppState :=
  mkState (capture_mode s) (target_window_id s) (target_window_name s)
    (target_owner_name s) (region s) (retina_scale s) (save_dir s) v
    (is_running s) (capture_count s) (mode s) (last_image s)
    (change_detected_time s) (auto_thread s) (status s) (settling_time s)
    (polling_interval s).

Definition set_is_running (v : bool) (s : AppState) : AppState :=
  mkState (capture_mode s) (target_window_id s) (target_window_name s)
    (target_owner_name s) (region s) (retina_scale s) (save_dir s)
    (save_mode s) v (capture_count s) (mode s) (last_image s)
    (change_detected_time s) (auto_thread s) (status s) (settling_time s)
    (polling_interval s).

Definition set_capture_count (v : Z) (s : AppState) : AppState :=
  mkState (capture_mode s) (target_window_id s) (target_window_name s)
    (target_owner_name s) (region s) (retina_scale s) (save_dir s)
    (save_mode s) (is_running s) v (mode s) (last_image s)
    (change_detected_time s) (auto_thread s) (status s) (settling_time s)
    (polling_interval s).

Definition set_mode (v : string) (s : AppState) : AppState :=
  mkState (capture_mode s) (target_window_id s) (target_window_name s)
    (target_owner_name s) (region s) (retina_scale s) (save_dir s)
    (save_mode s) (is_running s) (capture_count s) v (last_image s)
    (change_detected_time s) (auto_thread s) (status s) (settling_time s)
    (polling_interval s).

Definition set_last_image (v : option Image) (s : AppState) : AppState :=
  mkState (capture_mode s) (target_window_id s) (target_window_name s)
    (target_owner_name s) (region s) (retina_scale s) (save_dir s)
    (save_mode s) (is_running s) (capture_count s) (mode s) v
    (change_detected_time s) (auto_thread s) (status s) (settling_time s)
    (polling_interval s).

Definition set_change_detected_time (v : option float) (s : AppState) : AppState :=
  mkState (capture_mode s) (target_window_id s) (target_window_name s)
    (target_owner_name s) (region s) (retina_scale s) (save_dir s)
    (save_mode s) (is_running s) (capture_count s) (mode s) (last_image s)
    v (auto_thread s) (status s) (settling_time s) (polling_interval s).

Definition set_auto_thread (v : option nat) (s : AppState) : AppState :=
  mkState (capture_mode s) (target_window_id s) (target_window_name s)
    (target_owner_name s) (region s) (retina_scale s) (save_dir s)
    (save_mode s) (is_running s) (capture_count s) (mode s) (last_image s)
    (change_detected_time s) v (status s) (settling_time s)
    (polling_interval s).

Definition set_status (v : string) (s : AppState) : AppState :=
  mkState (capture_mode s) (target_window_id s) (target_window_name s)
    (target_owner_name s) (region s) (retina_scale s) (save_dir s)
    (save_mode s) (is_running s) (capture_count s) (mode s) (last_image s)
    (change_detected_time s) (auto_thread s) v (settling_time s)
    (polling_interval s).

Definition set_settling_time (v : float) (s : AppState) : AppState :=
  mkState (capture_mode s) (target_window_id s) (target_window_name s)
    (target_owner_name s) (region s) (retina_scale s) (save_dir s)
    (save_mode s) (is_running s) (capture_count s) (mode s) (last_image s)
    (change_detected_time s) (auto_thread s) (status s) v
    (polling_interval s).

Definition set_polling_interval (v : float) (s : AppState) : AppState :=
  mkState (capture_mode s) (target_window_id s) (target_window_name s)
    (target_owner_name s) (region s) (retina_scale s) (save_dir s)
    (save_mode s) (is_running s) (capture_count s) (mode s) (last_image s)
    (change_detected_time s) (auto_thread s) (status s) (settling_time s) v.

(** ** Change detector *)

Definition DIFF_THRESHOLD : float := 0.5%float.

(** [sum(histogram[i] for i in range(1, 256))] *)
Definition non_zero_of (hist : list Z) : Z :=
fold_left Z.add (map (fun i => nth i hist 0) (seq 1 255)) 0.

(** [images_different(img1, img2)] *)
Definition images_different (img1 img2 : Image) : result bool :=
if negb (size_eqb (size img1) (size img2)) then Ok true
else
  let diff := difference img1 img2 in
  let hist := histogram diff in
  let non_zero := non_zero_of hist in
  match truediv non_zero (width img1 * height img1 * 3) with
  | Raise e => Raise e
  | Ok ratio => Ok (float_gt (PrimFloat.mul ratio 100%float) DIFF_THRESHOLD)
  end.


(** ** The outside world and the effects on it *)

(** A window as [get_window_list] reports it. *)
Record WindowInfo : Type := mkWindow {
  win_id : Z;
  win_owner : string;
  win_name : string;
  win_width : Z;
  win_height : Z;
  win_display : string
}.

(** What the operating system answers during one call (or one iteration
    of the polling loop). *)
Record World : Type := mkWorld {
  (** result of [capture_window(window_id)] *)
  capture_window_result : Z -> option Image;
  (** image that [screencapture -R] leaves for a rectangle, if any *)
  screencapture_result : Rect -> option Image;
  (** whether [image.save(save_dir / filename, "PNG")] succeeds *)
  image_save_ok : string -> string -> bool;
  (** result of [copy_to_clipboard] *)
  copy_to_clipboard_ok : bool;
  (** whether [save_dir.mkdir(parents=True, exist_ok=True)] succeeds *)
  mkdir_ok : string -> bool;
  (** [time.time()] *)
  clock : float;
  (** identifier of the next thread started *)
  new_thread : nat;
  (** size of the image that [screencapture -i -s] leaves, if any *)
  selection_size : option (Z * Z);
  (** mouse positions sampled during the interactive selection *)
  mouse_positions : list (Z * Z);
  (** names in a directory, [None] when it does not exist *)
  listdir : string -> option (list string);
  (** result of [get_window_list()] *)
  window_list : list WindowInfo;
  (** folder that the picker dialog returns, if any *)
  chosen_folder : option string;
  (** what the operating system does with a sleep of a duration that
      the interpreter accepts *)
  platform_sleep : float -> result unit;
  (** PNG data of [img.resize(new_size, Image.LANCZOS)], or the
      exception that the image library raises *)
  resized_png : Image -> Z * Z -> result string
}.

(** Observable actions on the outside world, in program order. *)
Inductive Effect : Type :=
| CaptureWindow (window_id : Z)
| CaptureRegion (r : Rect)
| ImageSave (dir filename : string) (image : Image) (ok : bool)
| ClipboardCopy (image : Image) (ok : bool)
| PlaySound
| MkDir (dir : string)
| StartThread (target : string)
| OpenDirectory (dir : string).

(** ** A monad for state, effects and exceptions *)

(** A computation reads and writes the session state, appends to the
    trace of effects and returns or raises.  A raise keeps the state
    and the effects reached so far. *)
Definition M (A : Type) : Type := AppState -> result A * AppState * list Effect.

Definition ret {A : Type} (a : A) : M A := fun s => (Ok a, s, []).

Definition bind {A B : Type} (m : M A) (k : A -> M B) : M B :=
  fun s =>
    match m s with
    | (Ok a, s1, e1) =>
        match k a s1 with
        | (r, s2, e2) => (r, s2, (e1 ++ e2)%list)
        end
    | (Raise x, s1, e1) => (Raise x, s1, e1)
    end.

Definition get : M AppState := fun s => (Ok s, s, []).

Definition assign (f : AppState -> AppState) : M unit := fun s => (Ok tt, f s, []).

Definition emit (e : Effect) : M unit := fun s => (Ok tt, s, [e]).

Definition raise {A : Type} (x : string) : M A := fun s => (Raise x, s, []).

Definition lift {A : Type} (r : result A) : M A := fun s => (r, s, []).

(** [try: m  except Exception as e: h e] *)
Definition try_except {A : Type} (m : M A) (h : string -> M A) : M A :=
  fun s =>
    match m s with
    | (Ok a, s1, e1) => (Ok a, s1, e1)
    | (Raise x, s1, e1) =>
        match h x s1 with
        | (r, s2, e2) => (r, s2, (e1 ++ e2)%list)
        end
    end.

Declare Scope monad_scope.
Delimit Scope monad_scope with monad.
Notation "x <- m ;; k" := (bind m (fun x => k))
  (at level 61, m at next level, right associativity) : monad_scope.
Notation "m ;; k" := (bind m (fun _ => k))
  (at level 61, right associativity) : monad_scope.
Open Scope monad_scope.

(** State, result and trace of a run. *)
Definition state_of {A : Type} (r : result A * AppState * list Effect) : AppState :=
  snd (fst r).
Definition result_of {A : Type} (r : result A * AppState * list Effect) : result A :=
  fst (fst r).
Definition effects_of {A : Type} (r : result A * AppState * list Effect) : list Effect :=
  snd r.

(** ** Persistence sink *)

(** [image.save(save_dir / filename, "PNG")] *)
Definition image_save (w : World) (dir filename : string) (image : Image) : M unit :=
  if image_save_ok w dir filename then emit (ImageSave dir filename image true)
  else emit (ImageSave dir filename image false) ;; raise "OSError".

(** [copy_to_clipboard(image)]: catches its own exceptions and answers
    with a boolean. *)
Definition copy_to_clipboard (w : World) (image : Image) : M bool :=
  emit (ClipboardCopy image (copy_to_clipboard_ok w)) ;;
  ret (copy_to_clipboard_ok w).

(** The name [f"slide_{state.capture_count:04d}.png"]. *)
Definition slide_name (n : Z) : string := "slide_" ++ format_04d n ++ ".png".

(** [save_image(image)] *)
Definition save_image (w : World) (image : Image) : M unit :=
  assign (fun s => set_capture_count (capture_count s + 1) s) ;;
  s <- get ;;
  let filename := slide_name (capture_count s) in
  try_except
    (folder_part <-
       (s <- get ;;
        if str_in (save_mode s) ["folder"; "both"] then
          image_save w (save_dir s) filename image ;;
          ret ["📁 " ++ filename]
        else ret []) ;;
     clipboard_part <-
       (s <- get ;;
        if str_in (save_mode s) ["clipboard"; "both"] then
          copied <- copy_to_clipboard w image ;;
          ret [if copied then "📋 コピー済" else "❌ コピー失敗"]
        else ret []) ;;
     let status_parts := (folder_part ++ clipboard_part)%list in
     emit PlaySound ;;
     assign (set_status
               (match status_parts with
                | [] => "✓ " ++ filename
                | _ => "✓ " ++ join " / " status_parts
                end)))
    (fun _ => ret tt).

(** ** Capture source *)

(** [capture_window(window_id)] *)
Definition capture_window (w : World) (window_id : Z) : M (option Image) :=
  emit (CaptureWindow window_id) ;;
  ret (capture_window_result w window_id).

(** [capture_region()] *)
Definition capture_region (w : World) : M (option Image) :=
  s <- get ;;
  match region s with
  | None => ret None
  | Some r => emit (CaptureRegion r) ;; ret (screencapture_result w r)
  end.

(** [do_capture()] *)
Definition do_capture (w : World) : M (option Image) :=
  s <- get ;;
  if (capture_mode s =? "window")%string && truthy_opt_int (target_window_id s) then
    match target_window_id s with
    | Some window_id => capture_window w window_id
    | None => ret None
    end
  else if (capture_mode s =? "region")%string && truthy_opt_obj (region s) then
    capture_region w
  else ret None.

(** ** Scheduler *)

(** [manual_capture()] *)
Definition manual_capture (w : World) : M bool :=
  s <- get ;;
  if negb (is_running s) then
    assign (set_status "❌ 開始してください") ;; ret false
  else if (capture_mode s =? "window")%string && negb (truthy_opt_int (target_window_id s)) then
    assign (set_status "❌ ウィンドウ未選択") ;; ret false
  else if (capture_mode s =? "region")%string && negb (truthy_opt_obj (region s)) then
    assign (set_status "❌ 領域未設定") ;; ret false
  else
    image <- do_capture w ;;
    match image with
    | Some img => save_image w img ;; ret true
    | None => assign (set_status "❌ キャプチャ失敗") ;; ret false
    end.

(** The [try] statement in the body of the [while] loop of
    [auto_monitor_loop()].  It answers whether it has left the body by
    [continue], which it does after [time.sleep(1)] when the capture
    yields no image. *)
Definition auto_try (w : World) : M bool :=
  try_except
    (current_image <- do_capture w ;;
     match current_image with
     | None => ret true
     | Some cur =>
         s <- get ;;
         match last_image s with
         | Some prev =>
             changed <- lift (images_different prev cur) ;;
             if changed then
               assign (set_change_detected_time (Some (clock w))) ;;
               assign (set_status "🔍 変化検知...")
             else
               s <- get ;;
               if truthy_opt_float (change_detected_time s) then
                 match change_detected_time s with
                 | Some t =>
                     if float_ge (PrimFloat.sub (clock w) t) (settling_time s) then
                       save_image w cur ;;
                       assign (set_change_detected_time None)
                     else ret tt
                 | None => ret tt
                 end
               else ret tt
         | None => ret tt
         end ;;
         assign (set_last_image (Some cur)) ;;
         ret false
     end)
    (fun _ => ret false).

(** The same [try] statement, as a statement. *)
Definition auto_iteration (w : World) : M unit :=
  auto_try w ;; ret tt.

(** [time.sleep(state.polling_interval)], the last statement of the loop
    body.  It stands outside the [try], so an exception that it raises
    leaves the loop and ends the thread. *)
Definition polling_sleep (w : World) : M unit :=
  s <- get ;;
  lift (sleep (platform_sleep w) (polling_interval s)).

(** [auto_monitor_loop()], observed for as many iterations as there are
    snapshots of the world; the loop condition is tested before each. *)
Fixpoint auto_monitor_loop (ws : list World) : M unit :=
  match ws with
  | [] => ret tt
  | w :: rest =>
      s <- get ;;
      if is_running s && (mode s =? "auto")%string then
        continued <- auto_try w ;;
        (if continued then ret tt else polling_sleep w) ;;
        auto_monitor_loop rest
      else ret tt
  end.

(** [state.save_dir.mkdir(parents=True, exist_ok=True)] *)
Definition mkdir (w : World) (dir : string) : M unit :=
  if mkdir_ok w dir then emit (MkDir dir) else raise "OSError".

(** [start_capture()] *)
Definition start_capture (w : World) : M bool :=
  s <- get ;;
  if (capture_mode s =? "window")%string && negb (truthy_opt_int (target_window_id s)) then
    assign (set_status "❌ ウィンドウを選択してください") ;; ret false
  else if (capture_mode s =? "region")%string && negb (truthy_opt_obj (region s)) then
    assign (set_status "❌ 領域を選択してください") ;; ret false
  else
    assign (set_is_running true) ;;
    s <- get ;;
    mkdir w (save_dir s) ;;
    s <- get ;;
    target_desc <-
      (if (capture_mode s =? "window")%string then ret (target_owner_name s)
       else
         match region s with
         | Some r => ret (str_of_int (rect_w r) ++ "x" ++ str_of_int (rect_h r))
         | None => raise "TypeError"
         end) ;;
    s <- get ;;
    if (mode s =? "manual")%string then
      assign (set_status "🖱 Cmd+Ctrl+S で撮影") ;; ret true
    else
      assign (set_last_image None) ;;
      assign (set_change_detected_time None) ;;
      assign (set_auto_thread (Some (new_thread w))) ;;
      emit (StartThread "auto_monitor_loop") ;;
      assign (set_status "🔄 監視中") ;;
      ret true.

(** [stop_capture()] *)
Definition stop_capture : M unit :=
  assign (set_is_running false) ;;
  assign (set_status "停止中").

(** ** Seeding the counter *)

(** [fnmatch(name, "slide_*.png")] *)
Definition matches_slide_pattern (name : string) : bool :=
  startswith "slide_" name && endswith ".png" name
  && (10 <=? String.length name)%nat.

(** [PurePath.stem]: the name without its last suffix. *)
Definition stem (name : string) : string :=
  match rfind "." name with
  | Some i =>
      if (0 <? i)%nat && (i <? String.length name - 1)%nat then substring 0 i name
      else name
  | None => name
  end.

(** [int(f.stem.split("_")[1])] *)
Definition sequence_number (name : string) : result Z :=
  match getitem (split "_" (stem name)) 1 with
  | Ok part => int_of_str part
  | Raise x => Raise x
  end.

(** The [for] loop of [init_capture_count()] over the matching names. *)
Fixpoint scan_slides (names : list string) : M unit :=
  match names with
  | [] => ret tt
  | f :: rest =>
      try_except
        (num <- lift (sequence_number f) ;;
         assign (fun s => set_capture_count (Z.max (capture_count s) num) s))
        (fun _ => ret tt) ;;
      scan_slides rest
  end.

(** [init_capture_count()] *)
Definition init_capture_count (w : World) : M unit :=
  assign (set_capture_count 0) ;;
  s <- get ;;
  match listdir w (save_dir s) with
  | None => ret tt
  | Some names => scan_slides (filter matches_slide_pattern names)
  end.

(** ** Interactive region selection *)

(** [interactive_select_region()] *)
Definition interactive_select_region (w : World) : M bool :=
  match selection_size w with
  | Some (cap_w, cap_h) =>
      s <- get ;;
      let scale := retina_scale s in
      rw <- lift (floordiv cap_w scale) ;;
      rh <- lift (floordiv cap_h scale) ;;
      (if (2 <=? List.length (mouse_positions w))%nat then
         let '(last_x, last_y) := List.last (mouse_positions w) (0, 0) in
         let x := last_x - rw in
         let y := last_y - rh in
         assign (set_region (Some (Z.max 0 x, Z.max 0 y, rw, rh)))
       else assign (set_region (Some (100, 100, rw, rh)))) ;;
      assign (set_capture_mode "region") ;;
      s <- get ;;
      match region s with
      | Some r =>
          assign (set_status ("領域: " ++ str_of_int (rect_x r) ++ ","
                              ++ str_of_int (rect_y r) ++ " "
                              ++ str_of_int rw ++ "x" ++ str_of_int rh)) ;;
          ret true
      | None => raise "TypeError"
      end
  | None => ret false
  end.

(** ** Control surface *)

(** The routes of [RequestHandler.do_GET], in the order of its tests;
    [NotFound] stands for a path that is none of them.  A query
    parameter is [None] when absent; a numeric parameter holds the
    outcome of its conversion by [int()] or [float()]. *)
Inductive Request : Type :=
| Index
| Windows
| SelectWindow (id : option (result Z))
| Thumbnail (id : option (result Z))
| CaptureMode (mode : option string)
| SelectRegion
| Mode (mode : option string)
| SaveMode (mode : option string)
| Toggle (saveDir : option string)
         (settlingTime pollingInterval : option (result float))
         (rx ry rw rh : option (result Z))
| Capture
| OpenFolder
| Reset
| Status
| SelectFolder
| NotFound (path : string).

(** [query.get(name, [default])[0]] *)
Definition param {A : Type} (q : option A) (default : A) : A :=
  match q with
  | Some v => v
  | None => default
  end.

(** The [for w in windows] loop of the route [/api/select_window]. *)
Fixpoint select_first (wid : Z) (windows : list WindowInfo) : M unit :=
  match windows with
  | [] => ret tt
  | w :: rest =>
      if win_id w =? wid then
        assign (set_target_window_id (Some wid)) ;;
        assign (set_target_owner_name (win_owner w)) ;;
        assign (set_target_window_name (win_name w)) ;;
        assign (set_status ("選択: " ++ win_owner w))
      else select_first wid rest
  end.

(** [capture_window_thumbnail(window_id)], with [max_width] at its
    default of 400. *)
Definition capture_window_thumbnail (w : World) (window_id : Z) : M (option string) :=
  img <- capture_window w window_id ;;
  match img with
  | None => ret None
  | Some im =>
      ratio <- lift (truediv 400 (width im)) ;;
      new_height <- lift (int_of_float (PrimFloat.mul (float_of_int (height im)) ratio)) ;;
      data <- lift (resized_png w im (400, new_height)) ;;
      ret (Some data)
  end.

(** [bool(x)] for optional [bytes]: [None] and the empty string are
    false. *)
Definition truthy_opt_bytes (o : option string) : bool :=
  match o with
  | None => false
  | Some data => negb (data =? "")%string
  end.

(** [do_GET], returning the HTTP status code sent. *)
Definition do_GET (w : World) (req : Request) : M Z :=
  match req with
  | Index => ret 200
  | Windows => ret 200
  | SelectWindow id =>
      wid <- lift (param id (Ok 0)) ;;
      (if truthy_int wid then select_first wid (window_list w) else ret tt) ;;
      ret 200
  | Thumbnail id =>
      wid <- lift (param id (Ok 0)) ;;
      if truthy_int wid then
        data <- capture_window_thumbnail w wid ;;
        if truthy_opt_bytes data then ret 200 else ret 404
      else ret 404
  | CaptureMode m =>
      s <- get ;;
      (if negb (is_running s) then assign (set_capture_mode (param m "window"))
       else ret tt) ;;
      ret 200
  | SelectRegion =>
      interactive_select_region w ;;
      ret 200
  | Mode m =>
      s <- get ;;
      (if negb (is_running s) then assign (set_mode (param m "manual"))
       else ret tt) ;;
      ret 200
  | SaveMode m =>
      s <- get ;;
      (if negb (is_running s) then
         let mode := param m "folder" in
         if str_in mode ["folder"; "clipboard"; "both"] then assign (set_save_mode mode)
         else ret tt
       else ret tt) ;;
      ret 200
  | Toggle saveDir settlingTime pollingInterval rx ry rw rh =>
      s <- get ;;
      (if is_running s then stop_capture
       else
         try_except
           (s <- get ;;
            assign (set_save_dir (param saveDir (save_dir s))) ;;
            st <- lift (param settlingTime (Ok 0.5%float)) ;;
            assign (set_settling_time st) ;;
            pi <- lift (param pollingInterval (Ok 0x1.999999999999ap-3%float)) ;;
            assign (set_polling_interval pi) ;;
            s <- get ;;
            (if (capture_mode s =? "region")%string then
               x <- lift (param rx (Ok 100)) ;;
               y <- lift (param ry (Ok 100)) ;;
               w_ <- lift (param rw (Ok 800)) ;;
               h_ <- lift (param rh (Ok 600)) ;;
               assign (set_region (Some (x, y, w_, h_)))
             else ret tt) ;;
            start_capture w ;;
            ret tt)
           (fun _ => ret tt)) ;;
      ret 200
  | Capture =>
      emit (StartThread "manual_capture") ;;
      ret 200
  | OpenFolder =>
      s <- get ;;
      emit (OpenDirectory (save_dir s)) ;;
      ret 200
  | Reset =>
      assign (set_capture_count 0) ;;
      ret 200
  | Status => ret 200
  | SelectFolder =>
      try_except
        (match chosen_folder w with
         | Some dir =>
             assign (set_save_dir dir) ;;
             mkdir w dir ;;
             init_capture_count w
         | None => ret tt
         end)
        (fun _ => ret tt) ;;
      ret 200
  | NotFound path => ret 404
  end.

(** ** Keyboard shortcut *)

(** Values of the Quartz constants that [keyboard_callback] uses. *)
Definition kCGEventKeyDown : Z := 10.
Definition kCGEventFlagMaskCommand : Z := 0x100000.
Definition kCGEventFlagMaskControl : Z := 0x40000.
Definition SHORTCUT_KEYCODE : Z := 1.

(** [keyboard_callback(proxy, event_type, event, refcon)], for an event
    with the given key code and modifier flags. *)
Definition keyboard_callback (event_type keycode flags : Z) : M unit :=
  if event_type =? kCGEventKeyDown then
    let cmd_pressed := negb (Z.land flags kCGEventFlagMaskCommand =? 0) in
    let ctrl_pressed := negb (Z.land flags kCGEventFlagMaskControl =? 0) in
    if cmd_pressed && ctrl_pressed && (keycode =? SHORTCUT_KEYCODE) then
      emit (StartThread "manual_capture")
    else ret tt
  else ret tt.

(** ** Threads running [manual_capture] *)

(** Where a thread started with [target=manual_capture] stands: before
    the three guards, before the capture, holding the outcome of the
    capture, or returned. *)
Inductive Phase : Type :=
| AtGuards
| AtCapture
| AtSave (image : option Image)
| Finished (returned : bool).

(** The next stretch of [manual_capture] that a thread runs without
    being interrupted. *)
Definition thread_step (w : World) (ph : Phase) : M Phase :=
  match ph with
  | AtGuards =>
      s <- get ;;
      if negb (is_running s) then
        assign (set_status "❌ 開始してください") ;; ret (Finished false)
      else if (capture_mode s =? "window")%string && negb (truthy_opt_int (target_window_id s)) then
        assign (set_status "❌ ウィンドウ未選択") ;; ret (Finished false)
      else if (capture_mode s =? "region")%string && negb (truthy_opt_obj (region s)) then
        assign (set_status "❌ 領域未設定") ;; ret (Finished false)
      else ret AtCapture
  | AtCapture =>
      image <- do_capture w ;;
      ret (AtSave image)
  | AtSave (Some img) => save_image w img ;; ret (Finished true)
  | AtSave None => assign (set_status "❌ キャプチャ失敗") ;; ret (Finished false)
  | Finished b => ret (Finished b)
  end.

(** The process: the shared state, the threads started for
    [manual_capture] and the effects so far. *)
Record System : Type := mkSystem {
  sys_state : AppState;
  sys_threads : list Phase;
  sys_trace : list Effect
}.

(** What happens next: an HTTP request is served, a key event reaches
    the event tap, or the interpreter lets one thread run. *)
Inductive Event : Type :=
| Get (req : Request)
| Key (event_type keycode flags : Z)
| Schedule (tid : nat).

Definition is_manual_start (e : Effect) : bool :=
  match e with
  | StartThread target => (target =? "manual_capture")%string
  | _ => false
  end.

(** One new thread per [Thread(target=manual_capture).start()]. *)
Definition started (effects : list Effect) : list Phase :=
  map (fun _ => AtGuards) (filter is_manual_start effects).

(** Replaces element [i] of a list; out of range nothing changes. *)
Fixpoint replace_nth {A : Type} (i : nat) (x : A) (xs : list A) : list A :=
  match xs, i with
  | [], _ => []
  | _ :: rest, O => x :: rest
  | y :: rest, S i' => y :: replace_nth i' x rest
  end.

Definition sys_step (w : World) (ev : Event) (sy : System) : System :=
  match ev with
  | Get req =>
      match do_GET w req (sys_state sy) with
      | (_, s', effects) =>
          mkSystem s' (sys_threads sy ++ started effects) (sys_trace sy ++ effects)
      end
  | Key event_type keycode flags =>
      match keyboard_callback event_type keycode flags (sys_state sy) with
      | (_, s', effects) =>
          mkSystem s' (sys_threads sy ++ started effects) (sys_trace sy ++ effects)
      end
  | Schedule tid =>
      match nth_error (sys_threads sy) tid with
      | Some ph =>
          match thread_step w ph (sys_state sy) with
          | (Ok ph', s', effects) =>
              mkSystem s' (replace_nth tid ph' (sys_threads sy)) (sys_trace sy ++ effects)
          | (Raise _, s', effects) =>
              mkSystem s' (replace_nth tid (Finished false) (sys_threads sy))
                       (sys_trace sy ++ effects)
          end
      | None => sy
      end
  end.

Definition sys_run (w : World) (evs : list Event) (sy : System) : System :=
  fold_left (fun acc ev => sys_step w ev acc) evs sy.

(** Threads that have passed the guards and not yet returned. *)
Definition in_flight (ph : Phase) : bool :=
  match ph with
  | AtCapture | AtSave _ => true
  | _ => false
  end.

Definition is_capture (e : Effect) : bool :=
  match e with
  | CaptureWindow _ | CaptureRegion _ => true
  | _ => false
  end.

(** Effects on the persistence sink. *)
Definition is_sink (e : Effect) : bool :=
  match e with
  | ImageSave _ _ _ _ | ClipboardCopy _ _ | PlaySound => true
  | _ => false
  end.

(** ** Definitions used in the statements *)

(** The image that [do_capture] obtains in world [w] from state [s]. *)
Definition target_image (w : World) (s : AppState) : option Image :=
  if (capture_mode s =? "window")%string && truthy_opt_int (target_window_id s) then
    match target_window_id s with
    | Some window_id => capture_window_result w window_id
    | None => None
    end
  else if (capture_mode s =? "region")%string && truthy_opt_obj (region s) then
    match region s with
    | Some r => screencapture_result w r
    | None => None
    end
  else None.

(** The configured target is absent: window mode without a window
    identifier, or region mode without a rectangle. *)
Definition target_absent (s : AppState) : bool :=
  ((capture_mode s =? "window")%string && negb (truthy_opt_int (target_window_id s)))
  || ((capture_mode s =? "region")%string && negb (truthy_opt_obj (region s))).

(** The change detector as the specification words it: the samples of
    the difference image that are not zero, counted over the three
    colour channels, as a percentage of [width * height * 3]. *)
Definition nonzero_samples (im : Image) : Z :=
  Z.of_nat (List.length (filter (fun v => negb (v =? 0))
              (map red (pixels im) ++ map green (pixels im) ++ map blue (pixels im)))).

Definition spec_isChanged (img1 img2 : Image) : result bool :=
  if negb (size_eqb (size img1) (size img2)) then Ok true
  else
    match truediv (nonzero_samples (difference img1 img2))
                  (width img1 * height img1 * 3) with
    | Raise e => Raise e
    | Ok ratio => Ok (float_gt (PrimFloat.mul ratio 100%float) DIFF_THRESHOLD)
    end.

(** Sample frames: a 2 x 2 black frame, and the same frame with the
    green and blue samples of every pixel at full intensity. *)
Definition frame_black : Image :=
  {| width := 2; height := 2;
     pixels := [(0, 0, 0); (0, 0, 0); (0, 0, 0); (0, 0, 0)] |}.

Definition frame_cyan : Image :=
  {| width := 2; height := 2;
     pixels := [(0, 255, 255); (0, 255, 255); (0, 255, 255); (0, 255, 255)] |}.

Definition frame_white : Image :=
  {| width := 2; height := 2;
     pixels := [(255, 255, 255); (255, 255, 255); (255, 255, 255); (255, 255, 255)] |}.

(** The effect of [do_capture] on the capture source. *)
Definition capture_effects (s : AppState) : list Effect :=
  if (capture_mode s =? "window")%string && truthy_opt_int (target_window_id s) then
    match target_window_id s with
    | Some window_id => [CaptureWindow window_id]
    | None => []
    end
  else if (capture_mode s =? "region")%string && truthy_opt_obj (region s) then
    match region s with
    | Some r => [CaptureRegion r]
    | None => []
    end
  else [].

(** File names that the trace shows handed to [image.save]. *)
Definition save_names (effects : list Effect) : list string :=
  flat_map (fun e => match e with
                     | ImageSave _ filename _ _ => [filename]
                     | _ => []
                     end) effects.

(** Images that the trace shows handed to the clipboard. *)
Definition clipboard_images (effects : list Effect) : list Image :=
  flat_map (fun e => match e with
                     | ClipboardCopy image _ => [image]
                     | _ => []
                     end) effects.

(** A world in which every capture yields [frame], writes to the folder
    succeed or fail as [folder_ok] says, the clipboard as [clip_ok]
    says, and the clock reads [now]. *)
Definition world_with (frame : option Image) (folder_ok clip_ok : bool) (now : float) : World :=
  {| capture_window_result := fun _ => frame;
     screencapture_result := fun _ => frame;
     image_save_ok := fun _ _ => folder_ok;
     copy_to_clipboard_ok := clip_ok;
     mkdir_ok := fun _ => true;
     clock := now;
     new_thread := 1%nat;
     selection_size := Some (800, 600);
     mouse_positions := [(500, 400); (900, 700)];
     listdir := fun _ => None;
     window_list := [];
     chosen_folder := None;
     platform_sleep := fun _ => Ok tt;
     resized_png := fun _ _ => Ok "PNG" |}.

(** A session armed on window 42, in the given scheduler mode and save
    mode, with three captures taken so far. *)
Definition armed_on_window (scheduler_mode saving : string) : AppState :=
  set_capture_count 3
    (set_save_mode saving
       (set_mode scheduler_mode
          (set_is_running true
             (set_target_owner_name "Keynote"
                (set_target_window_id (Some 42) (initial_state "/Users/me")))))).

(** The status with which [start_capture] rejects an absent target. *)
Definition start_rejection (s : AppState) : string :=
  if (capture_mode s =? "window")%string && negb (truthy_opt_int (target_window_id s))
  then "❌ ウィンドウを選択してください"
  else "❌ 領域を選択してください".

(** The numbers that [init_capture_count] reads off the names of a
    directory: those of the names matching [slide_*.png] whose second
    underscore-separated part of the stem converts with [int()]. *)
Definition slide_numbers (names : list string) : list Z :=
  flat_map (fun name => match sequence_number name with
                        | Ok n => [n]
                        | Raise _ => []
                        end)
           (filter matches_slide_pattern names).

(** The seed as the specification words it: the maximum sequence number
    among the existing files, 0 when the directory is absent or holds
    no parseable match. *)
Definition max_sequence_number (listing : option (list string)) : Z :=
  match listing with
  | None => 0
  | Some names => fold_right Z.max 0 (slide_numbers names)
  end.

(** A world whose save directory holds the given names. *)
Definition world_with_files (names : list string) : World :=
  {| capture_window_result := fun _ => Some frame_white;
     screencapture_result := fun _ => Some frame_white;
     image_save_ok := fun _ _ => true;
     copy_to_clipboard_ok := true;
     mkdir_ok := fun _ => true;
     clock := 0%float;
     new_thread := 1%nat;
     selection_size := Some (800, 600);
     mouse_positions := [(500, 400); (900, 700)];
     listdir := fun _ => Some names;
     window_list := [];
     chosen_folder := None;
     platform_sleep := fun _ => Ok tt;
     resized_png := fun _ _ => Ok "PNG" |}.



(** [time.time() - t0 >= state.settling_time] in world [w]. *)
Definition settled (s : AppState) (t0 : float) (w : World) : bool :=
  float_ge (PrimFloat.sub (clock w) t0) (settling_time s).





(** The scenario of the specification: settle time 0.5 s, polling every
    0.2 s; the session is polling window 42, the last change was seen
    at 0.4 s and the frame has been white since. *)
Definition polling_after_change : AppState :=
  set_change_detected_time (Some 0x1.999999999999ap-2%float (* 0.4 *))
    (set_last_image (Some frame_white) (armed_on_window "auto" "folder")).




(** The same scenario from its start: polling begins at 0 s on a black
    frame, the frame is white at 0.2 s and black again from 0.4 s on. *)
Definition scenario : list World :=
  [world_with (Some frame_black) true true 0%float;
   world_with (Some frame_white) true true 0x1.999999999999ap-3%float (* 0.2 *);
   world_with (Some frame_black) true true 0x1.999999999999ap-2%float (* 0.4 *);
   world_with (Some frame_black) true true 0x1.3333333333333p-1%float (* 0.6 *);
   world_with (Some frame_black) true true 0x1.999999999999ap-1%float (* 0.8 *);
   world_with (Some frame_black) true true 1%float;
   world_with (Some frame_black) true true 0x1.3333333333333p+0%float (* 1.2 *)].

(** An event that starts a thread for [manual_capture]: the request
    [/api/capture], or a key-down of the S key with both the Command
    and the Control flag set. *)
Definition is_trigger (ev : Event) : bool :=
  match ev with
  | Get Capture => true
  | Key event_type keycode flags =>
      (event_type =? kCGEventKeyDown)
      && (negb (Z.land flags kCGEventFlagMaskCommand =? 0)
          && negb (Z.land flags kCGEventFlagMaskControl =? 0)
          && (keycode =? SHORTCUT_KEYCODE))
  | _ => false
  end.

(** Events of the manual-trigger scenario: triggers, other key events
    and scheduling; no other request interferes. *)
Definition manual_event (ev : Event) : bool :=
  match ev with
  | Get Capture | Key _ _ _ | Schedule _ => true
  | Get _ => false
  end.

Definition triggers (evs : list Event) : nat := List.length (filter is_trigger evs).

Definition count_phase (f : Phase -> bool) (threads : list Phase) : nat :=
  List.length (filter f threads).

Definition has_saved (ph : Phase) : bool :=
  match ph with
  | Finished true => true
  | _ => false
  end.

Definition has_captured (ph : Phase) : bool :=
  match ph with
  | AtSave _ | Finished _ => true
  | _ => false
  end.

Definition has_finished (ph : Phase) : bool :=
  match ph with
  | Finished _ => true
  | _ => false
  end.

(** A thread that has neither been rejected nor lost its capture. *)
Definition on_track (ph : Phase) : bool :=
  match ph with
  | AtSave None | Finished false => false
  | _ => true
  end.

(** The state still has the running flag and the target of [s]. *)
Definition same_target (s s' : AppState) : Prop :=
  is_running s' = is_running s
  /\ capture_mode s' = capture_mode s
  /\ target_window_id s' = target_window_id s
  /\ region s' = region s.

(** What holds of the process while only manual triggers arrive: the
    counter has advanced once per thread that has saved, and the trace
    holds one capture per thread that has captured. *)
Definition pool_invariant (s : AppState) (sy : System) : Prop :=
  same_target s (sys_state sy)
  /\ capture_count (sys_state sy)
     = capture_count s + Z.of_nat (count_phase has_saved (sys_threads sy))
  /\ List.length (filter is_capture (sys_trace sy))
     = count_phase has_captured (sys_threads sy)
  /\ forallb on_track (sys_threads sy) = true.

(** The shortcut: key-down of S with Command and Control. *)
Definition hotkey : Event := Key 10 1 (Z.lor 0x100000 0x40000).

(** Two triggers arrive, one by HTTP and one by the shortcut, before
    either thread has run; the threads then advance in turns. *)
Definition two_concurrent_triggers : list Event :=
  [Get Capture; hotkey;
   Schedule 0; Schedule 1; Schedule 0; Schedule 1; Schedule 0; Schedule 1].

(** A 200 x 1 frame whose first [changed] pixels are red and whose
    other pixels are black. *)
Definition strip_frame (changed : nat) : Image :=
  {| width := 200; height := 1;
     pixels := repeat (255, 0, 0) changed ++ repeat (0, 0, 0) (200 - changed) |}.

(** A frame without pixels. *)
Definition empty_frame : Image := {| width := 0; height := 0; pixels := [] |}.

(** ** Window enumeration *)

(** An entry of [CGWindowListCopyWindowInfo] as the loop of
    [get_window_list] reads it: each field holds what [w.get] returns
    with its default, the bounds after [int()]. *)
Record RawWindow : Type := mkRaw {
  raw_owner : string;
  raw_name : string;
  raw_number : Z;
  raw_layer : Z;
  raw_width : Z;
  raw_height : Z
}.

(** The key [(owner, name, width, height)] of the duplicate test. *)
Definition WindowKey : Type := (string * string * Z * Z)%type.

Definition raw_key (r : RawWindow) : WindowKey :=
  (raw_owner r, raw_name r, raw_width r, raw_height r).

Definition key_eqb (a b : WindowKey) : bool :=
  match a, b with
  | (o1, n1, w1, h1), (o2, n2, w2, h2) =>
      (o1 =? o2)%string && (n1 =? n2)%string && (w1 =? w2) && (h1 =? h2)
  end.

(** The text shown for a window. *)
Definition display_name (r : RawWindow) : string :=
  raw_owner r
  ++ (if (raw_name r =? "")%string then "" else " - " ++ raw_name r)
  ++ " (" ++ str_of_int (raw_width r) ++ "×" ++ str_of_int (raw_height r) ++ ")".

Definition window_entry (r : RawWindow) : WindowInfo :=
  {| win_id := raw_number r;
     win_owner := raw_owner r;
     win_name := raw_name r;
     win_width := raw_width r;
     win_height := raw_height r;
     win_display := display_name r |}.

(** The [for w in window_list] loop of [get_window_list], [seen] being
    the keys added so far. *)
Fixpoint window_loop (raws : list RawWindow) (seen : list WindowKey) : list WindowInfo :=
  match raws with
  | [] => []
  | r :: rest =>
      if (raw_width r <? 50) || (raw_height r <? 50) then window_loop rest seen
      else if negb (raw_layer r =? 0) then window_loop rest seen
      else if (raw_owner r =? "")%string then window_loop rest seen
      else if existsb (key_eqb (raw_key r)) seen then window_loop rest seen
      else window_entry r :: window_loop rest (raw_key r :: seen)
  end.

(** [get_window_list()], on the entries that the window server lists. *)
Definition get_window_list (raws : list RawWindow) : list WindowInfo :=
  window_loop raws [].

(** A listed entry that the filters of [get_window_list] let pass. *)
Definition listable (r : RawWindow) : bool :=
  (50 <=? raw_width r) && (50 <=? raw_height r)
  && (raw_layer r =? 0) && negb (raw_owner r =? "")%string.

Definition info_key (i : WindowInfo) : WindowKey :=
  (win_owner i, win_name i, win_width i, win_height i).

(** ** Display scale *)

(** [detect_retina_scale()]: [probe] is what the 10-point test capture
    gives: the width of the image written, [None] when no file came out,
    or the exception raised on the way. *)
Definition detect_retina_scale (probe : result (option Z)) : Z :=
  match probe with
  | Ok (Some image_width) => Z.max 1 (image_width / 10)
  | Ok None => 2
  | Raise _ => 2
  end.

(** ** Reading file names back *)

(** All characters of the string are decimal digits. *)
Fixpoint all_digits (s : string) : bool :=
  match s with
  | EmptyString => true
  | String c s' =>
      match digit_value c with
      | Some _ => all_digits s'
      | None => false
      end
  end.

(** The number that a decimal numeral denotes, read most significant
    digit first after [acc]. *)
Fixpoint uint_value (d : Decimal.uint) (acc : Z) : Z :=
  match d with
  | Decimal.Nil => acc
  | Decimal.D0 d' => uint_value d' (10 * acc)
  | Decimal.D1 d' => uint_value d' (10 * acc + 1)
  | Decimal.D2 d' => uint_value d' (10 * acc + 2)
  | Decimal.D3 d' => uint_value d' (10 * acc + 3)
  | Decimal.D4 d' => uint_value d' (10 * acc + 4)
  | Decimal.D5 d' => uint_value d' (10 * acc + 5)
  | Decimal.D6 d' => uint_value d' (10 * acc + 6)
  | Decimal.D7 d' => uint_value d' (10 * acc + 7)
  | Decimal.D8 d' => uint_value d' (10 * acc + 8)
  | Decimal.D9 d' => uint_value d' (10 * acc + 9)
  end.

(** [c in s] for a character. *)
Fixpoint contains (c : ascii) (s : string) : bool :=
  match s with
  | EmptyString => false
  | String d s' => Ascii.eqb c d || contains c s'
  end.

(** ** Frames of the scheduler *)

(** [s'] is [s] with at most the counter, the last frame, the pending
    time stamp and the status written, the counter not lowered. *)
Definition loop_writes (s s' : AppState) : Prop :=
  exists (c : Z) (frame : option Image) (pending : option float) (text : string),
    s' = set_status text
           (set_change_detected_time pending
              (set_last_image frame (set_capture_count c s)))
    /\ capture_count s <= c.

(** The settings that the route [/api/toggle] stores before it starts
    the scheduler in window mode, the two times having converted. *)
Definition toggled_settings (saveDir : option string) (settlingTime pollingInterval : option float)
           (s : AppState) : AppState :=
  set_polling_interval (param pollingInterval 0x1.999999999999ap-3%float)
    (set_settling_time (param settlingTime 0.5%float)
       (set_save_dir (param saveDir (save_dir s)) s)).

(** A world as [world_with], in which no directory can be created. *)
Definition world_without_mkdir (frame : option Image) : World :=
  {| capture_window_result := fun _ => frame;
     screencapture_result := fun _ => frame;
     image_save_ok := fun _ _ => false;
     copy_to_clipboard_ok := true;
     mkdir_ok := fun _ => false;
     clock := 0%float;
     new_thread := 1%nat;
     selection_size := None;
     mouse_positions := [];
     listdir := fun _ => None;
     window_list := [];
     chosen_folder := None;
     platform_sleep := fun _ => Ok tt;
     resized_png := fun _ _ => Ok "PNG" |}.

(** A stopped session with window 42 selected. *)
Definition stopped_on_window (scheduler_mode : string) : AppState :=
  set_is_running false (armed_on_window scheduler_mode "folder").

(** The save mode is one of the three that [save_image] knows. *)
Definition save_mode_valid (s : AppState) : bool :=
  str_in (save_mode s) ["folder"; "clipboard"; "both"].

(** A running session is not in window mode without a window
    identifier, nor in region mode without a rectangle. *)
Definition running_has_target (s : AppState) : bool :=
  negb (is_running s) || negb (target_absent s).

(** A request that writes the counter by itself. *)
Definition rewrites_counter (ev : Event) : bool :=
  match ev with
  | Get Reset | Get SelectFolder => true
  | _ => false
  end.

(** ** The sleep of the polling loop *)

(** In every snapshot of the run, [time.sleep] returns for the polling
    interval of the session. *)
Definition sleeps (s : AppState) (ws : list World) : bool :=
  forallb (fun w => match sleep (platform_sleep w) (polling_interval s) with
                    | Ok _ => true
                    | Raise _ => false
                    end) ws.


(** The white frame at 0.6 s, 0.8 s, 1.0 s and 1.2 s, the folder and the
    clipboard answering as given. *)
Definition white_from_600ms (folder_ok clip_ok : bool) : list World :=
  [world_with (Some frame_white) folder_ok clip_ok 0x1.3333333333333p-1%float;
   world_with (Some frame_white) folder_ok clip_ok 0x1.999999999999ap-1%float;
   world_with (Some frame_white) folder_ok clip_ok 1%float;
   world_with (Some frame_white) folder_ok clip_ok 0x1.3333333333333p+0%float].

(** The status with which [manual_capture] turns a call down at one of
    its three guards. *)
Definition manual_rejection (s : AppState) : string :=
  if negb (is_running s) then "❌ 開始してください"
  else if (capture_mode s =? "window")%string && negb (truthy_opt_int (target_window_id s))
  then "❌ ウィンドウ未選択"
  else "❌ 領域未設定".

(** ** Unfolding the monad *)

Ltac run_m :=
  cbv beta iota zeta delta
    [bind ret get assign emit raise lift try_except
     state_of result_of effects_of fst snd].

(** ** Change detector *)

Lemma band_histogram_length (band : list Z) :
  List.length (band_histogram band) = 256%nat.
Proof.
  unfold band_histogram. rewrite length_map, length_seq. reflexivity.
Qed.

Lemma non_zero_of_app (h1 h2 : list Z) :
  List.length h1 = 256%nat -> non_zero_of (h1 ++ h2) = non_zero_of h1.
Proof.
  intros Hlen. unfold non_zero_of. f_equal.
  apply map_ext_in. intros i Hi. apply in_seq in Hi.
  apply app_nth1. lia.
Qed.

(** Two frames of different sizes are always reported as changed. *)
Lemma images_different_size_mismatch (img1 img2 : Image) :
  size img1 <> size img2 -> images_different img1 img2 = Ok true.
Proof.
  intros Hne. unfold images_different.
  destruct (size_eqb (size img1) (size img2)) eqn:E; [| reflexivity].
  exfalso. apply Hne. unfold size_eqb, size in *. simpl in E.
  apply andb_true_iff in E. destruct E as [E1 E2].
  apply Z.eqb_eq in E1. apply Z.eqb_eq in E2. congruence.
Qed.

(** C1. The claim: for frames of equal size [images_different] answers
    true exactly when the share of non-zero difference samples over the
    three colour channels exceeds 0.5 percent.  The code sums the bins 1
    to 255 of a 768-bin histogram, which are the bins of the red band
    alone (first part), so a change confined to green and blue goes
    unseen: between the black and the cyan frame two thirds of the
    samples differ, the specified detector answers true and the code
    answers false (second part). *)
Theorem images_different_counts_red_only :
  (forall im : Image,
      non_zero_of (histogram im) = non_zero_of (band_histogram (map red (pixels im))))
  /\ wf frame_black = true /\ wf frame_cyan = true
  /\ size frame_black = size frame_cyan
  /\ nonzero_samples (difference frame_black frame_cyan) = 8
  /\ spec_isChanged frame_black frame_cyan = Ok true
  /\ images_different frame_black frame_cyan = Ok false.
Proof.
  split.
  - intros im. unfold histogram. apply non_zero_of_app, band_histogram_length.
  - repeat split; vm_compute; reflexivity.
Qed.

Ltac fields :=
  cbn [capture_mode target_window_id target_window_name target_owner_name
       region retina_scale save_dir save_mode is_running capture_count mode
       last_image change_detected_time auto_thread status settling_time
       polling_interval
       set_capture_mode set_target_window_id set_target_window_name
       set_target_owner_name set_region set_retina_scale set_save_dir
       set_save_mode set_is_running set_capture_count set_mode set_last_image
       set_change_detected_time set_auto_thread set_status set_settling_time
       set_polling_interval] in *.

Ltac step_m := run_m; fields.

(** At the threshold: 3 of 600 samples are 0.5 percent and do not count
    as a change, 4 of 600 do.  The changes here are in the red band, so
    the code and the specified detector agree. *)
Example images_different_at_threshold :
  images_different (strip_frame 0) (strip_frame 3) = Ok false
  /\ spec_isChanged (strip_frame 0) (strip_frame 3) = Ok false
  /\ images_different (strip_frame 0) (strip_frame 4) = Ok true
  /\ spec_isChanged (strip_frame 0) (strip_frame 4) = Ok true.
Proof. vm_compute. repeat split. Qed.

(** Frames of equal size without pixels make the division raise; the
    polling loop catches the exception. *)
Example images_different_empty_frames :
  images_different empty_frame empty_frame = Raise "ZeroDivisionError".
Proof. reflexivity. Qed.

(** ** Persistence sink *)

(** C8. Every call of [save_image] returns normally with the counter one
    higher than before, whatever the writes do; the only name handed to
    [image.save] is [slide_{counter:04d}.png] built from the incremented
    counter (and no name at all when the save mode has no folder part).
    The world [w] is arbitrary, so a failing folder or clipboard write
    consumes the number as well. *)
Theorem save_image_increments_first (w : World) (image : Image) (s : AppState) :
  let r := save_image w image s in
  result_of r = Ok tt
  /\ capture_count (state_of r) = capture_count s + 1
  /\ save_names (effects_of r) =
       (if str_in (save_mode s) ["folder"; "both"]
        then [slide_name (capture_count s + 1)] else [])
  /\ slide_name 7 = "slide_0007.png"
  /\ slide_name 12345 = "slide_12345.png".
Proof.
  unfold save_image, image_save, copy_to_clipboard. step_m.
  destruct (str_in (save_mode s) ["folder"; "both"]);
    [destruct (image_save_ok w (save_dir s) (slide_name (capture_count s + 1))) |];
    step_m;
    destruct (str_in (save_mode s) ["clipboard"; "both"]); step_m;
    repeat split.
Qed.

(** [save_image] catches what its writes raise. *)
Lemma save_image_returns (w : World) (image : Image) (s : AppState) :
  result_of (save_image w image s) = Ok tt.
Proof.
  unfold save_image, image_save, copy_to_clipboard. step_m.
  destruct (str_in (save_mode s) ["folder"; "both"]);
    [destruct (image_save_ok w (save_dir s) (slide_name (capture_count s + 1))) |];
    step_m;
    destruct (str_in (save_mode s) ["clipboard"; "both"]); reflexivity.
Qed.

(** The counter after [save_image], for use below. *)
Lemma save_image_count (w : World) (image : Image) (s : AppState) :
  capture_count (state_of (save_image w image s)) = capture_count s + 1.
Proof.
  unfold save_image, image_save, copy_to_clipboard. step_m.
  destruct (str_in (save_mode s) ["folder"; "both"]);
    [destruct (image_save_ok w (save_dir s) (slide_name (capture_count s + 1))) |];
    step_m;
    destruct (str_in (save_mode s) ["clipboard"; "both"]); reflexivity.
Qed.

(** C7, as the claim states it, fails: in save mode "both" a failing
    folder write ends the call; the clipboard write is not attempted and
    the status keeps its old text. *)
Lemma save_image_folder_failure_skips_clipboard :
  let s := armed_on_window "manual" "both" in
  let w := world_with (Some frame_white) false true 0%float in
  let r := save_image w frame_white s in
  save_mode s = "both"
  /\ effects_of r = [ImageSave (save_dir s) "slide_0004.png" frame_white false]
  /\ clipboard_images (effects_of r) = []
  /\ status (state_of r) = status s
  /\ capture_count (state_of r) = 4.
Proof. vm_compute. repeat split. Qed.

(** C7, amended. In save mode "both" every call of [save_image] returns
    normally and advances the counter.  When the folder write succeeds
    the clipboard write is attempted next, and its failure leaves the
    folder write standing and is reported in the status beside it.  When
    the folder write fails the call ends there: the counter stays
    advanced and no other field changes. *)
Theorem save_image_both_channels (w : World) (image : Image) (s : AppState) :
  save_mode s = "both" ->
  let r := save_image w image s in
  let filename := slide_name (capture_count s + 1) in
  result_of r = Ok tt
  /\ capture_count (state_of r) = capture_count s + 1
  /\ (if image_save_ok w (save_dir s) filename then
        effects_of r =
          [ImageSave (save_dir s) filename image true;
           ClipboardCopy image (copy_to_clipboard_ok w);
           PlaySound]
        /\ state_of r =
             set_status
               ("✓ " ++ "📁 " ++ filename ++ " / "
                ++ (if copy_to_clipboard_ok w then "📋 コピー済" else "❌ コピー失敗"))
               (set_capture_count (capture_count s + 1) s)
      else
        effects_of r = [ImageSave (save_dir s) filename image false]
        /\ state_of r = set_capture_count (capture_count s + 1) s).
Proof.
  intros Hboth. unfold save_image, image_save, copy_to_clipboard. step_m.
  rewrite Hboth. change (str_in "both" ["folder"; "both"]) with true. step_m.
  destruct (image_save_ok w (save_dir s) (slide_name (capture_count s + 1)));
    step_m; rewrite ?Hboth;
    change (str_in "both" ["clipboard"; "both"]) with true; step_m;
    repeat split.
Qed.

Lemma save_image_both_channels_witness :
  let s := armed_on_window "manual" "both" in
  let w := world_with (Some frame_white) true false 0%float in
  save_mode s = "both"
  /\ status (state_of (save_image w frame_white s))
     = "✓ 📁 slide_0004.png / ❌ コピー失敗".
Proof.
  split; [reflexivity |].
  pose proof (save_image_both_channels
                (world_with (Some frame_white) true false 0%float)
                frame_white (armed_on_window "manual" "both") eq_refl) as H.
  cbv zeta in H. destruct H as (_ & _ & H).
  vm_compute in H. destruct H as [_ H].
  vm_compute. congruence.
Defined.

(** ** Capture source *)

(** [do_capture] leaves the state alone and touches the capture source
    at most once. *)
Lemma do_capture_spec (w : World) (s : AppState) :
  do_capture w s = (Ok (target_image w s), s, capture_effects s).
Proof.
  unfold do_capture, target_image, capture_effects, capture_window, capture_region.
  step_m.
  destruct ((capture_mode s =? "window")%string && truthy_opt_int (target_window_id s)).
  - destruct (target_window_id s); reflexivity.
  - destruct ((capture_mode s =? "region")%string && truthy_opt_obj (region s));
      [| reflexivity].
    step_m. destruct (region s); reflexivity.
Qed.

(** A capture that yields an image comes from a configured target. *)
Lemma target_image_some_not_absent (w : World) (s : AppState) (img : Image) :
  target_image w s = Some img -> target_absent s = false.
Proof.
  unfold target_image, target_absent.
  destruct (capture_mode s =? "window")%string eqn:Ewin.
  - apply String.eqb_eq in Ewin. rewrite Ewin.
    change ("window" =? "region")%string with false.
    destruct (truthy_opt_int (target_window_id s)); simpl; congruence.
  - destruct (capture_mode s =? "region")%string;
      destruct (truthy_opt_obj (region s)); simpl; congruence.
Qed.

(** ** Manual trigger *)

(** What [manual_capture] does once the guards have been passed. *)
Lemma manual_capture_past_guards (w : World) (s : AppState) :
  is_running s = true -> target_absent s = false ->
  manual_capture w s =
    match target_image w s with
    | Some img =>
        (Ok true, state_of (save_image w img s),
         (capture_effects s ++ effects_of (save_image w img s))%list)
    | None => (Ok false, set_status "❌ キャプチャ失敗" s, capture_effects s)
    end.
Proof.
  intros Hrun Habs. unfold manual_capture, target_absent in *.
  unfold bind at 1. unfold get at 1. rewrite Hrun. cbn [negb].
  apply orb_false_iff in Habs. destruct Habs as [Hw Hr]. rewrite Hw, Hr.
  unfold bind at 1. rewrite do_capture_spec.
  destruct (target_image w s) as [img |].
  - unfold bind, ret, state_of, effects_of.
    destruct (save_image w img s) as [[[u | x] s1] e1] eqn:Esave; cbn [fst snd].
    + rewrite app_nil_r. reflexivity.
    + exfalso. pose proof (save_image_returns w img s) as H.
      rewrite Esave in H. discriminate H.
  - step_m. cbn [app]. rewrite app_nil_r. reflexivity.
Qed.

(** What [manual_capture] does when a guard stops it: it returns
    [False] and writes the status of that guard, nothing else. *)
Lemma manual_capture_turned_down (w : World) (s : AppState) :
  is_running s = false \/ target_absent s = true ->
  manual_capture w s = (Ok false, set_status (manual_rejection s) s, []).
Proof.
  intros H. unfold manual_capture, manual_rejection. step_m.
  destruct (is_running s); cbn [negb].
  - destruct H as [H | H]; [discriminate H |].
    unfold target_absent in H.
    destruct ((capture_mode s =? "window")%string
              && negb (truthy_opt_int (target_window_id s))).
    + reflexivity.
    + cbn [orb] in H. rewrite H. reflexivity.
  - reflexivity.
Qed.

Lemma manual_capture_rejected (w : World) (s : AppState) :
  is_running s = false \/ target_absent s = true ->
  exists msg : string, manual_capture w s = (Ok false, set_status msg s, []).
Proof.
  intros H. exists (manual_rejection s). exact (manual_capture_turned_down w s H).
Qed.

(** C4, as the claim states it, fails: a session that is running in auto
    mode is not armed, yet [manual_capture] returns [True] there, having
    captured the window and saved the frame under the next number. *)
Lemma manual_capture_in_auto_mode :
  let s := armed_on_window "auto" "folder" in
  let w := world_with (Some frame_white) true true 0%float in
  let r := manual_capture w s in
  is_running s = true /\ mode s = "auto"
  /\ result_of r = Ok true
  /\ effects_of r =
       [CaptureWindow 42;
        ImageSave (save_dir s) "slide_0004.png" frame_white true;
        PlaySound]
  /\ capture_count (state_of r) = capture_count s + 1.
Proof. vm_compute. repeat split. Qed.

(** C4, amended. [manual_capture] looks at the running flag and at the
    target and never at the scheduler mode.  When the session is not
    running or the target is absent it returns [False], captures
    nothing, hands nothing to the sink and changes nothing but the
    status, which it sets to the text of the guard that stopped it:
    "❌ 開始してください" when the session is not running, else
    "❌ ウィンドウ未選択" in window mode without a window identifier,
    else "❌ 領域未設定" in region mode without a rectangle (first and
    second part).  When the session is running and the capture yields
    an image, in manual and in auto mode alike, it captures once and
    passes that image to [save_image], the frame and time stamp kept
    for the change detector being left as they were (third part). *)
Theorem manual_capture_guards_running_and_target (w : World) (s : AppState) :
  (is_running s = false \/ target_absent s = true ->
   manual_capture w s = (Ok false, set_status (manual_rejection s) s, []))
  /\ (manual_rejection s =
        if negb (is_running s) then "❌ 開始してください"
        else if (capture_mode s =? "window")%string
                && negb (truthy_opt_int (target_window_id s))
        then "❌ ウィンドウ未選択"
        else "❌ 領域未設定")
  /\ (forall img : Image,
        is_running s = true -> target_image w s = Some img ->
        manual_capture w s =
          (Ok true, state_of (save_image w img s),
           (capture_effects s ++ effects_of (save_image w img s))%list)
        /\ List.length (capture_effects s) = 1%nat
        /\ last_image (state_of (manual_capture w s)) = last_image s
        /\ change_detected_time (state_of (manual_capture w s))
           = change_detected_time s).
Proof.
  split; [apply manual_capture_turned_down |]. split; [reflexivity |].
  intros img Hrun Himg.
  pose proof (target_image_some_not_absent w s img Himg) as Habs.
  rewrite (manual_capture_past_guards w s Hrun Habs), Himg.
  split; [reflexivity |]. split.
  - unfold target_image, capture_effects in *.
    destruct ((capture_mode s =? "window")%string && truthy_opt_int (target_window_id s)).
    + destruct (target_window_id s); [reflexivity | discriminate Himg].
    + destruct ((capture_mode s =? "region")%string && truthy_opt_obj (region s));
        [| discriminate Himg].
      destruct (region s); [reflexivity | discriminate Himg].
  - cbn [state_of fst snd].
    unfold save_image, image_save, copy_to_clipboard. step_m.
    destruct (str_in (save_mode s) ["folder"; "both"]);
      [destruct (image_save_ok w (save_dir s) (slide_name (capture_count s + 1))) |];
      step_m;
      destruct (str_in (save_mode s) ["clipboard"; "both"]); split; reflexivity.
Qed.

Lemma manual_capture_guards_running_and_target_witness :
  manual_capture (world_with (Some frame_white) true true 0%float)
                 (initial_state "/Users/me")
  = (Ok false, set_status "❌ 開始してください" (initial_state "/Users/me"), [])
  /\ manual_capture (world_with (Some frame_white) true true 0%float)
                    (set_is_running true (initial_state "/Users/me"))
     = (Ok false,
        set_status "❌ ウィンドウ未選択" (set_is_running true (initial_state "/Users/me")),
        [])
  /\ result_of (manual_capture (world_with (Some frame_white) true true 0%float)
                               (armed_on_window "auto" "folder")) = Ok true.
Proof.
  split; [| split].
  - apply (manual_capture_guards_running_and_target
             (world_with (Some frame_white) true true 0%float)
             (initial_state "/Users/me")).
    left. reflexivity.
  - apply (manual_capture_guards_running_and_target
             (world_with (Some frame_white) true true 0%float)
             (set_is_running true (initial_state "/Users/me"))).
    right. reflexivity.
  - destruct (manual_capture_guards_running_and_target
                (world_with (Some frame_white) true true 0%float)
                (armed_on_window "auto" "folder")) as (_ & _ & H).
    destruct (H frame_white eq_refl eq_refl) as [E _].
    rewrite E. reflexivity.
Defined.

(** C10. When the capture source yields no image, [manual_capture]
    returns [False]; the state it leaves is the old one with a new
    status text, so the counter, the last frame and the running flag are
    as before, and nothing reaches the persistence sink. *)
Theorem manual_capture_without_image (w : World) (s : AppState) :
  target_image w s = None ->
  let r := manual_capture w s in
  result_of r = Ok false
  /\ (exists msg : string, state_of r = set_status msg s)
  /\ capture_count (state_of r) = capture_count s
  /\ last_image (state_of r) = last_image s
  /\ is_running (state_of r) = is_running s
  /\ filter is_sink (effects_of r) = [].
Proof.
  intros Hnone. cbv zeta.
  assert (H : exists msg, manual_capture w s
                          = (Ok false, set_status msg s, capture_effects s)
                          \/ manual_capture w s = (Ok false, set_status msg s, [])).
  { destruct (is_running s) eqn:Hrun.
    - destruct (target_absent s) eqn:Habs.
      + destruct (manual_capture_rejected w s (or_intror Habs)) as [msg E].
        exists msg. right. exact E.
      + eexists. left.
        rewrite (manual_capture_past_guards w s Hrun Habs), Hnone. reflexivity.
    - destruct (manual_capture_rejected w s (or_introl Hrun)) as [msg E].
      exists msg. right. exact E. }
  destruct H as [msg [E | E]]; rewrite E; cbn [result_of state_of effects_of fst snd];
    fields; repeat split; try (exists msg; reflexivity).
  unfold capture_effects.
  destruct ((capture_mode s =? "window")%string && truthy_opt_int (target_window_id s));
    [destruct (target_window_id s); reflexivity |].
  destruct ((capture_mode s =? "region")%string && truthy_opt_obj (region s));
    [destruct (region s); reflexivity | reflexivity].
Qed.

Lemma manual_capture_without_image_witness :
  let w := world_with None true true 0%float in
  let s := armed_on_window "manual" "folder" in
  target_image w s = None
  /\ result_of (manual_capture w s) = Ok false
  /\ capture_count (state_of (manual_capture w s)) = 3.
Proof.
  pose proof (manual_capture_without_image
                (world_with None true true 0%float)
                (armed_on_window "manual" "folder") eq_refl) as H.
  cbv zeta in H. destruct H as (Hres & _ & Hcount & _).
  cbv zeta. split; [reflexivity |]. split; [exact Hres |].
  rewrite Hcount. reflexivity.
Defined.

(** ** Starting the scheduler *)

(** C6. When the configured target is absent (window mode without a
    window identifier, or region mode without a rectangle),
    [start_capture] returns [False] and leaves the old state with an
    explanatory status: the running flag is as before, no other field
    changes, and no directory or thread is created. *)
Theorem start_capture_without_target (w : World) (s : AppState) :
  target_absent s = true ->
  start_capture w s = (Ok false, set_status (start_rejection s) s, [])
  /\ is_running (state_of (start_capture w s)) = is_running s.
Proof.
  intros Habs. unfold target_absent in Habs.
  assert (E : start_capture w s = (Ok false, set_status (start_rejection s) s, [])).
  { unfold start_capture, start_rejection. step_m.
    destruct ((capture_mode s =? "window")%string
              && negb (truthy_opt_int (target_window_id s))).
    - reflexivity.
    - cbn [orb] in Habs. rewrite Habs. reflexivity. }
  split; [exact E |]. rewrite E. reflexivity.
Qed.

Lemma start_capture_without_target_witness :
  target_absent (initial_state "/Users/me") = true
  /\ result_of (start_capture (world_with None true true 0%float)
                              (initial_state "/Users/me")) = Ok false
  /\ is_running (state_of (start_capture (world_with None true true 0%float)
                                         (initial_state "/Users/me"))) = false.
Proof.
  destruct (start_capture_without_target
              (world_with None true true 0%float)
              (initial_state "/Users/me") eq_refl) as [E Hrun].
  split; [reflexivity |]. split.
  - rewrite E. reflexivity.
  - rewrite Hrun. reflexivity.
Defined.

(** ** Mode changes while running *)

(** The three mode-setting routes test the running flag and change
    nothing while it is set. *)
Lemma mode_routes_rejected_while_running (w : World) (s : AppState) (m : option string) :
  let running := set_is_running true s in
  do_GET w (CaptureMode m) running = (Ok 200, running, [])
  /\ do_GET w (Mode m) running = (Ok 200, running, [])
  /\ do_GET w (SaveMode m) running = (Ok 200, running, []).
Proof. repeat split. Qed.

(** C3. The claim: while the running flag is set every request that
    sets the capture mode, the scheduler mode or the save mode is a
    no-op, the interactive region selection included.  The routes
    [/api/capture_mode], [/api/mode] and [/api/save_mode] are (first
    part).  [/api/select_region] calls [interactive_select_region], which
    has no such test: on a running session in window mode it sets the
    capture mode to "region" and stores a rectangle (second part). *)
Theorem select_region_changes_capture_mode_while_running :
  (forall (w : World) (s : AppState) (m : option string),
      state_of (do_GET w (CaptureMode m) (set_is_running true s)) = set_is_running true s
      /\ state_of (do_GET w (Mode m) (set_is_running true s)) = set_is_running true s
      /\ state_of (do_GET w (SaveMode m) (set_is_running true s)) = set_is_running true s)
  /\ (let s := armed_on_window "manual" "folder" in
      let w := world_with (Some frame_white) true true 0%float in
      let r := do_GET w SelectRegion s in
      is_running s = true
      /\ capture_mode s = "window"
      /\ result_of r = Ok 200
      /\ capture_mode (state_of r) = "region"
      /\ region s = None
      /\ region (state_of r) = Some (500, 400, 400, 300)
      /\ is_running (state_of r) = true).
Proof.
  split.
  - intros w s m. repeat split.
  - vm_compute. repeat split.
Qed.

(** ** The capture counter *)

Lemma set_capture_count_same (s : AppState) :
  set_capture_count (capture_count s) s = s.
Proof. destruct s. reflexivity. Qed.

Lemma fold_max_from (l : list Z) (a : Z) :
  0 <= a -> fold_left Z.max l a = Z.max a (fold_right Z.max 0 l).
Proof.
  revert a. induction l as [| x l IH]; intros a Ha; cbn [fold_left fold_right].
  - lia.
  - rewrite IH by lia. lia.
Qed.

Lemma fold_right_max_bounds (l : list Z) :
  0 <= fold_right Z.max 0 l /\ Forall (fun n => n <= fold_right Z.max 0 l) l.
Proof.
  induction l as [| x l [IH0 IH]]; cbn [fold_right].
  - split; [lia | constructor].
  - split; [lia |]. constructor; [lia |].
    eapply Forall_impl; [| exact IH]. cbn. intros; lia.
Qed.

(** The loop over the matching names folds [max] over the numbers that
    convert, and skips the others. *)
Lemma scan_slides_spec (names : list string) (s : AppState) :
  scan_slides names s =
    (Ok tt,
     set_capture_count
       (fold_left Z.max
          (flat_map (fun name => match sequence_number name with
                                 | Ok n => [n]
                                 | Raise _ => []
                                 end) names)
          (capture_count s)) s,
     []).
Proof.
  revert s. induction names as [| f rest IH]; intros s; cbn [scan_slides flat_map].
  - cbn [fold_left]. rewrite set_capture_count_same. reflexivity.
  - unfold bind at 1. unfold try_except, bind, lift, assign, ret.
    destruct (sequence_number f) as [n | x]; rewrite IH; fields; cbn [app fold_left].
    + reflexivity.
    + reflexivity.
Qed.

Lemma init_capture_count_spec (w : World) (s : AppState) :
  init_capture_count w s =
    (Ok tt, set_capture_count (max_sequence_number (listdir w (save_dir s))) s, []).
Proof.
  unfold init_capture_count, max_sequence_number. step_m.
  destruct (listdir w (save_dir s)) as [names |]; [| reflexivity].
  rewrite scan_slides_spec. fields.
  rewrite fold_max_from by lia. unfold slide_numbers.
  pose proof (fold_right_max_bounds
                (flat_map (fun name => match sequence_number name with
                                       | Ok n => [n]
                                       | Raise _ => []
                                       end)
                          (filter matches_slide_pattern names))) as [H0 _].
  rewrite Z.max_r by exact H0. reflexivity.
Qed.

(** File names whose number is written in another script, or set off by
    a separator that [int()] does not skip. *)
Example sequence_number_beyond_ascii :
  sequence_number "slide_７７.png" = Ok 77
  /\ sequence_number "slide_٣_old.png" = Ok 3
  /\ sequence_number "slide_ 12.png" = Ok 12
  /\ sequence_number ("slide_" ++ String "028" "9.png") = Raise "ValueError"
  /\ sequence_number "slide_é9.png" = Raise "ValueError".
Proof. vm_compute. repeat split. Qed.

Example init_capture_count_example :
  capture_count
    (state_of
       (init_capture_count
          (world_with_files
             ["slide_0001.png"; "notes.txt"; "slide_0012.png"; "slide_x.png";
              "slide_0007_old.png"; "slide_.png"; "slide_0042.jpg"; "slide_-5.png"])
          (initial_state "/Users/me"))) = 12.
Proof. vm_compute. reflexivity. Qed.

(** C5, as the claim states it, fails: the route [/api/reset] changes
    the counter and does not increase it. *)
Lemma reset_lowers_counter :
  let s := armed_on_window "manual" "folder" in
  let r := do_GET (world_with None true true 0%float) Reset s in
  capture_count s = 3 /\ capture_count (state_of r) = 0
  /\ capture_count (state_of r) < capture_count s.
Proof. vm_compute. repeat split. Qed.

(** C5, amended. Each call of [save_image] raises the counter by exactly
    one; the reset route sets it to 0 and [init_capture_count] sets it
    anew, so only the saves are increasing steps.  [init_capture_count]
    seeds the counter with the maximum of 0 and the sequence numbers of
    the files matching [slide_*.png] in the save directory (0 when the
    directory is absent or no name converts), the sequence number of a
    name being what [int()] makes of the second underscore-separated
    part of its stem; so the first save after the seeding carries a
    number strictly above every such number. *)
Theorem counter_seeded_above_existing (w w' : World) (image : Image) (s : AppState) :
  let seeded := state_of (init_capture_count w s) in
  let first := save_image w' image seeded in
  capture_count (state_of (save_image w' image s)) = capture_count s + 1
  /\ capture_count (state_of (do_GET w Reset s)) = 0
  /\ capture_count seeded = max_sequence_number (listdir w (save_dir s))
  /\ 0 <= capture_count seeded
  /\ Forall (fun n => n < capture_count (state_of first))
            (match listdir w (save_dir s) with
             | Some names => slide_numbers names
             | None => []
             end)
  /\ save_names (effects_of first) =
       (if str_in (save_mode s) ["folder"; "both"]
        then [slide_name (max_sequence_number (listdir w (save_dir s)) + 1)]
        else []).
Proof.
  cbv zeta. rewrite init_capture_count_spec. cbn [state_of fst snd].
  rewrite !save_image_count. fields.
  split; [reflexivity |]. split; [reflexivity |]. split; [reflexivity |].
  unfold max_sequence_number.
  destruct (listdir w (save_dir s)) as [names |].
  - destruct (fold_right_max_bounds (slide_numbers names)) as [H0 Hall].
    split; [exact H0 |]. split.
    + eapply Forall_impl; [| exact Hall]. cbn. intros; lia.
    + unfold save_image, image_save, copy_to_clipboard. step_m.
      destruct (str_in (save_mode s) ["folder"; "both"]);
        [destruct (image_save_ok w' (save_dir s)
                     (slide_name (fold_right Z.max 0 (slide_numbers names) + 1))) |];
        step_m;
        destruct (str_in (save_mode s) ["clipboard"; "both"]); reflexivity.
  - split; [lia |]. split; [constructor |].
    unfold save_image, image_save, copy_to_clipboard. step_m.
    destruct (str_in (save_mode s) ["folder"; "both"]);
      [destruct (image_save_ok w' (save_dir s) (slide_name (0 + 1))) |];
      step_m;
      destruct (str_in (save_mode s) ["clipboard"; "both"]); reflexivity.
Qed.

(** ** The polling loop *)

(** The [try] statement as a statement: its answer for the control
    flow is dropped. *)
Lemma auto_iteration_unfold (w : World) (s : AppState) :
  auto_iteration w s =
    match auto_try w s with
    | (Ok _, s1, e1) => (Ok tt, s1, e1)
    | (Raise x, s1, e1) => (Raise x, s1, e1)
    end.
Proof.
  unfold auto_iteration, bind, ret.
  destruct (auto_try w s) as [[[b | x] s1] e1]; [rewrite app_nil_r |]; reflexivity.
Qed.

Lemma auto_try_changed (w : World) (s : AppState) (prev cur : Image) :
  last_image s = Some prev -> target_image w s = Some cur ->
  images_different prev cur = Ok true ->
  auto_try w s =
    (Ok false,
     set_last_image (Some cur)
       (set_status "🔍 変化検知..."
          (set_change_detected_time (Some (clock w)) s)),
     capture_effects s).
Proof.
  intros Hlast Himg Hdiff. unfold auto_try, try_except.
  unfold bind at 1. rewrite do_capture_spec, Himg.
  step_m. rewrite Hlast. step_m. rewrite Hdiff. step_m.
  cbn [app]. rewrite !app_nil_r. reflexivity.
Qed.

Lemma auto_try_stable (w : World) (s : AppState) (prev cur : Image) :
  last_image s = Some prev -> target_image w s = Some cur ->
  images_different prev cur = Ok false ->
  auto_try w s =
    match change_detected_time s with
    | Some t0 =>
        if truthy_float t0 && settled s t0 w then
          (Ok false,
           set_last_image (Some cur)
             (set_change_detected_time None (state_of (save_image w cur s))),
           (capture_effects s ++ effects_of (save_image w cur s))%list)
        else (Ok false, set_last_image (Some cur) s, capture_effects s)
    | None => (Ok false, set_last_image (Some cur) s, capture_effects s)
    end.
Proof.
  intros Hlast Himg Hdiff. unfold auto_try, try_except.
  unfold bind at 1. rewrite do_capture_spec, Himg.
  unfold bind at 1. unfold get at 1. rewrite Hlast.
  unfold bind at 1. unfold bind at 1. unfold bind at 1. unfold lift at 1. rewrite Hdiff.
  unfold bind at 1. unfold get at 1.
  destruct (change_detected_time s) as [t0 |]; cbn [truthy_opt_float].
  - unfold settled. destruct (truthy_float t0); cbn [andb].
    + destruct (float_ge (PrimFloat.sub (clock w) t0) (settling_time s)).
      * unfold bind at 1.
        pose proof (save_image_returns w cur s) as Hret.
        destruct (save_image w cur s) as [[r1 s1] e1].
        cbn [result_of fst snd] in Hret. subst r1.
        step_m. cbn [app]. rewrite !app_nil_r. reflexivity.
      * step_m. cbn [app]. rewrite !app_nil_r. reflexivity.
    + step_m. cbn [app]. rewrite !app_nil_r. reflexivity.
  - step_m. cbn [app]. rewrite !app_nil_r. reflexivity.
Qed.

Lemma auto_try_unavailable (w : World) (s : AppState) :
  target_image w s = None ->
  auto_try w s = (Ok true, s, capture_effects s).
Proof.
  intros Himg. unfold auto_try, try_except.
  unfold bind at 1. rewrite do_capture_spec, Himg.
  step_m. rewrite app_nil_r. reflexivity.
Qed.

Lemma auto_try_failed (w : World) (s : AppState) (prev cur : Image) (x : string) :
  last_image s = Some prev -> target_image w s = Some cur ->
  images_different prev cur = Raise x ->
  auto_try w s = (Ok false, s, capture_effects s).
Proof.
  intros Hlast Himg Hdiff. unfold auto_try, try_except.
  unfold bind at 1. rewrite do_capture_spec, Himg.
  step_m. rewrite Hlast. step_m. rewrite Hdiff. step_m.
  cbn [app]. rewrite !app_nil_r. reflexivity.
Qed.

Lemma auto_try_first_frame (w : World) (s : AppState) (cur : Image) :
  last_image s = None -> target_image w s = Some cur ->
  auto_try w s = (Ok false, set_last_image (Some cur) s, capture_effects s).
Proof.
  intros Hlast Himg. unfold auto_try, try_except.
  unfold bind at 1. rewrite do_capture_spec, Himg.
  step_m. rewrite Hlast. step_m. cbn [app]. rewrite !app_nil_r. reflexivity.
Qed.

(** The [try] statement never raises; it leaves the body by [continue]
    exactly when the capture yields no image. *)
Lemma auto_try_iteration (w : World) (s : AppState) :
  auto_try w s =
    (Ok (negb (truthy_opt_obj (target_image w s))),
     state_of (auto_iteration w s), effects_of (auto_iteration w s)).
Proof.
  rewrite auto_iteration_unfold.
  destruct (target_image w s) as [cur |] eqn:Himg; cbn [truthy_opt_obj negb].
  2: { rewrite (auto_try_unavailable w s Himg). reflexivity. }
  destruct (last_image s) as [prev |] eqn:Hlast.
  2: { rewrite (auto_try_first_frame w s cur Hlast Himg). reflexivity. }
  destruct (images_different prev cur) as [[|] | x] eqn:Hdiff.
  - rewrite (auto_try_changed w s prev cur Hlast Himg Hdiff). reflexivity.
  - rewrite (auto_try_stable w s prev cur Hlast Himg Hdiff).
    destruct (change_detected_time s) as [t0 |]; [| reflexivity].
    destruct (truthy_float t0 && settled s t0 w); reflexivity.
  - rewrite (auto_try_failed w s prev cur x Hlast Himg Hdiff). reflexivity.
Qed.

(** An iteration whose frame the detector reports as changed records
    the time and saves nothing. *)
Lemma auto_iteration_changed (w : World) (s : AppState) (prev cur : Image) :
  last_image s = Some prev -> target_image w s = Some cur ->
  images_different prev cur = Ok true ->
  auto_iteration w s =
    (Ok tt,
     set_last_image (Some cur)
       (set_status "🔍 変化検知..."
          (set_change_detected_time (Some (clock w)) s)),
     capture_effects s).
Proof.
  intros Hlast Himg Hdiff.
  rewrite auto_iteration_unfold, (auto_try_changed w s prev cur Hlast Himg Hdiff).
  reflexivity.
Qed.

(** An iteration whose frame is unchanged saves when a change is
    pending and the settle time has passed, and then clears the pending
    time stamp; otherwise it only replaces the last frame. *)
Lemma auto_iteration_stable (w : World) (s : AppState) (prev cur : Image) :
  last_image s = Some prev -> target_image w s = Some cur ->
  images_different prev cur = Ok false ->
  auto_iteration w s =
    match change_detected_time s with
    | Some t0 =>
        if truthy_float t0 && settled s t0 w then
          (Ok tt,
           set_last_image (Some cur)
             (set_change_detected_time None (state_of (save_image w cur s))),
           (capture_effects s ++ effects_of (save_image w cur s))%list)
        else (Ok tt, set_last_image (Some cur) s, capture_effects s)
    | None => (Ok tt, set_last_image (Some cur) s, capture_effects s)
    end.
Proof.
  intros Hlast Himg Hdiff.
  rewrite auto_iteration_unfold, (auto_try_stable w s prev cur Hlast Himg Hdiff).
  destruct (change_detected_time s) as [t0 |]; [| reflexivity].
  destruct (truthy_float t0 && settled s t0 w); reflexivity.
Qed.

(** An iteration without an image does nothing. *)
Lemma auto_iteration_unavailable (w : World) (s : AppState) :
  target_image w s = None ->
  auto_iteration w s = (Ok tt, s, capture_effects s).
Proof.
  intros Himg. rewrite auto_iteration_unfold, (auto_try_unavailable w s Himg).
  reflexivity.
Qed.

(** An iteration whose comparison raises keeps the old last frame. *)
Lemma auto_iteration_failed (w : World) (s : AppState) (prev cur : Image) (x : string) :
  last_image s = Some prev -> target_image w s = Some cur ->
  images_different prev cur = Raise x ->
  auto_iteration w s = (Ok tt, s, capture_effects s).
Proof.
  intros Hlast Himg Hdiff.
  rewrite auto_iteration_unfold, (auto_try_failed w s prev cur x Hlast Himg Hdiff).
  reflexivity.
Qed.

(** The first iteration with an image only stores it. *)
Lemma auto_iteration_first_frame (w : World) (s : AppState) (cur : Image) :
  last_image s = None -> target_image w s = Some cur ->
  auto_iteration w s = (Ok tt, set_last_image (Some cur) s, capture_effects s).
Proof.
  intros Hlast Himg.
  rewrite auto_iteration_unfold, (auto_try_first_frame w s cur Hlast Himg).
  reflexivity.
Qed.


(** States that agree on the target see the same frames. *)
Section SameTarget.

Variables s s' : AppState.
Hypothesis Hmode : capture_mode s' = capture_mode s.
Hypothesis Hwin : target_window_id s' = target_window_id s.
Hypothesis Hreg : region s' = region s.

Lemma target_image_ext (w : World) : target_image w s' = target_image w s.
Proof. unfold target_image. rewrite Hmode, Hwin, Hreg. reflexivity. Qed.

Lemma capture_effects_ext : capture_effects s' = capture_effects s.
Proof. unfold capture_effects. rewrite Hmode, Hwin, Hreg. reflexivity. Qed.





End SameTarget.


(** [save_image] writes the counter and, when it gets that far, the
    status; its effects are all on the sink. *)
Lemma save_image_state (w : World) (image : Image) (s : AppState) :
  exists msg : string,
    state_of (save_image w image s)
    = set_status msg (set_capture_count (capture_count s + 1) s).
Proof.
  unfold save_image, image_save, copy_to_clipboard. step_m.
  destruct (str_in (save_mode s) ["folder"; "both"]);
    [destruct (image_save_ok w (save_dir s) (slide_name (capture_count s + 1))) |];
    step_m;
    destruct (str_in (save_mode s) ["clipboard"; "both"]); step_m;
    eexists; reflexivity.
Qed.




Lemma loop_writes_refl (s : AppState) : loop_writes s s.
Proof.
  exists (capture_count s), (last_image s), (change_detected_time s), (status s).
  split; [destruct s; reflexivity | lia].
Qed.

Lemma loop_writes_trans (s1 s2 s3 : AppState) :
  loop_writes s1 s2 -> loop_writes s2 s3 -> loop_writes s1 s3.
Proof.
  intros (c & f & p & t & -> & Hc) (c' & f' & p' & t' & -> & Hc').
  exists c', f', p', t'. cbn in *. split; [reflexivity | lia].
Qed.

Lemma auto_iteration_writes (w : World) (s : AppState) :
  result_of (auto_iteration w s) = Ok tt
  /\ loop_writes s (state_of (auto_iteration w s)).
Proof.
  destruct (target_image w s) as [cur |] eqn:Himg.
  2: { rewrite (auto_iteration_unavailable w s Himg).
       split; [reflexivity | apply loop_writes_refl]. }
  destruct (last_image s) as [prev |] eqn:Hlast.
  2: { rewrite (auto_iteration_first_frame w s cur Hlast Himg).
       split; [reflexivity |]. cbn [state_of fst snd].
       exists (capture_count s), (Some cur), (change_detected_time s), (status s).
       split; [destruct s; reflexivity | lia]. }
  destruct (images_different prev cur) as [[|] | x] eqn:Hdiff.
  - rewrite (auto_iteration_changed w s prev cur Hlast Himg Hdiff).
    split; [reflexivity |]. cbn [state_of fst snd].
    exists (capture_count s), (Some cur), (Some (clock w)), "🔍 変化検知...".
    split; [destruct s; reflexivity | lia].
  - rewrite (auto_iteration_stable w s prev cur Hlast Himg Hdiff).
    assert (Hkeep : loop_writes s (set_last_image (Some cur) s)).
    { exists (capture_count s), (Some cur), (change_detected_time s), (status s).
      split; [destruct s; reflexivity | lia]. }
    destruct (change_detected_time s) as [t0 |] eqn:Hcdt;
      [| split; [reflexivity | exact Hkeep]].
    destruct (truthy_float t0 && settled s t0 w);
      [| split; [reflexivity | exact Hkeep]].
    split; [reflexivity |]. cbn [state_of fst snd].
    destruct (save_image_state w cur s) as [msg Hst]. rewrite Hst.
    exists (capture_count s + 1), (Some cur), None, msg.
    split; [destruct s; reflexivity | lia].
  - rewrite (auto_iteration_failed w s prev cur x Hlast Himg Hdiff).
    split; [reflexivity | apply loop_writes_refl].
Qed.

(** The polling interval is none of the fields that an iteration
    writes. *)
Lemma auto_iteration_keeps_interval (w : World) (s : AppState) :
  polling_interval (state_of (auto_iteration w s)) = polling_interval s.
Proof.
  destruct (auto_iteration_writes w s) as [_ (c & f & p & t & -> & _)]. reflexivity.
Qed.

(** One turn of the loop: the [try] statement, then the sleep unless
    the body was left by [continue], then the rest of the loop. *)
Lemma auto_monitor_loop_cons (w : World) (rest : list World) (s : AppState) :
  auto_monitor_loop (w :: rest) s =
    if is_running s && (mode s =? "auto")%string then
      match auto_iteration w s with
      | (_, s1, e1) =>
          match (if truthy_opt_obj (target_image w s)
                 then sleep (platform_sleep w) (polling_interval s)
                 else Ok tt) with
          | Ok _ =>
              match auto_monitor_loop rest s1 with
              | (r, s2, e2) => (r, s2, (e1 ++ e2)%list)
              end
          | Raise x => (Raise x, s1, e1)
          end
      end
    else (Ok tt, s, []).
Proof.
  cbn [auto_monitor_loop]. unfold bind at 1. unfold get at 1.
  destruct (is_running s && (mode s =? "auto")%string); [| reflexivity].
  pose proof (auto_iteration_keeps_interval w s) as Hpi.
  unfold bind at 1. rewrite auto_try_iteration.
  destruct (auto_iteration w s) as [[r1 s1] e1]. cbn [state_of effects_of fst snd] in *.
  destruct (truthy_opt_obj (target_image w s)); cbn [negb].
  - unfold bind at 1. unfold polling_sleep, bind, get, lift. rewrite Hpi.
    destruct (sleep (platform_sleep w) (polling_interval s)) as [[] | x].
    + cbn [app]. destruct (auto_monitor_loop rest s1) as [[r s2] e2]. reflexivity.
    + rewrite app_nil_r. reflexivity.
  - unfold bind at 1. unfold ret at 1.
    destruct (auto_monitor_loop rest s1) as [[r s2] e2]. reflexivity.
Qed.

Lemma sleeps_cons (s : AppState) (w : World) (ws : list World) :
  sleeps s (w :: ws) = true ->
  sleep (platform_sleep w) (polling_interval s) = Ok tt /\ sleeps s ws = true.
Proof.
  unfold sleeps. cbn [forallb]. intros H. apply andb_true_iff in H.
  destruct H as [Hw Hws]. split; [| exact Hws].
  destruct (sleep (platform_sleep w) (polling_interval s)) as [[] | x];
    [reflexivity | discriminate Hw].
Qed.











(** The scenario of the specification, from the start of the polling:
    the changes at 0.2 s and 0.4 s save nothing, the frames at 0.6 s and
    0.8 s come too early, the frame at 1.0 s is saved under the next
    number, and the frame at 1.2 s saves nothing more. *)
Example scenario_saves_once_at_one_second :
  let s := armed_on_window "auto" "folder" in
  map (fun n => capture_count (state_of (auto_monitor_loop (firstn n scenario) s)))
      [1; 2; 3; 4; 5; 6; 7]%nat
  = [3; 3; 3; 3; 3; 4; 4]
  /\ filter is_sink (effects_of (auto_monitor_loop scenario s))
     = [ImageSave (save_dir s) "slide_0004.png" frame_black true; PlaySound].
Proof. vm_compute. split; reflexivity. Qed.

(** ** Concurrent manual triggers *)

(** A thread that runs alone goes through [manual_capture]. *)
Lemma thread_runs_manual_capture (w : World) (s : AppState) :
  (ph1 <- thread_step w AtGuards ;;
   ph2 <- thread_step w ph1 ;;
   ph3 <- thread_step w ph2 ;;
   ret ph3) s
  = match manual_capture w s with
    | (Ok b, s', e) => (Ok (Finished b), s', e)
    | (Raise x, s', e) => (Raise x, s', e)
    end.
Proof.
  unfold manual_capture. cbn [thread_step]. step_m.
  destruct (negb (is_running s)); [reflexivity |].
  destruct ((capture_mode s =? "window")%string
            && negb (truthy_opt_int (target_window_id s))); [reflexivity |].
  destruct ((capture_mode s =? "region")%string
            && negb (truthy_opt_obj (region s))); [reflexivity |].
  cbn [thread_step]. step_m. rewrite do_capture_spec.
  destruct (target_image w s) as [img |]; cbn [thread_step]; step_m.
  - pose proof (save_image_returns w img s) as Hret.
    destruct (save_image w img s) as [[r1 s1] e1].
    cbn [result_of fst snd] in Hret. subst r1. cbn [app].
    rewrite !app_nil_r. reflexivity.
  - cbn [app]. rewrite !app_nil_r. reflexivity.
Qed.

Lemma count_phase_app (f : Phase -> bool) (l1 l2 : list Phase) :
  count_phase f (l1 ++ l2) = (count_phase f l1 + count_phase f l2)%nat.
Proof. unfold count_phase. rewrite filter_app, length_app. reflexivity. Qed.

Lemma count_phase_replace (f : Phase -> bool) (i : nat) (old new : Phase)
      (threads : list Phase) :
  nth_error threads i = Some old ->
  (count_phase f (replace_nth i new threads) + (if f old then 1 else 0)
   = count_phase f threads + (if f new then 1 else 0))%nat.
Proof.
  unfold count_phase. revert i.
  induction threads as [| ph rest IH]; intros i H.
  - destruct i; discriminate H.
  - destruct i as [| i']; cbn [nth_error replace_nth filter] in *.
    + injection H as ->. destruct (f old), (f new); cbn [List.length]; lia.
    + specialize (IH i' H). destruct (f ph); cbn [List.length]; lia.
Qed.

Lemma forallb_replace (f : Phase -> bool) (i : nat) (new : Phase) (threads : list Phase) :
  forallb f threads = true -> f new = true ->
  forallb f (replace_nth i new threads) = true.
Proof.
  revert i. induction threads as [| ph rest IH]; intros i Hall Hnew.
  - destruct i; reflexivity.
  - cbn [forallb] in Hall. apply andb_true_iff in Hall. destruct Hall as [Hph Hrest].
    destruct i as [| i']; cbn [replace_nth forallb].
    + rewrite Hnew, Hrest. reflexivity.
    + rewrite Hph, IH by assumption. reflexivity.
Qed.

Lemma length_replace_nth {A : Type} (i : nat) (x : A) (xs : list A) :
  List.length (replace_nth i x xs) = List.length xs.
Proof.
  revert i. induction xs as [| y rest IH]; intros i; destruct i; cbn; auto.
Qed.

Lemma forallb_nth_error (f : Phase -> bool) (i : nat) (ph : Phase) (threads : list Phase) :
  forallb f threads = true -> nth_error threads i = Some ph -> f ph = true.
Proof.
  intros Hall Hnth. apply nth_error_In in Hnth.
  exact (proj1 (forallb_forall f threads) Hall ph Hnth).
Qed.

Lemma save_image_effects_no_capture (w : World) (image : Image) (s : AppState) :
  filter is_capture (effects_of (save_image w image s)) = [].
Proof.
  unfold save_image, image_save, copy_to_clipboard. step_m.
  destruct (str_in (save_mode s) ["folder"; "both"]);
    [destruct (image_save_ok w (save_dir s) (slide_name (capture_count s + 1))) |];
    step_m;
    destruct (str_in (save_mode s) ["clipboard"; "both"]); reflexivity.
Qed.

Lemma one_capture_effect (w : World) (s : AppState) (img : Image) :
  target_image w s = Some img ->
  List.length (filter is_capture (capture_effects s)) = 1%nat.
Proof.
  unfold target_image, capture_effects.
  destruct ((capture_mode s =? "window")%string && truthy_opt_int (target_window_id s)).
  - destruct (target_window_id s); [reflexivity | discriminate].
  - destruct ((capture_mode s =? "region")%string && truthy_opt_obj (region s));
      [| discriminate].
    destruct (region s); [reflexivity | discriminate].
Qed.

Section ManualTriggers.

Variable w : World.
Variable s : AppState.
Variable img : Image.
Hypothesis Hrun : is_running s = true.
Hypothesis Himg : target_image w s = Some img.

Lemma same_target_passes_guards (st : AppState) :
  same_target s st ->
  thread_step w AtGuards st = (Ok AtCapture, st, []).
Proof.
  intros (Hr & Hm & Hw & Hg). cbn [thread_step]. step_m.
  pose proof (target_image_some_not_absent w s img Himg) as Habs.
  unfold target_absent in Habs. apply orb_false_iff in Habs.
  rewrite Hr, Hm, Hw, Hg, Hrun, (proj1 Habs), (proj2 Habs). reflexivity.
Qed.

Lemma same_target_captures (st : AppState) :
  same_target s st ->
  thread_step w AtCapture st = (Ok (AtSave (Some img)), st, capture_effects s).
Proof.
  intros (Hr & Hm & Hw & Hg). cbn [thread_step]. unfold bind.
  rewrite do_capture_spec.
  rewrite (target_image_ext s st Hm Hw Hg w), (capture_effects_ext s st Hm Hw Hg), Himg.
  unfold ret. rewrite app_nil_r. reflexivity.
Qed.

Lemma same_target_saves (st : AppState) (image : Image) :
  same_target s st ->
  exists st' effects,
    thread_step w (AtSave (Some image)) st = (Ok (Finished true), st', effects)
    /\ same_target s st'
    /\ capture_count st' = capture_count st + 1
    /\ filter is_capture effects = [].
Proof.
  intros (Hr & Hm & Hw & Hg). cbn [thread_step]. unfold bind, ret.
  pose proof (save_image_returns w image st) as Hret.
  pose proof (save_image_effects_no_capture w image st) as Hno.
  destruct (save_image_state w image st) as [msg Hstate].
  destruct (save_image w image st) as [[r1 st1] e1].
  cbn [result_of state_of effects_of fst snd] in Hret, Hno, Hstate. subst r1 st1.
  eexists. eexists. split; [reflexivity |].
  rewrite app_nil_r. repeat split; assumption.
Qed.

Lemma pool_step (ev : Event) (sy : System) :
  manual_event ev = true -> pool_invariant s sy ->
  pool_invariant s (sys_step w ev sy)
  /\ List.length (sys_threads (sys_step w ev sy))
     = (List.length (sys_threads sy) + (if is_trigger ev then 1 else 0))%nat.
Proof.
  intros Hev (Hsame & Hcount & Hcap & Htrack).
  assert (Hspawn : pool_invariant s
                     (mkSystem (sys_state sy) (sys_threads sy ++ [AtGuards])
                               (sys_trace sy ++ [StartThread "manual_capture"]))).
  { unfold pool_invariant. cbn [sys_state sys_threads sys_trace].
    rewrite !count_phase_app, filter_app, length_app, forallb_app, Htrack.
    cbn. repeat split; try apply Hsame; lia. }
  assert (Hidle : pool_invariant s
                    (mkSystem (sys_state sy) (sys_threads sy ++ [])
                              (sys_trace sy ++ []))).
  { rewrite !app_nil_r. destruct sy. repeat split; try apply Hsame; assumption. }
  destruct ev as [req | event_type keycode flags | tid].
  - destruct req; try discriminate Hev.
    cbn [sys_step is_trigger]. split; [exact Hspawn |].
    cbn. rewrite length_app. reflexivity.
  - cbn [sys_step is_trigger]. unfold keyboard_callback.
    destruct (event_type =? kCGEventKeyDown); cbn [andb].
    + destruct (negb (Z.land flags kCGEventFlagMaskCommand =? 0)
                && negb (Z.land flags kCGEventFlagMaskControl =? 0)
                && (keycode =? SHORTCUT_KEYCODE)).
      * split; [exact Hspawn |]. cbn. rewrite length_app. reflexivity.
      * split; [exact Hidle |]. cbn. rewrite length_app. reflexivity.
    + split; [exact Hidle |]. cbn. rewrite length_app. reflexivity.
  - cbn [sys_step is_trigger]. rewrite Nat.add_0_r.
    destruct (nth_error (sys_threads sy) tid) as [ph |] eqn:Hnth.
    2: { split; [repeat split; try apply Hsame; assumption | reflexivity]. }
    pose proof (forallb_nth_error on_track tid ph _ Htrack Hnth) as Hph.
    destruct ph as [| | [image |] | [|]]; try discriminate Hph.
    + rewrite (same_target_passes_guards _ Hsame).
      cbn [sys_threads]. rewrite length_replace_nth. split; [| reflexivity].
      unfold pool_invariant. cbn [sys_state sys_threads sys_trace].
      pose proof (count_phase_replace has_saved tid AtGuards AtCapture _ Hnth) as H1.
      pose proof (count_phase_replace has_captured tid AtGuards AtCapture _ Hnth) as H2.
      cbn [has_saved has_captured] in H1, H2.
      rewrite app_nil_r, forallb_replace by (assumption || reflexivity).
      repeat split; try apply Hsame; lia.
    + rewrite (same_target_captures _ Hsame).
      cbn [sys_threads]. rewrite length_replace_nth. split; [| reflexivity].
      unfold pool_invariant. cbn [sys_state sys_threads sys_trace].
      pose proof (count_phase_replace has_saved tid AtCapture (AtSave (Some img)) _ Hnth)
        as H1.
      pose proof (count_phase_replace has_captured tid AtCapture (AtSave (Some img)) _ Hnth)
        as H2.
      cbn [has_saved has_captured] in H1, H2.
      rewrite filter_app, length_app, (one_capture_effect w s img Himg).
      rewrite forallb_replace by (assumption || reflexivity).
      repeat split; try apply Hsame; lia.
    + destruct (same_target_saves _ image Hsame) as (st' & effects & E & Hs' & Hc' & He').
      rewrite E. cbn [sys_threads]. rewrite length_replace_nth. split; [| reflexivity].
      unfold pool_invariant. cbn [sys_state sys_threads sys_trace].
      pose proof (count_phase_replace has_saved tid (AtSave (Some image)) (Finished true)
                    _ Hnth) as H1.
      pose proof (count_phase_replace has_captured tid (AtSave (Some image)) (Finished true)
                    _ Hnth) as H2.
      cbn [has_saved has_captured] in H1, H2.
      rewrite filter_app, length_app, He'.
      rewrite forallb_replace by (assumption || reflexivity).
      cbn [List.length].
      repeat split; try apply Hs'; lia.
    + cbn [thread_step]. unfold ret.
      cbn [sys_threads]. rewrite length_replace_nth. split; [| reflexivity].
      unfold pool_invariant. cbn [sys_state sys_threads sys_trace].
      pose proof (count_phase_replace has_saved tid (Finished true) (Finished true)
                    _ Hnth) as H1.
      pose proof (count_phase_replace has_captured tid (Finished true) (Finished true)
                    _ Hnth) as H2.
      rewrite app_nil_r, forallb_replace by (assumption || reflexivity).
      repeat split; try apply Hsame; lia.
Qed.

Lemma pool_run (evs : list Event) (sy : System) :
  forallb manual_event evs = true -> pool_invariant s sy ->
  pool_invariant s (sys_run w evs sy)
  /\ List.length (sys_threads (sys_run w evs sy))
     = (List.length (sys_threads sy) + triggers evs)%nat.
Proof.
  revert sy. induction evs as [| ev rest IH]; intros sy Hevs Hinv.
  - cbn. split; [exact Hinv | lia].
  - cbn [forallb] in Hevs. apply andb_true_iff in Hevs. destruct Hevs as [Hev Hrest].
    destruct (pool_step ev sy Hev Hinv) as [Hinv' Hlen].
    destruct (IH (sys_step w ev sy) Hrest Hinv') as [Hfinal Hlen'].
    unfold sys_run in *. cbn [fold_left]. split; [exact Hfinal |].
    rewrite Hlen', Hlen. unfold triggers. cbn [filter].
    destruct (is_trigger ev); cbn [List.length]; lia.
Qed.

End ManualTriggers.

Lemma all_finished_counts (threads : list Phase) :
  forallb on_track threads = true -> forallb has_finished threads = true ->
  count_phase has_saved threads = List.length threads
  /\ count_phase has_captured threads = List.length threads.
Proof.
  unfold count_phase. induction threads as [| ph rest IH]; intros Ht Hf.
  - split; reflexivity.
  - cbn [forallb] in Ht, Hf.
    apply andb_true_iff in Ht. apply andb_true_iff in Hf.
    destruct Ht as [Hph Ht], Hf as [Hfin Hf]. destruct (IH Ht Hf) as [IH1 IH2].
    destruct ph as [| | [image |] | [|]]; try discriminate Hph; try discriminate Hfin.
    cbn [filter has_saved has_captured List.length]. split; congruence.
Qed.

(** C9, as the claim states it, fails: two triggers arrive, one by
    HTTP and one by the shortcut, before either capture has completed.
    Both threads pass the guards and are in flight together, two
    captures execute, two files are written and the counter advances
    by 2. *)
Lemma two_triggers_two_captures :
  let s := armed_on_window "manual" "folder" in
  let w := world_with (Some frame_white) true true 0%float in
  let start := mkSystem s [] [] in
  let midway := sys_run w (firstn 4 two_concurrent_triggers) start in
  let final := sys_run w two_concurrent_triggers start in
  count_phase in_flight (sys_threads midway) = 2%nat
  /\ capture_count (sys_state midway) = capture_count s
  /\ sys_threads final = [Finished true; Finished true]
  /\ List.length (filter is_capture (sys_trace final)) = 2%nat
  /\ save_names (sys_trace final) = ["slide_0004.png"; "slide_0005.png"]
  /\ capture_count (sys_state final) = capture_count s + 2.
Proof. vm_compute. repeat split. Qed.

(** C9, amended. Nothing coalesces or rejects a manual trigger: each
    request [/api/capture] and each press of the shortcut starts a
    thread of its own, whatever the other threads are doing.  On a
    running session whose target yields an image, and with each stretch
    of [thread_step] running undisturbed, every interleaving that lets
    all these threads finish has executed one capture per trigger and
    advanced the counter by one per trigger. *)
Theorem manual_triggers_are_not_coalesced
        (w : World) (s : AppState) (img : Image) (evs : list Event) :
  is_running s = true -> target_image w s = Some img ->
  forallb manual_event evs = true ->
  let final := sys_run w evs (mkSystem s [] []) in
  List.length (sys_threads final) = triggers evs
  /\ (forallb has_finished (sys_threads final) = true ->
      List.length (filter is_capture (sys_trace final)) = triggers evs
      /\ capture_count (sys_state final) = capture_count s + Z.of_nat (triggers evs)).
Proof.
  intros Hrun Himg Hevs. cbv zeta.
  assert (Hstart : pool_invariant s (mkSystem s [] [])).
  { unfold pool_invariant, same_target. cbn. repeat split. lia. }
  destruct (pool_run w s img Hrun Himg evs _ Hevs Hstart)
    as [(Hsame & Hcount & Hcap & Htrack) Hlen].
  cbn [sys_threads List.length Nat.add] in Hlen.
  split; [exact Hlen |]. intros Hfin.
  destruct (all_finished_counts _ Htrack Hfin) as [Hsaved Hcaptured].
  rewrite Hcap, Hcount, Hsaved, Hcaptured, Hlen. split; reflexivity.
Qed.

Lemma manual_triggers_are_not_coalesced_witness :
  let s := armed_on_window "manual" "folder" in
  let w := world_with (Some frame_white) true true 0%float in
  let final := sys_run w two_concurrent_triggers (mkSystem s [] []) in
  triggers two_concurrent_triggers = 2%nat
  /\ List.length (filter is_capture (sys_trace final)) = 2%nat
  /\ capture_count (sys_state final) = 5.
Proof.
  destruct (manual_triggers_are_not_coalesced
              (world_with (Some frame_white) true true 0%float)
              (armed_on_window "manual" "folder") frame_white
              two_concurrent_triggers eq_refl eq_refl eq_refl) as [_ H].
  destruct (H eq_refl) as [Hcap Hcount].
  cbv zeta. split; [reflexivity |]. split.
  - rewrite Hcap. reflexivity.
  - rewrite Hcount. reflexivity.
Defined.

(** * Further properties of the code *)

(** ** Window enumeration *)

Lemma key_eqb_eq (a b : WindowKey) : key_eqb a b = true <-> a = b.
Proof.
  destruct a as [[[o1 n1] w1] h1], b as [[[o2 n2] w2] h2]. cbn [key_eqb].
  rewrite !andb_true_iff, !String.eqb_eq, !Z.eqb_eq.
  split.
  - intros [[[-> ->] ->] ->]. reflexivity.
  - intros H. injection H as -> -> -> ->. auto.
Qed.

Lemma existsb_key_In (k : WindowKey) (seen : list WindowKey) :
  existsb (key_eqb k) seen = true <-> In k seen.
Proof.
  rewrite existsb_exists. split.
  - intros [x [Hin Heq]]. apply key_eqb_eq in Heq. subst x. exact Hin.
  - intros Hin. exists k. split; [exact Hin | apply key_eqb_eq; reflexivity].
Qed.

Lemma window_loop_spec (raws : list RawWindow) (seen : list WindowKey) :
  let out := window_loop raws seen in
  Forall (fun i => 50 <= win_width i /\ 50 <= win_height i /\ win_owner i <> "") out
  /\ NoDup (map info_key out)
  /\ (forall i, In i out -> ~ In (info_key i) seen)
  /\ (forall i, In i out -> exists r, In r raws /\ i = window_entry r)
  /\ (forall r, In r raws -> listable r = true ->
                In (raw_key r) seen \/ In (raw_key r) (map info_key out)).
Proof.
  revert seen. induction raws as [| r rest IH]; intros seen; cbn zeta.
  - cbn. repeat split; try constructor; intros; contradiction.
  - cbn [window_loop].
    destruct (raw_width r <? 50) eqn:Ew; cbn [orb].
    { destruct (IH seen) as (H1 & H2 & H3 & H4 & H5). repeat split; auto.
      - intros i Hi. destruct (H4 i Hi) as [r0 [Hin E]]. exists r0. split; [right |]; auto.
      - intros r0 [<- | Hin] Hl; [| auto].
        unfold listable in Hl. apply Z.ltb_lt in Ew.
        rewrite !andb_true_iff in Hl. destruct Hl as [[[Hl _] _] _].
        apply Z.leb_le in Hl. lia. }
    destruct (raw_height r <? 50) eqn:Eh.
    { destruct (IH seen) as (H1 & H2 & H3 & H4 & H5). repeat split; auto.
      - intros i Hi. destruct (H4 i Hi) as [r0 [Hin E]]. exists r0. split; [right |]; auto.
      - intros r0 [<- | Hin] Hl; [| auto].
        unfold listable in Hl. apply Z.ltb_lt in Eh.
        rewrite !andb_true_iff in Hl. destruct Hl as [[[_ Hl] _] _].
        apply Z.leb_le in Hl. lia. }
    destruct (raw_layer r =? 0) eqn:El; cbn [negb].
    2: { destruct (IH seen) as (H1 & H2 & H3 & H4 & H5). repeat split; auto.
      - intros i Hi. destruct (H4 i Hi) as [r0 [Hin E]]. exists r0. split; [right |]; auto.
      - intros r0 [<- | Hin] Hl; [| auto].
        unfold listable in Hl. rewrite El in Hl.
        rewrite !andb_true_iff in Hl. destruct Hl as [[_ Hl] _]. discriminate Hl. }
    destruct (raw_owner r =? "")%string eqn:Eo.
    { destruct (IH seen) as (H1 & H2 & H3 & H4 & H5). repeat split; auto.
      - intros i Hi. destruct (H4 i Hi) as [r0 [Hin E]]. exists r0. split; [right |]; auto.
      - intros r0 [<- | Hin] Hl; [| auto].
        unfold listable in Hl. rewrite Eo in Hl.
        rewrite !andb_true_iff in Hl. destruct Hl as [_ Hl]. discriminate Hl. }
    destruct (existsb (key_eqb (raw_key r)) seen) eqn:Es.
    { destruct (IH seen) as (H1 & H2 & H3 & H4 & H5). repeat split; auto.
      - intros i Hi. destruct (H4 i Hi) as [r0 [Hin E]]. exists r0. split; [right |]; auto.
      - intros r0 [<- | Hin] Hl; [| auto].
        left. apply existsb_key_In. exact Es. }
    destruct (IH (raw_key r :: seen)) as (H1 & H2 & H3 & H4 & H5).
    apply Z.ltb_ge in Ew. apply Z.ltb_ge in Eh. apply String.eqb_neq in Eo.
    repeat split.
    + constructor; [cbn; auto | exact H1].
    + cbn [map]. constructor; [| exact H2].
      intros Hin. apply in_map_iff in Hin. destruct Hin as [i [Hk Hi]].
      apply (H3 i Hi). left. exact (eq_sym Hk).
    + intros i [<- | Hi].
      * intros Hin. apply existsb_key_In in Hin.
        change (info_key (window_entry r)) with (raw_key r) in Hin. congruence.
      * intros Hin. apply (H3 i Hi). right. exact Hin.
    + intros i [<- | Hi].
      * exists r. split; [left |]; reflexivity.
      * destruct (H4 i Hi) as [r0 [Hin E]]. exists r0. split; [right |]; auto.
    + intros r0 [<- | Hin] Hl.
      * right. cbn [map]. left. reflexivity.
      * destruct (H5 r0 Hin Hl) as [[E | Hs] | Hout].
        -- right. cbn [map]. left. exact E.
        -- left. exact Hs.
        -- right. cbn [map]. right. exact Hout.
Qed.

(** X1. [get_window_list] lists only windows at least 50 by 50 with an
    owner, each built from a listed entry; no two of its results share
    owner, name, width and height; and every listed entry of layer 0
    that is large enough and has an owner is represented by a result
    with its key. *)
Theorem get_window_list_filters_and_dedupes (raws : list RawWindow) :
  let out := get_window_list raws in
  Forall (fun i => 50 <= win_width i /\ 50 <= win_height i /\ win_owner i <> "") out
  /\ NoDup (map info_key out)
  /\ Forall (fun i => exists r, In r raws /\ i = window_entry r) out
  /\ Forall (fun r => listable r = false \/ In (raw_key r) (map info_key out)) raws.
Proof.
  cbv zeta. unfold get_window_list.
  destruct (window_loop_spec raws []) as (H1 & H2 & _ & H4 & H5). cbv zeta in *.
  repeat split; auto.
  - apply Forall_forall. exact H4.
  - apply Forall_forall. intros r Hin.
    destruct (listable r) eqn:Hl; [right | left; reflexivity].
    destruct (H5 r Hin Hl) as [[] | H]. exact H.
Qed.

(** ** Change detector *)

Lemma pixels_difference_comm (ps qs : list pixel) :
  pixels_difference ps qs = pixels_difference qs ps.
Proof.
  revert qs. induction ps as [| p ps IH]; intros [| q qs]; cbn [pixels_difference];
    try reflexivity.
  assert (Habs : forall a b, Z.abs (a - b) = Z.abs (b - a)) by (intros; lia).
  rewrite IH. f_equal. unfold pixel_difference.
  rewrite (Habs (red p)), (Habs (green p)), (Habs (blue p)). reflexivity.
Qed.

(** X2. The verdict of [images_different] does not depend on the order
    of its two frames, whatever their sizes and contents. *)
Theorem images_different_symmetric (img1 img2 : Image) :
  images_different img1 img2 = images_different img2 img1.
Proof.
  unfold images_different, size, size_eqb. cbn [fst snd].
  rewrite (Z.eqb_sym (width img2)), (Z.eqb_sym (height img2)).
  destruct (width img1 =? width img2) eqn:Ew; [| reflexivity].
  destruct (height img1 =? height img2) eqn:Eh; [| reflexivity].
  apply Z.eqb_eq in Ew. apply Z.eqb_eq in Eh. cbn [andb negb].
  unfold histogram, difference. cbn [pixels].
  rewrite (pixels_difference_comm (pixels img2)), Ew, Eh. reflexivity.
Qed.

(** ** Reading file names back *)

Lemma digits_value_of_uint (d : Decimal.uint) (acc : Z) :
  digits_value (NilEmpty.string_of_uint d) acc = Some (uint_value d acc).
Proof.
  revert acc. induction d; intros acc; cbn [NilEmpty.string_of_uint uint_value digits_value];
    try reflexivity;
    match goal with
    | |- context [digit_value ?c] =>
        let v := eval vm_compute in (digit_value c) in
        change (digit_value c) with v
    end; cbv iota; rewrite ?Z.add_0_r; apply IHd.
Qed.

Lemma all_digits_of_uint (d : Decimal.uint) :
  all_digits (NilEmpty.string_of_uint d) = true.
Proof.
  induction d; cbn [NilEmpty.string_of_uint all_digits]; try reflexivity;
    match goal with
    | |- context [digit_value ?c] =>
        let v := eval vm_compute in (digit_value c) in
        change (digit_value c) with v
    end; cbv iota; exact IHd.
Qed.

Lemma uint_value_spec (d : Decimal.uint) (acc : Z) :
  uint_value d acc
  = Z.of_N (DecimalPos.Unsigned.of_lu (Decimal.rev d))
    + acc * 10 ^ Z.of_N (DecimalPos.Unsigned.usize d).
Proof.
  assert (Hrev : forall d d',
             Z.of_N (DecimalPos.Unsigned.of_lu (Decimal.revapp d d'))
             = Z.of_N (DecimalPos.Unsigned.of_lu (Decimal.rev d))
               + Z.of_N (DecimalPos.Unsigned.of_lu d')
                 * 10 ^ Z.of_N (DecimalPos.Unsigned.usize d)).
  { intros d0 d'.
    rewrite DecimalPos.Unsigned.of_lu_revapp, N2Z.inj_add, N2Z.inj_mul, N2Z.inj_pow.
    reflexivity. }
  revert acc.
  induction d; intros acc; cbn [uint_value DecimalPos.Unsigned.usize];
    [ cbn; lia | .. ];
    rewrite IHd;
    match goal with
    | |- context [Decimal.rev (?f d)] =>
        change (Decimal.rev (f d)) with (Decimal.revapp d (f Decimal.Nil));
        rewrite (Hrev d (f Decimal.Nil));
        let v := eval vm_compute in (Z.of_N (DecimalPos.Unsigned.of_lu (f Decimal.Nil))) in
        change (Z.of_N (DecimalPos.Unsigned.of_lu (f Decimal.Nil))) with v
    end;
    rewrite N2Z.inj_succ, Z.pow_succ_r by apply N2Z.is_nonneg; ring.
Qed.

Lemma digits_of_nonneg_spec (n : Z) :
  0 <= n ->
  digits_of_nonneg n <> ""
  /\ all_digits (digits_of_nonneg n) = true
  /\ digits_value (digits_of_nonneg n) 0 = Some n.
Proof.
  intros Hn. unfold digits_of_nonneg.
  assert (Hnil : N.to_uint (Z.to_N n) <> Decimal.Nil).
  { destruct (Z.to_N n); cbn; [discriminate | apply DecimalPos.Unsigned.to_uint_nonnil]. }
  assert (E : NilZero.string_of_uint (N.to_uint (Z.to_N n))
              = NilEmpty.string_of_uint (N.to_uint (Z.to_N n))).
  { destruct (N.to_uint (Z.to_N n)); try reflexivity. contradiction. }
  rewrite E. split; [| split].
  - destruct (N.to_uint (Z.to_N n)); cbn; try discriminate; try contradiction.
  - apply all_digits_of_uint.
  - rewrite digits_value_of_uint, uint_value_spec.
    rewrite <- DecimalPos.Unsigned.of_uint_alt.
    change (Pos.of_uint (N.to_uint (Z.to_N n))) with (N.of_uint (N.to_uint (Z.to_N n))).
    rewrite DecimalN.Unsigned.of_to, Z2N.id by exact Hn. f_equal. lia.
Qed.

Lemma append_assoc (a b c : string) : (a ++ b) ++ c = a ++ (b ++ c).
Proof. induction a as [| x a IH]; cbn; [reflexivity | rewrite IH; reflexivity]. Qed.

Lemma append_length (a b : string) :
  String.length (a ++ b) = (String.length a + String.length b)%nat.
Proof. induction a as [| x a IH]; cbn; [reflexivity | rewrite IH; reflexivity]. Qed.

Lemma substring_all (b : string) : substring 0 (String.length b) b = b.
Proof. induction b as [| x b IH]; cbn; [reflexivity | rewrite IH; reflexivity]. Qed.

Lemma substring_head (a b : string) : substring 0 (String.length a) (a ++ b) = a.
Proof.
  induction a as [| x a IH]; cbn.
  - destruct b; reflexivity.
  - rewrite IH. reflexivity.
Qed.

Lemma substring_tail (a b : string) :
  substring (String.length a) (String.length b) (a ++ b) = b.
Proof. induction a as [| x a IH]; cbn; [apply substring_all | exact IH]. Qed.

Lemma all_digits_append (a b : string) :
  all_digits (a ++ b) = all_digits a && all_digits b.
Proof.
  induction a as [| x a IH]; cbn; [reflexivity |].
  destruct (digit_value x); [exact IH | reflexivity].
Qed.

Lemma all_digits_zeros (k : nat) : all_digits (zeros k) = true.
Proof. induction k as [| k IH]; cbn; [reflexivity | exact IH]. Qed.

Lemma all_digits_contains (c : ascii) (s : string) :
  all_digits s = true -> digit_value c = None -> contains c s = false.
Proof.
  intros Hs Hc. induction s as [| d s IH]; cbn in *; [reflexivity |].
  destruct (digit_value d) eqn:Ed; [| discriminate Hs].
  rewrite (IH Hs), orb_false_r.
  destruct (Ascii.eqb c d) eqn:E; [| reflexivity].
  apply Ascii.eqb_eq in E. subst d. congruence.
Qed.

Lemma digit_not_space (c : ascii) (v : Z) : digit_value c = Some v -> is_space c = false.
Proof.
  unfold digit_value, is_space. cbv zeta.
  destruct ((48 <=? nat_of_ascii c)%nat && (nat_of_ascii c <=? 57)%nat) eqn:E;
    [| discriminate].
  intros _. apply andb_true_iff in E. destruct E as [E1 E2].
  apply Nat.leb_le in E1. apply Nat.leb_le in E2.
  rewrite !orb_false_iff, !andb_false_iff, Nat.eqb_neq, !Nat.leb_gt. lia.
Qed.

Lemma rfind_from_skip (c : ascii) (a s : string) (i : nat) (found : option nat) :
  contains c a = false ->
  rfind_from c (a ++ s) i found = rfind_from c s (i + String.length a) found.
Proof.
  revert i. induction a as [| x a IH]; intros i Ha; cbn in *.
  - rewrite Nat.add_0_r. reflexivity.
  - apply orb_false_iff in Ha. destruct Ha as [Hx Ha].
    rewrite Hx, (IH (S i) Ha). f_equal. lia.
Qed.

Lemma split_acc_plain (sep : ascii) (s cur : string) :
  contains sep s = false -> split_acc sep s cur = [cur ++ s].
Proof.
  revert cur. induction s as [| x s IH]; intros cur Hs; cbn in *.
  - assert (E : cur ++ "" = cur)
      by (clear; induction cur as [| y cur IH]; cbn; [| rewrite IH]; reflexivity).
    rewrite E. reflexivity.
  - apply orb_false_iff in Hs. destruct Hs as [Hx Hs].
    rewrite Ascii.eqb_sym, Hx, (IH _ Hs), append_assoc. reflexivity.
Qed.

Lemma strip_digits (s : string) : all_digits s = true -> strip s = s.
Proof.
  intros Hs. unfold strip.
  assert (Hl : lstrip s = s).
  { destruct s as [| c s]; [reflexivity |]. cbn in *.
    destruct (digit_value c) eqn:Ec; [| discriminate Hs].
    rewrite (digit_not_space c _ Ec). reflexivity. }
  rewrite Hl. induction s as [| c s IH]; [reflexivity |].
  cbn in Hs. destruct (digit_value c) eqn:Ec; [| discriminate Hs].
  cbn [rstrip]. rewrite IH.
  - destruct s; [rewrite (digit_not_space c _ Ec) |]; reflexivity.
  - exact Hs.
  - destruct s as [| d s]; [reflexivity |]. cbn in *.
    destruct (digit_value d) eqn:Ed; [| discriminate Hs].
    rewrite (digit_not_space d _ Ed). reflexivity.
Qed.

Lemma all_digits_ascii (s : string) : all_digits s = true -> is_ascii s = true.
Proof.
  induction s as [| c s IH]; [reflexivity |]. cbn [all_digits is_ascii].
  unfold digit_value. cbv zeta.
  destruct ((48 <=? nat_of_ascii c)%nat && (nat_of_ascii c <=? 57)%nat) eqn:E;
    [| discriminate].
  intros Hs. rewrite (IH Hs), andb_true_r.
  apply andb_true_iff in E. destruct E as [_ E]. apply Nat.leb_le in E.
  apply Nat.ltb_lt. lia.
Qed.

Lemma int_of_str_digits (s : string) (n : Z) :
  all_digits s = true -> s <> "" -> digits_value s 0 = Some n ->
  int_of_str s = Ok n.
Proof.
  intros Hs Hne Hv. unfold int_of_str, ascii_numeral.
  rewrite (all_digits_ascii s Hs), (strip_digits s Hs).
  destruct s as [| c s]; [contradiction |].
  assert (Hdigit : is_digit c = true).
  { cbn in Hs. unfold is_digit. destruct (digit_value c); [reflexivity | discriminate Hs]. }
  assert (Hsign : c <> "-"%char /\ c <> "+"%char).
  { cbn in Hs. split; intros ->; discriminate Hs. }
  destruct Hsign as [Hminus Hplus].
  assert (E : match String c s with
              | String "-" rest => option_map Z.opp (unsigned_value rest)
              | String "+" rest => unsigned_value rest
              | _ => unsigned_value (String c s)
              end = unsigned_value (String c s)).
  { destruct c as [[] [] [] [] [] [] [] []]; try reflexivity; exfalso; auto. }
  cbv zeta. rewrite E. unfold unsigned_value. rewrite Hdigit, Hv. reflexivity.
Qed.

Lemma digits_value_zeros (k : nat) (s : string) :
  digits_value (zeros k ++ s) 0 = digits_value s 0.
Proof. induction k as [| k IH]; cbn; [reflexivity | exact IH]. Qed.

Lemma format_04d_spec (n : Z) :
  0 <= n ->
  all_digits (format_04d n) = true
  /\ format_04d n <> ""
  /\ int_of_str (format_04d n) = Ok n.
Proof.
  intros Hn. unfold format_04d.
  destruct (n <? 0) eqn:E; [apply Z.ltb_lt in E; lia |].
  destruct (digits_of_nonneg_spec n Hn) as (Hne & Hd & Hv). cbv zeta.
  assert (Hall : all_digits (zeros (4 - String.length (digits_of_nonneg n))
                             ++ digits_of_nonneg n) = true)
    by (rewrite all_digits_append, all_digits_zeros, Hd; reflexivity).
  assert (Hne' : zeros (4 - String.length (digits_of_nonneg n)) ++ digits_of_nonneg n <> "").
  { destruct (zeros (4 - String.length (digits_of_nonneg n))); [exact Hne | discriminate]. }
  repeat split; auto.
  apply int_of_str_digits; auto. rewrite digits_value_zeros. exact Hv.
Qed.

Lemma slide_name_reads_back (n : Z) :
  0 <= n ->
  matches_slide_pattern (slide_name n) = true
  /\ sequence_number (slide_name n) = Ok n.
Proof.
  intros Hn. destruct (format_04d_spec n Hn) as (Hd & Hne & Hint).
  unfold slide_name. set (F := format_04d n) in *. clearbody F.
  assert (Hname : "slide_" ++ F ++ ".png" = ("slide_" ++ F) ++ ".png")
    by (symmetry; apply append_assoc).
  split.
  - unfold matches_slide_pattern, startswith, endswith.
    assert (Hpre : prefix "slide_" ("slide_" ++ F ++ ".png") = true)
      by (cbn; destruct F; reflexivity).
    rewrite Hpre, Hname, append_length.
    replace (String.length ("slide_" ++ F) + String.length ".png"
             - String.length ".png")%nat
      with (String.length ("slide_" ++ F)) by lia.
    rewrite substring_tail, String.eqb_refl.
    cbn [String.length append andb].
    rewrite andb_true_r. apply andb_true_iff.
    split; apply Nat.leb_le; lia.
  - unfold sequence_number, stem, rfind. rewrite Hname.
    assert (Hdot : contains "." ("slide_" ++ F) = false).
    { cbn. apply all_digits_contains; [exact Hd | reflexivity]. }
    rewrite (rfind_from_skip "." ("slide_" ++ F) ".png" 0 None Hdot).
    cbn [rfind_from Ascii.eqb Bool.eqb]. cbv iota.
    assert (Hlen : String.length (("slide_" ++ F) ++ ".png")
                   = (String.length ("slide_" ++ F) + 4)%nat)
      by (rewrite append_length; reflexivity).
    rewrite Hlen. set (L := String.length ("slide_" ++ F)).
    assert (HL : (6 <= L)%nat) by (unfold L; rewrite append_length; cbn; lia).
    assert (Hpos : ((0 <? 0 + L)%nat && (0 + L <? L + 4 - 1)%nat) = true)
      by (apply andb_true_iff; split; apply Nat.ltb_lt; lia).
    rewrite Hpos. cbn [Nat.add]. unfold L. rewrite substring_head.
    assert (Hsplit : split "_" ("slide_" ++ F) = ["slide"; F]).
    { unfold split. cbn.
      rewrite (split_acc_plain "_" F "");
        [reflexivity | apply all_digits_contains; [exact Hd | reflexivity]]. }
    rewrite Hsplit. cbn [getitem nth_error]. exact Hint.
Qed.

(** X3. Writing and reading a file name are inverse: for every counter
    value [n >= 0] the name [slide_{n:04d}.png] matches the pattern
    [slide_*.png] and [int(f.stem.split("_")[1])] gives [n] back. *)
Theorem sequence_number_of_slide_name (n : Z) :
  0 <= n ->
  matches_slide_pattern (slide_name n) = true
  /\ sequence_number (slide_name n) = Ok n.
Proof. exact (slide_name_reads_back n). Qed.

Lemma sequence_number_of_slide_name_witness :
  matches_slide_pattern (slide_name 12345) = true
  /\ sequence_number (slide_name 12345) = Ok 12345.
Proof. apply (sequence_number_of_slide_name 12345). lia. Defined.

(** ** Seeding the counter *)

Lemma slide_numbers_In (names : list string) (name : string) (n : Z) :
  In name names -> matches_slide_pattern name = true ->
  sequence_number name = Ok n -> In n (slide_numbers names).
Proof.
  intros Hin Hm Hn. unfold slide_numbers. apply in_flat_map.
  exists name. split.
  - apply filter_In. auto.
  - rewrite Hn. left. reflexivity.
Qed.

Lemma slide_numbers_perm (names names' : list string) :
  Permutation names names' -> Permutation (slide_numbers names) (slide_numbers names').
Proof.
  intros Hp. unfold slide_numbers. apply Permutation_flat_map.
  induction Hp as [| x l l' Hp IH | x y l | l l' l'' H1 IH1 H2 IH2]; cbn [filter].
  - constructor.
  - destruct (matches_slide_pattern x); [constructor |]; exact IH.
  - destruct (matches_slide_pattern x), (matches_slide_pattern y);
      try apply Permutation_refl. apply perm_swap.
  - eapply Permutation_trans; eassumption.
Qed.

Lemma fold_max_perm (l l' : list Z) :
  Permutation l l' -> fold_right Z.max 0 l = fold_right Z.max 0 l'.
Proof.
  intros Hp. induction Hp; cbn [fold_right]; lia.
Qed.

(** X4. Restart resumes above the files already written: when the save
    directory holds the file named for counter value [c >= 0], the
    counter that [init_capture_count] sets is at least [c], whatever it
    was before, so the next save is numbered above [c]. *)
Theorem init_capture_count_above_written
        (w w' : World) (image : Image) (s : AppState) (names : list string) (c : Z) :
  listdir w (save_dir s) = Some names -> In (slide_name c) names -> 0 <= c ->
  let seeded := state_of (init_capture_count w s) in
  c <= capture_count seeded
  /\ c < capture_count (state_of (save_image w' image seeded)).
Proof.
  intros Hdir Hin Hc. cbv zeta.
  rewrite init_capture_count_spec, Hdir. cbn [state_of fst snd].
  rewrite save_image_count. fields. unfold max_sequence_number.
  destruct (slide_name_reads_back c Hc) as [Hm Hn].
  pose proof (slide_numbers_In names _ c Hin Hm Hn) as Hnum.
  destruct (fold_right_max_bounds (slide_numbers names)) as [_ Hall].
  pose proof (proj1 (Forall_forall _ _) Hall c Hnum) as Hle. cbn in Hle. lia.
Qed.

Lemma init_capture_count_above_written_witness :
  let w := world_with_files ["notes.txt"; "slide_0041.png"] in
  let seeded := state_of (init_capture_count w (initial_state "/Users/me")) in
  41 <= capture_count seeded
  /\ 41 < capture_count (state_of (save_image w frame_white seeded)).
Proof.
  apply (init_capture_count_above_written
           (world_with_files ["notes.txt"; "slide_0041.png"])
           (world_with_files ["notes.txt"; "slide_0041.png"])
           frame_white (initial_state "/Users/me")
           ["notes.txt"; "slide_0041.png"] 41).
  - reflexivity.
  - right. left. reflexivity.
  - lia.
Defined.

(** X5. The seed depends on the set of names only: two directory
    listings that are permutations of each other give the same counter,
    and the value that the counter had before plays no part. *)
Theorem init_capture_count_order_independent
        (w w' : World) (s s' : AppState) (names names' : list string) :
  listdir w (save_dir s) = Some names ->
  listdir w' (save_dir s') = Some names' ->
  Permutation names names' ->
  capture_count (state_of (init_capture_count w s))
  = capture_count (state_of (init_capture_count w' s')).
Proof.
  intros Hdir Hdir' Hp.
  rewrite !init_capture_count_spec, Hdir, Hdir'. cbn [state_of fst snd]. fields.
  unfold max_sequence_number. apply fold_max_perm, slide_numbers_perm, Hp.
Qed.

Lemma init_capture_count_order_independent_witness :
  capture_count
    (state_of (init_capture_count
                 (world_with_files ["slide_0002.png"; "slide_0009.png"])
                 (initial_state "/Users/me")))
  = capture_count
      (state_of (init_capture_count
                   (world_with_files ["slide_0009.png"; "slide_0002.png"])
                   (armed_on_window "manual" "folder"))).
Proof.
  apply (init_capture_count_order_independent
           (world_with_files ["slide_0002.png"; "slide_0009.png"])
           (world_with_files ["slide_0009.png"; "slide_0002.png"])
           (initial_state "/Users/me") (armed_on_window "manual" "folder")
           ["slide_0002.png"; "slide_0009.png"] ["slide_0009.png"; "slide_0002.png"]).
  - reflexivity.
  - reflexivity.
  - apply perm_swap.
Defined.

(** ** Manual trigger and polling loop: what they write *)

Lemma target_absent_no_image (w : World) (s : AppState) :
  target_absent s = true -> target_image w s = None.
Proof.
  intros Habs. destruct (target_image w s) as [img |] eqn:E; [| reflexivity].
  rewrite (target_image_some_not_absent w s img E) in Habs. discriminate Habs.
Qed.

(** X6. [manual_capture] never raises.  It returns [True] exactly when
    the session is running and the capture yields an image, and exactly
    then the counter advances, by one; in every case the state it
    leaves differs from the old one in the counter and the status
    only. *)
Theorem manual_capture_returns_true_iff_saved (w : World) (s : AppState) :
  let r := manual_capture w s in
  let saved := is_running s && truthy_opt_obj (target_image w s) in
  result_of r = Ok saved
  /\ capture_count (state_of r) = capture_count s + (if saved then 1 else 0)
  /\ exists text : string,
       state_of r = set_status text (set_capture_count (capture_count (state_of r)) s).
Proof.
  cbv zeta. destruct (is_running s) eqn:Hrun.
  - destruct (target_absent s) eqn:Habs.
    + rewrite (target_absent_no_image w s Habs). cbn [andb truthy_opt_obj].
      destruct (manual_capture_rejected w s (or_intror Habs)) as [msg E].
      rewrite E. cbn [result_of state_of fst snd]. fields.
      repeat split; [lia |]. exists msg. rewrite set_capture_count_same. reflexivity.
    + rewrite (manual_capture_past_guards w s Hrun Habs).
      destruct (target_image w s) as [img |]; cbn [andb truthy_opt_obj].
      * destruct (save_image_state w img s) as [msg Hst].
        cbn [result_of state_of fst snd] in *. rewrite Hst. fields.
        repeat split. exists msg. reflexivity.
      * cbn [result_of state_of fst snd]. fields.
        repeat split; [lia |]. eexists. rewrite set_capture_count_same. reflexivity.
  - cbn [andb].
    destruct (manual_capture_rejected w s (or_introl Hrun)) as [msg E].
    rewrite E. cbn [result_of state_of fst snd]. fields.
    repeat split; [lia |]. exists msg. rewrite set_capture_count_same. reflexivity.
Qed.

Lemma loop_writes_interval (s s' : AppState) :
  loop_writes s s' -> polling_interval s' = polling_interval s.
Proof. intros (c & f & p & t & -> & _). reflexivity. Qed.

Lemma sleeps_interval (s s' : AppState) (ws : list World) :
  polling_interval s' = polling_interval s -> sleeps s' ws = sleeps s ws.
Proof. intros H. unfold sleeps. rewrite H. reflexivity. Qed.

Lemma auto_monitor_loop_frame (ws : list World) (s : AppState) :
  loop_writes s (state_of (auto_monitor_loop ws s))
  /\ (sleeps s ws = true -> result_of (auto_monitor_loop ws s) = Ok tt)
  /\ (forall x : string,
        result_of (auto_monitor_loop ws s) = Raise x ->
        exists w, In w ws /\ sleep (platform_sleep w) (polling_interval s) = Raise x).
Proof.
  revert s. induction ws as [| w rest IH]; intros s.
  - split; [apply loop_writes_refl |]. split; [reflexivity |].
    intros x H. discriminate H.
  - rewrite auto_monitor_loop_cons.
    destruct (is_running s && (mode s =? "auto")%string).
    2: { split; [apply loop_writes_refl |]. split; [reflexivity |].
         intros x H. discriminate H. }
    destruct (auto_iteration_writes w s) as [_ Hw].
    destruct (auto_iteration w s) as [[r1 s1] e1].
    cbn [state_of fst snd] in Hw.
    pose proof (loop_writes_interval s s1 Hw) as Hpi.
    destruct (IH s1) as (Hw' & Hok & Hraise).
    rewrite (sleeps_interval s s1 rest Hpi) in Hok. rewrite Hpi in Hraise.
    destruct (truthy_opt_obj (target_image w s)).
    + destruct (sleep (platform_sleep w) (polling_interval s)) as [[] | x0] eqn:Hsleep.
      * destruct (auto_monitor_loop rest s1) as [[r2 s2] e2].
        cbn [result_of state_of fst snd] in *.
        split; [exact (loop_writes_trans _ _ _ Hw Hw') |]. split.
        -- intros Hs. apply sleeps_cons in Hs. apply Hok, Hs.
        -- intros x Hx. destruct (Hraise x Hx) as (w' & Hin & Hw'').
           exists w'. split; [right; exact Hin | exact Hw''].
      * cbn [result_of state_of fst snd].
        split; [exact Hw |]. split.
        -- intros Hs. apply sleeps_cons in Hs. destruct Hs as [Hs _].
           rewrite Hsleep in Hs. discriminate Hs.
        -- intros x Hx. injection Hx as <-.
           exists w. split; [left; reflexivity | exact Hsleep].
    + destruct (auto_monitor_loop rest s1) as [[r2 s2] e2].
      cbn [result_of state_of fst snd] in *.
      split; [exact (loop_writes_trans _ _ _ Hw Hw') |]. split.
      * intros Hs. apply sleeps_cons in Hs. apply Hok, Hs.
      * intros x Hx. destruct (Hraise x Hx) as (w' & Hin & Hw'').
        exists w'. split; [right; exact Hin | exact Hw''].
Qed.

(** X7. For any number of iterations the polling loop writes no field of
    the session other than the counter, the last frame, the pending
    time stamp and the status, and the counter never goes down.  The
    [try] statement of its body catches whatever the captures, the
    comparisons and the writes raise, so the loop returns whenever
    [time.sleep] returns for the polling interval at every iteration,
    and an exception that leaves the loop is one that [time.sleep]
    raised for the polling interval. *)
Theorem auto_monitor_loop_writes (ws : list World) (s : AppState) :
  loop_writes s (state_of (auto_monitor_loop ws s))
  /\ (sleeps s ws = true -> result_of (auto_monitor_loop ws s) = Ok tt)
  /\ (forall x : string,
        result_of (auto_monitor_loop ws s) = Raise x ->
        exists w, In w ws /\ sleep (platform_sleep w) (polling_interval s) = Raise x).
Proof. exact (auto_monitor_loop_frame ws s). Qed.

Lemma auto_monitor_loop_writes_witness :
  result_of (auto_monitor_loop scenario (armed_on_window "auto" "folder")) = Ok tt
  /\ exists w, In w (white_from_600ms true true)
               /\ sleep (platform_sleep w) (-1)%float = Raise "ValueError".
Proof.
  split.
  - apply (auto_monitor_loop_writes scenario (armed_on_window "auto" "folder")).
    reflexivity.
  - apply (auto_monitor_loop_writes (white_from_600ms true true)
             (set_polling_interval (-1)%float polling_after_change)).
    reflexivity.
Defined.

(** ** Starting and stopping through [/api/toggle] *)

Lemma start_capture_ready (w : World) (s : AppState) :
  target_absent s = false -> mkdir_ok w (save_dir s) = true ->
  (capture_mode s =? "window")%string = true \/ region s <> None ->
  start_capture w s =
    if (mode s =? "manual")%string then
      (Ok true, set_status "🖱 Cmd+Ctrl+S で撮影" (set_is_running true s),
       [MkDir (save_dir s)])
    else
      (Ok true,
       set_status "🔄 監視中"
         (set_auto_thread (Some (new_thread w))
            (set_change_detected_time None
               (set_last_image None (set_is_running true s)))),
       [MkDir (save_dir s); StartThread "auto_monitor_loop"]).
Proof.
  intros Habs Hmk Htarget. unfold target_absent in Habs.
  apply orb_false_iff in Habs. destruct Habs as [Hw Hr].
  unfold start_capture, mkdir. step_m. rewrite Hw, Hr, Hmk. step_m.
  destruct (capture_mode s =? "window")%string.
  - step_m. destruct (mode s =? "manual")%string; reflexivity.
  - destruct Htarget as [H | H]; [discriminate H |].
    destruct (region s) as [r |]; [| contradiction].
    step_m. destruct (mode s =? "manual")%string; reflexivity.
Qed.

Lemma start_capture_mkdir_fails (w : World) (s : AppState) :
  target_absent s = false -> mkdir_ok w (save_dir s) = false ->
  start_capture w s = (Raise "OSError", set_is_running true s, []).
Proof.
  intros Habs Hmk. unfold target_absent in Habs.
  apply orb_false_iff in Habs. destruct Habs as [Hw Hr].
  unfold start_capture, mkdir. step_m. rewrite Hw, Hr, Hmk. reflexivity.
Qed.

(** The route in window mode on a stopped session: it stores the
    settings, calls [start_capture] and swallows what that raises. *)
Lemma toggle_window_mode (w : World) (s : AppState) (saveDir : option string)
      (settlingTime pollingInterval : option float) (rx ry rw rh : option (result Z)) :
  is_running s = false -> capture_mode s = "window" ->
  do_GET w (Toggle saveDir (option_map Ok settlingTime) (option_map Ok pollingInterval)
                   rx ry rw rh) s
  = match start_capture w (toggled_settings saveDir settlingTime pollingInterval s) with
    | (_, s', effects) => (Ok 200, s', effects)
    end.
Proof.
  intros Hrun Hmode. unfold do_GET, toggled_settings.
  unfold bind at 1. unfold get at 1. rewrite Hrun.
  destruct settlingTime as [st |], pollingInterval as [pi |];
    cbn [option_map param]; step_m; rewrite Hmode;
    change ("window" =? "region")%string with false; step_m;
    match goal with
    | |- context [start_capture w ?c] =>
        destruct (start_capture w c) as [[[b | x] s'] e]
    end; cbn [app]; rewrite ?app_nil_r; reflexivity.
Qed.

(** X8. A start that fails after the guards leaves the session running:
    when the save directory cannot be created, [/api/toggle] on a stopped
    session with a selected window answers 200 with the running flag set
    and the status text untouched; the next [/api/toggle] therefore stops
    instead of starting. *)
Theorem toggle_failed_start_leaves_running
        (w w' : World) (s : AppState) (saveDir : option string)
        (settlingTime pollingInterval : option float) (rx ry rw rh : option (result Z)) :
  is_running s = false -> capture_mode s = "window" ->
  truthy_opt_int (target_window_id s) = true ->
  mkdir_ok w (param saveDir (save_dir s)) = false ->
  let request := Toggle saveDir (option_map Ok settlingTime)
                        (option_map Ok pollingInterval) rx ry rw rh in
  let r := do_GET w request s in
  result_of r = Ok 200
  /\ is_running (state_of r) = true
  /\ status (state_of r) = status s
  /\ effects_of r = []
  /\ is_running (state_of (do_GET w' request (state_of r))) = false.
Proof.
  intros Hrun Hmode Hid Hmk. cbv zeta.
  rewrite (toggle_window_mode w s _ _ _ rx ry rw rh Hrun Hmode).
  rewrite start_capture_mkdir_fails.
  - cbn [result_of state_of effects_of fst snd]. fields. repeat split.
  - unfold target_absent, toggled_settings. fields. rewrite Hmode, Hid. reflexivity.
  - unfold toggled_settings. fields. exact Hmk.
Qed.

Lemma toggle_failed_start_leaves_running_witness :
  let request := Toggle None None None None None None None in
  let r := do_GET (world_without_mkdir None) request (stopped_on_window "manual") in
  result_of r = Ok 200 /\ is_running (state_of r) = true
  /\ status (state_of r) = status (stopped_on_window "manual").
Proof.
  destruct (toggle_failed_start_leaves_running
              (world_without_mkdir None) (world_without_mkdir None)
              (stopped_on_window "manual") None None None None None None None
              eq_refl eq_refl eq_refl eq_refl) as (H1 & H2 & H3 & _).
  cbv zeta. repeat split; assumption.
Defined.

(** X9. A rejected start is not free of side effects: in window mode
    without a selected window, [/api/toggle] on a stopped session stores
    the save directory, the settle time and the polling interval of the
    request before [start_capture] rejects it, and only then sets the
    explanatory status; the session stays stopped. *)
Theorem toggle_rejected_start_stores_settings
        (w : World) (s : AppState) (saveDir : option string)
        (settlingTime pollingInterval : option float) (rx ry rw rh : option (result Z)) :
  is_running s = false -> capture_mode s = "window" ->
  truthy_opt_int (target_window_id s) = false ->
  do_GET w (Toggle saveDir (option_map Ok settlingTime) (option_map Ok pollingInterval)
                   rx ry rw rh) s
  = (Ok 200,
     set_status "❌ ウィンドウを選択してください"
       (toggled_settings saveDir settlingTime pollingInterval s),
     []).
Proof.
  intros Hrun Hmode Hid.
  rewrite (toggle_window_mode w s _ _ _ rx ry rw rh Hrun Hmode).
  unfold start_capture, toggled_settings. step_m. rewrite Hmode, Hid. reflexivity.
Qed.

Lemma toggle_rejected_start_stores_settings_witness :
  save_dir
    (state_of (do_GET (world_with None true true 0%float)
                      (Toggle (Some "/tmp/shots") (Some (Ok 2%float)) None
                              None None None None)
                      (initial_state "/Users/me")))
  = "/tmp/shots".
Proof.
  pose proof (toggle_rejected_start_stores_settings
                (world_with None true true 0%float) (initial_state "/Users/me")
                (Some "/tmp/shots") (Some 2%float) None None None None None
                eq_refl eq_refl eq_refl) as H.
  cbn [option_map] in H. rewrite H. reflexivity.
Defined.

(** X10. [/api/toggle] on a running session stops it and ignores every
    parameter of the request: only the running flag and the status
    change, so the counter and the target stay.  On the state it
    leaves, a manual trigger is rejected without a capture and the
    polling loop ends at its first test without a capture. *)
Theorem toggle_stops_running_session
        (w : World) (s : AppState) (saveDir : option string)
        (settlingTime pollingInterval : option (result float))
        (rx ry rw rh : option (result Z)) :
  is_running s = true ->
  let stopped := set_status "停止中" (set_is_running false s) in
  do_GET w (Toggle saveDir settlingTime pollingInterval rx ry rw rh) s
  = (Ok 200, stopped, [])
  /\ (forall w', exists text : string,
         manual_capture w' stopped = (Ok false, set_status text stopped, []))
  /\ (forall ws, auto_monitor_loop ws stopped = (Ok tt, stopped, [])).
Proof.
  intros Hrun. cbv zeta. split; [| split].
  - unfold do_GET, stop_capture. step_m. rewrite Hrun. reflexivity.
  - intros w'. apply manual_capture_rejected. left. reflexivity.
  - intros [| w' rest]; reflexivity.
Qed.

Lemma toggle_stops_running_session_witness :
  is_running (state_of (do_GET (world_with None true true 0%float)
                               (Toggle None None None None None None None)
                               (armed_on_window "auto" "folder"))) = false.
Proof.
  destruct (toggle_stops_running_session
              (world_with None true true 0%float) (armed_on_window "auto" "folder")
              None None None None None None None eq_refl) as [E _].
  rewrite E. reflexivity.
Defined.

(** X11. Starting in auto mode forgets the frame and the pending change
    of an earlier run: after [start_capture] the first iteration of the
    polling loop that obtains an image only stores it; it compares
    nothing, saves nothing and leaves the counter alone. *)
Theorem start_in_auto_mode_forgets_last_frame
        (w w' : World) (s : AppState) (cur : Image) :
  mode s = "auto" -> mkdir_ok w (save_dir s) = true ->
  target_image w' s = Some cur ->
  let started := state_of (start_capture w s) in
  result_of (start_capture w s) = Ok true
  /\ is_running started = true
  /\ last_image started = None
  /\ change_detected_time started = None
  /\ auto_iteration w' started
     = (Ok tt, set_last_image (Some cur) started, capture_effects s).
Proof.
  intros Hmode Hmk Himg. cbv zeta.
  pose proof (target_image_some_not_absent w' s cur Himg) as Habs.
  assert (Htarget : (capture_mode s =? "window")%string = true \/ region s <> None).
  { unfold target_image in Himg.
    destruct (capture_mode s =? "window")%string; [left; reflexivity |].
    right. cbn [andb] in Himg.
    destruct ((capture_mode s =? "region")%string && truthy_opt_obj (region s));
      [| discriminate Himg].
    destruct (region s); [discriminate | discriminate Himg]. }
  rewrite (start_capture_ready w s Habs Hmk Htarget), Hmode.
  change ("auto" =? "manual")%string with false.
  cbn [result_of state_of fst snd]. fields. repeat split.
  rewrite auto_iteration_first_frame with (cur := cur); [reflexivity | reflexivity |].
  rewrite <- Himg. apply target_image_ext; reflexivity.
Qed.

Lemma start_in_auto_mode_forgets_last_frame_witness :
  let w := world_with (Some frame_white) true true 1%float in
  let started := state_of (start_capture w polling_after_change) in
  last_image polling_after_change = Some frame_white
  /\ last_image started = None
  /\ capture_count (state_of (auto_iteration w started)) = 3.
Proof.
  destruct (start_in_auto_mode_forgets_last_frame
              (world_with (Some frame_white) true true 1%float)
              (world_with (Some frame_white) true true 1%float)
              polling_after_change frame_white eq_refl eq_refl eq_refl)
    as (_ & _ & Hframe & _ & Hit).
  cbv zeta. split; [reflexivity |]. split; [exact Hframe |].
  rewrite Hit. reflexivity.
Defined.

(** X12. The capture mode is stored as it comes: [/api/capture_mode] on a
    stopped session accepts a mode that is neither "window" nor
    "region".  With such a mode and no rectangle, [start_capture] passes
    both guards, sets the running flag, creates the directory and then
    raises [TypeError]; the session is left running, and every manual
    trigger on it fails without a capture. *)
Theorem unknown_capture_mode_starts_and_raises
        (w : World) (s : AppState) (m : string) :
  is_running s = false -> region s = None ->
  (m =? "window")%string = false -> (m =? "region")%string = false ->
  mkdir_ok w (save_dir s) = true ->
  let configured := state_of (do_GET w (CaptureMode (Some m)) s) in
  let r := start_capture w configured in
  capture_mode configured = m
  /\ r = (Raise "TypeError", set_is_running true configured, [MkDir (save_dir s)])
  /\ (forall w',
         manual_capture w' (state_of r)
         = (Ok false, set_status "❌ キャプチャ失敗" (state_of r), [])).
Proof.
  intros Hrun Hreg Hw Hr Hmk. cbv zeta.
  assert (E : do_GET w (CaptureMode (Some m)) s = (Ok 200, set_capture_mode m s, [])).
  { unfold do_GET. step_m. rewrite Hrun. reflexivity. }
  rewrite E. cbn [state_of fst snd].
  assert (Es : start_capture w (set_capture_mode m s)
               = (Raise "TypeError", set_is_running true (set_capture_mode m s),
                  [MkDir (save_dir s)])).
  { unfold start_capture, mkdir. step_m. rewrite Hw, Hr. cbn [andb]. step_m.
    rewrite Hmk. step_m. rewrite Hw, Hreg. reflexivity. }
  rewrite Es. cbn [state_of fst snd]. repeat split.
  intros w'. unfold manual_capture, do_capture. step_m. rewrite Hw, Hr.
  cbn [andb negb]. step_m. rewrite Hw, Hr. reflexivity.
Qed.

Lemma unknown_capture_mode_starts_and_raises_witness :
  let w := world_with (Some frame_white) true true 0%float in
  let configured := state_of (do_GET w (CaptureMode (Some "screen")) (initial_state "/Users/me")) in
  result_of (start_capture w configured) = Raise "TypeError"
  /\ is_running (state_of (start_capture w configured)) = true.
Proof.
  destruct (unknown_capture_mode_starts_and_raises
              (world_with (Some frame_white) true true 0%float)
              (initial_state "/Users/me") "screen"
              eq_refl eq_refl eq_refl eq_refl eq_refl) as (_ & E & _).
  cbv zeta. rewrite E. split; reflexivity.
Defined.

(** ** Selecting the target *)

Lemma select_first_spec (wid : Z) (windows : list WindowInfo) (s : AppState) :
  select_first wid windows s =
    match find (fun win => win_id win =? wid) windows with
    | Some win =>
        (Ok tt,
         set_status ("選択: " ++ win_owner win)
           (set_target_window_name (win_name win)
              (set_target_owner_name (win_owner win)
                 (set_target_window_id (Some wid) s))),
         [])
    | None => (Ok tt, s, [])
    end.
Proof.
  induction windows as [| win rest IH]; cbn [select_first find].
  - reflexivity.
  - destruct (win_id win =? wid); [reflexivity | exact IH].
Qed.

(** X13. [/api/select_window] can only select a window that
    [get_window_list] enumerates now, and never the identifier 0: either
    the state is left as it was, or the target becomes the requested
    identifier together with the owner and name of the first enumerated
    window that carries it.  The running flag, the capture mode and the
    rectangle are not touched, so the selection also works while the
    session runs. *)
Theorem select_window_only_enumerated (w : World) (s : AppState) (wid : Z) :
  let r := do_GET w (SelectWindow (Some (Ok wid))) s in
  result_of r = Ok 200
  /\ (state_of r = s
      \/ (wid <> 0
          /\ exists win,
               In win (window_list w) /\ win_id win = wid
               /\ target_window_id (state_of r) = Some wid
               /\ target_owner_name (state_of r) = win_owner win
               /\ target_window_name (state_of r) = win_name win))
  /\ is_running (state_of r) = is_running s
  /\ capture_mode (state_of r) = capture_mode s
  /\ region (state_of r) = region s
  /\ capture_count (state_of r) = capture_count s.
Proof.
  cbv zeta.
  assert (E : do_GET w (SelectWindow (Some (Ok wid))) s
              = match (if truthy_int wid then select_first wid (window_list w) s
                       else (Ok tt, s, [])) with
                | (_, s', e) => (Ok 200, s', e)
                end).
  { unfold do_GET. cbn [param]. step_m.
    destruct (truthy_int wid); [| reflexivity].
    rewrite select_first_spec.
    destruct (find (fun win => win_id win =? wid) (window_list w)); reflexivity. }
  rewrite E. clear E. unfold truthy_int.
  destruct (wid =? 0) eqn:Ez; cbn [negb].
  - cbn. repeat split. left. reflexivity.
  - rewrite select_first_spec.
    destruct (find (fun win => win_id win =? wid) (window_list w)) as [win |] eqn:Ef.
    + cbn [result_of state_of fst snd]. fields. repeat split.
      right. apply Z.eqb_neq in Ez. split; [exact Ez |].
      apply find_some in Ef. destruct Ef as [Hin Hid]. apply Z.eqb_eq in Hid.
      exists win. repeat split; assumption.
    + cbn. repeat split. left. reflexivity.
Qed.

Lemma select_region_completed (w : World) (s : AppState) (cap_w cap_h : Z) :
  retina_scale s <> 0 -> selection_size w = Some (cap_w, cap_h) ->
  let r := interactive_select_region w s in
  result_of r = Ok true
  /\ capture_mode (state_of r) = "region"
  /\ (exists x y,
         region (state_of r)
         = Some (x, y, cap_w / retina_scale s, cap_h / retina_scale s)
         /\ 0 <= x /\ 0 <= y)
  /\ target_absent (state_of r) = false
  /\ is_running (state_of r) = is_running s
  /\ capture_count (state_of r) = capture_count s.
Proof.
  intros Hscale Hsel. cbv zeta. unfold interactive_select_region, floordiv.
  rewrite Hsel. apply Z.eqb_neq in Hscale. step_m. rewrite Hscale. step_m.
  destruct (2 <=? List.length (mouse_positions w))%nat.
  - destruct (last (mouse_positions w) (0, 0)) as [last_x last_y]. step_m.
    repeat split. eexists. eexists. split; [reflexivity |]. lia.
  - step_m. repeat split. eexists. eexists. split; [reflexivity |]. lia.
Qed.

(** X14. An interactive selection that is completed, on a session whose
    display scale is not 0, stores a rectangle of the selected size
    divided by the scale whose origin is never negative, switches the
    capture mode to "region" and so leaves a target that [start_capture]
    accepts; it touches neither the running flag nor the counter. *)
Theorem interactive_select_region_stores_target
        (w : World) (s : AppState) (cap_w cap_h : Z) :
  retina_scale s <> 0 -> selection_size w = Some (cap_w, cap_h) ->
  let r := interactive_select_region w s in
  result_of r = Ok true
  /\ capture_mode (state_of r) = "region"
  /\ (exists x y,
         region (state_of r)
         = Some (x, y, cap_w / retina_scale s, cap_h / retina_scale s)
         /\ 0 <= x /\ 0 <= y)
  /\ target_absent (state_of r) = false
  /\ is_running (state_of r) = is_running s
  /\ capture_count (state_of r) = capture_count s.
Proof. exact (select_region_completed w s cap_w cap_h). Qed.

Lemma interactive_select_region_stores_target_witness :
  let r := interactive_select_region (world_with None true true 0%float)
                                     (initial_state "/Users/me") in
  result_of r = Ok true /\ target_absent (state_of r) = false.
Proof.
  destruct (interactive_select_region_stores_target
              (world_with None true true 0%float) (initial_state "/Users/me") 800 600)
    as (H1 & _ & _ & H2 & _); [discriminate | reflexivity |].
  cbv zeta. split; assumption.
Defined.

(** X15. [interactive_select_region] changes the session only when a
    selection was made: when the user cancels, and also when the display
    scale is 0 and the division raises, the state is the old one.  With
    the scale that [detect_retina_scale] yields, which is at least 1
    whatever the probe does, the division never raises. *)
Theorem interactive_select_region_cancel_and_scale
        (w : World) (s : AppState) (probe : result (option Z)) :
  (selection_size w = None -> interactive_select_region w s = (Ok false, s, []))
  /\ (retina_scale s = 0 -> selection_size w <> None ->
      interactive_select_region w s = (Raise "ZeroDivisionError", s, []))
  /\ 1 <= detect_retina_scale probe
  /\ (exists b, result_of (interactive_select_region
                             w (set_retina_scale (detect_retina_scale probe) s)) = Ok b).
Proof.
  assert (Hdetect : 1 <= detect_retina_scale probe).
  { unfold detect_retina_scale. destruct probe as [[width |] | x]; lia. }
  split; [| split; [| split; [exact Hdetect |]]].
  - intros Hsel. unfold interactive_select_region. rewrite Hsel. reflexivity.
  - intros Hscale Hsel. unfold interactive_select_region, floordiv.
    destruct (selection_size w) as [[cap_w cap_h] |]; [| contradiction].
    step_m. rewrite Hscale. reflexivity.
  - destruct (selection_size w) as [[cap_w cap_h] |] eqn:Hsel.
    + exists true.
      apply (select_region_completed
               w (set_retina_scale (detect_retina_scale probe) s) cap_w cap_h);
        [fields; lia | exact Hsel].
    + exists false. unfold interactive_select_region. rewrite Hsel. reflexivity.
Qed.

Lemma interactive_select_region_cancel_and_scale_witness :
  interactive_select_region (world_without_mkdir None) (initial_state "/Users/me")
  = (Ok false, initial_state "/Users/me", [])
  /\ interactive_select_region (world_with None true true 0%float)
                               (set_retina_scale 0 (initial_state "/Users/me"))
     = (Raise "ZeroDivisionError", set_retina_scale 0 (initial_state "/Users/me"), []).
Proof.
  split.
  - apply (interactive_select_region_cancel_and_scale
             (world_without_mkdir None) (initial_state "/Users/me") (Ok None)).
    reflexivity.
  - apply (interactive_select_region_cancel_and_scale
             (world_with None true true 0%float)
             (set_retina_scale 0 (initial_state "/Users/me")) (Ok None)).
    + reflexivity.
    + discriminate.
Defined.

(** ** Keyboard shortcut *)

Lemma land_pow2_testbit (flags : Z) (n : Z) :
  0 <= n -> negb (Z.land flags (2 ^ n) =? 0) = Z.testbit flags n.
Proof.
  intros Hn. destruct (Z.testbit flags n) eqn:Hbit.
  - apply negb_true_iff, Z.eqb_neq. intros H0.
    assert (Hc : Z.testbit (Z.land flags (2 ^ n)) n = true)
      by (rewrite Z.land_spec, Hbit, Z.pow2_bits_true by exact Hn; reflexivity).
    rewrite H0, Z.bits_0 in Hc. discriminate Hc.
  - apply negb_false_iff, Z.eqb_eq. apply Z.bits_inj'. intros i Hi.
    rewrite Z.land_spec, Z.bits_0.
    destruct (Z.eq_dec i n) as [-> | Hne].
    + rewrite Hbit. reflexivity.
    + rewrite (Z.pow2_bits_false n i) by congruence. apply andb_false_r.
Qed.

(** X16. The shortcut fires on bits, not on an exact flag word: a key
    event starts a [manual_capture] thread exactly when it is a key-down
    of key code 1 whose flags have bit 20 (Command) and bit 18 (Control)
    set, whatever the other flag bits are; the callback itself never
    touches the session state. *)
Theorem keyboard_callback_fires_on_bits
        (event_type keycode flags : Z) (s : AppState) :
  keyboard_callback event_type keycode flags s
  = (Ok tt, s,
     if (event_type =? 10) && (keycode =? 1)
        && Z.testbit flags 20 && Z.testbit flags 18
     then [StartThread "manual_capture"] else []).
Proof.
  unfold keyboard_callback, kCGEventKeyDown, kCGEventFlagMaskCommand,
    kCGEventFlagMaskControl, SHORTCUT_KEYCODE.
  change 0x100000 with (2 ^ 20). change 0x40000 with (2 ^ 18).
  rewrite !land_pow2_testbit by lia.
  destruct (event_type =? 10); [| reflexivity]. cbn [andb].
  destruct (Z.testbit flags 20), (Z.testbit flags 18), (keycode =? 1); reflexivity.
Qed.

(** ** Invariants of the session under requests, keys and threads *)

Lemma target_absent_ext (s s' : AppState) :
  capture_mode s' = capture_mode s -> target_window_id s' = target_window_id s ->
  region s' = region s -> target_absent s' = target_absent s.
Proof. intros Hm Hw Hr. unfold target_absent. rewrite Hm, Hw, Hr. reflexivity. Qed.

Lemma start_capture_frame (w : World) (s : AppState) :
  let s' := state_of (start_capture w s) in
  save_mode s' = save_mode s /\ capture_count s' = capture_count s
  /\ capture_mode s' = capture_mode s /\ target_window_id s' = target_window_id s
  /\ region s' = region s
  /\ (is_running s' = is_running s \/ target_absent s = false).
Proof.
  cbv zeta. unfold target_absent, start_capture, mkdir. step_m.
  destruct ((capture_mode s =? "window")%string
            && negb (truthy_opt_int (target_window_id s))); cbn [orb].
  { repeat split. left. reflexivity. }
  destruct ((capture_mode s =? "region")%string && negb (truthy_opt_obj (region s))).
  { repeat split. left. reflexivity. }
  step_m. destruct (mkdir_ok w (save_dir s)); step_m.
  2: { repeat split. right. reflexivity. }
  destruct (capture_mode s =? "window")%string; step_m.
  - destruct (mode s =? "manual")%string; step_m;
      repeat split; try (right; reflexivity).
  - destruct (region s) as [r |] eqn:Hreg; step_m.
    + destruct (mode s =? "manual")%string; step_m;
        repeat split; try (right; reflexivity); exact Hreg.
    + repeat split; try (right; reflexivity); exact Hreg.
Qed.

Lemma running_has_target_start (w : World) (s : AppState) :
  running_has_target s = true ->
  running_has_target (state_of (start_capture w s)) = true.
Proof.
  intros Hinv. destruct (start_capture_frame w s) as (_ & _ & Hm & Hw & Hr & Hrun).
  cbv zeta in *. unfold running_has_target in *.
  rewrite (target_absent_ext s _ Hm Hw Hr).
  destruct Hrun as [Hrun | Habs].
  - rewrite Hrun. exact Hinv.
  - rewrite Habs. apply orb_true_r.
Qed.

Ltac with_start w :=
  match goal with
  | |- context [start_capture w ?c] =>
      let Hf := fresh "Hf" in
      let Hs := fresh "Hs" in
      pose proof (start_capture_frame w c) as Hf;
      pose proof (running_has_target_start w c) as Hs;
      cbv zeta in Hf;
      destruct (start_capture w c) as [[[? | ?] ?] ?];
      cbn [state_of fst snd] in Hf, Hs; fields;
      destruct Hf as (Hf1 & Hf2 & _)
  end.

Lemma toggle_frame (w : World) (s : AppState) (saveDir : option string)
      (settlingTime pollingInterval : option (result float))
      (rx ry rw rh : option (result Z)) :
  let s' := state_of (do_GET w (Toggle saveDir settlingTime pollingInterval rx ry rw rh) s) in
  save_mode s' = save_mode s /\ capture_count s' = capture_count s
  /\ (running_has_target s = true -> running_has_target s' = true).
Proof.
  cbv zeta. unfold do_GET, stop_capture. step_m.
  destruct (is_running s) eqn:Hrun.
  { step_m. repeat split. }
  assert (Hidle : forall s0, is_running s0 = false -> running_has_target s0 = true)
    by (intros s0 H0; unfold running_has_target; rewrite H0; reflexivity).
  destruct settlingTime as [[st | x] |]; cbn [param]; step_m;
    try (repeat split; intros _; apply Hidle; exact Hrun);
    (destruct pollingInterval as [[pi | x'] |]; cbn [param]; step_m;
     try (repeat split; intros _; apply Hidle; exact Hrun));
    (destruct (capture_mode s =? "region")%string; step_m;
     [ destruct rx as [[x0 | ?] |]; cbn [param]; step_m;
       try (repeat split; intros _; apply Hidle; exact Hrun);
       (destruct ry as [[y0 | ?] |]; cbn [param]; step_m;
        try (repeat split; intros _; apply Hidle; exact Hrun));
       (destruct rw as [[w0 | ?] |]; cbn [param]; step_m;
        try (repeat split; intros _; apply Hidle; exact Hrun));
       (destruct rh as [[h0 | ?] |]; cbn [param]; step_m;
        try (repeat split; intros _; apply Hidle; exact Hrun))
     | ]);
    with_start w; (repeat split; [exact Hf1 | exact Hf2 |]);
    intros _; apply Hs; apply Hidle; exact Hrun.
Qed.

Lemma select_region_frame (w : World) (s : AppState) :
  state_of (interactive_select_region w s) = s
  \/ exists rect text,
       state_of (interactive_select_region w s)
       = set_status text (set_capture_mode "region" (set_region (Some rect) s)).
Proof.
  unfold interactive_select_region, floordiv.
  destruct (selection_size w) as [[cap_w cap_h] |]; [| left; reflexivity].
  step_m. destruct (retina_scale s =? 0); [left; reflexivity |]. step_m.
  destruct (2 <=? List.length (mouse_positions w))%nat.
  - destruct (last (mouse_positions w) (0, 0)) as [last_x last_y]. step_m.
    right. eexists. eexists. reflexivity.
  - step_m. right. eexists. eexists. reflexivity.
Qed.

(** The thumbnail route captures and leaves the session alone. *)
Lemma thumbnail_state (w : World) (id : option (result Z)) (s : AppState) :
  state_of (do_GET w (Thumbnail id) s) = s.
Proof.
  unfold do_GET, capture_window_thumbnail, capture_window, truediv.
  destruct id as [[wid | x] |]; cbn [param]; step_m; try reflexivity.
  destruct (truthy_int wid); [| reflexivity]. step_m.
  destruct (capture_window_result w wid) as [im |]; [| reflexivity]. step_m.
  destruct (width im =? 0); [reflexivity |]. step_m.
  destruct (int_of_float (PrimFloat.mul (float_of_int (height im))
                            (PrimFloat.div (float_of_int 400) (float_of_int (width im)))))
    as [new_height | x]; [| reflexivity].
  step_m. destruct (resized_png w im (400, new_height)) as [data | x]; [| reflexivity].
  step_m. destruct (truthy_opt_bytes (Some data)); reflexivity.
Qed.

(** What a request can do to the save mode, to the target of a running
    session and to the counter. *)
Lemma do_GET_frame (w : World) (req : Request) (s : AppState) :
  let s' := state_of (do_GET w req s) in
  (save_mode_valid s = true -> save_mode_valid s' = true)
  /\ (running_has_target s = true -> running_has_target s' = true)
  /\ (rewrites_counter (Get req) = false -> capture_count s' = capture_count s).
Proof.
  cbv zeta.
  destruct req as [ | | id | id | m | | m | m | sd st pi rx ry rw rh | | | | | | path].
  - (* index *)
    cbn. repeat split; auto.
  - (* windows *)
    cbn. repeat split; auto.
  - (* select_window *)
    destruct id as [[wid | x] |];
      [ | cbn; repeat split; auto | cbn; repeat split; auto ].
    assert (E : state_of (do_GET w (SelectWindow (Some (Ok wid))) s)
                = state_of (if truthy_int wid then select_first wid (window_list w) s
                            else (Ok tt, s, []))).
    { unfold do_GET. cbn [param]. step_m.
      destruct (truthy_int wid); [| reflexivity].
      rewrite select_first_spec.
      destruct (find (fun win => win_id win =? wid) (window_list w)); reflexivity. }
    rewrite E. clear E. destruct (truthy_int wid) eqn:Ht; [| cbn; repeat split; auto].
    rewrite select_first_spec.
    destruct (find (fun win => win_id win =? wid) (window_list w)) as [win |];
      [| cbn; repeat split; auto].
    cbn [state_of fst snd].
    unfold save_mode_valid, running_has_target, target_absent. fields.
    cbn [truthy_opt_int]. rewrite Ht. cbn [negb]. rewrite andb_false_r. cbn [orb].
    repeat split; auto.
    destruct (is_running s); [| reflexivity]. cbn [negb orb].
    destruct ((capture_mode s =? "window")%string
              && negb (truthy_opt_int (target_window_id s)));
      [discriminate | cbn [orb]; auto].
  - (* thumbnail *)
    rewrite thumbnail_state. repeat split; auto.
  - (* capture_mode *)
    unfold do_GET. step_m.
    destruct (is_running s) eqn:Hrun; cbn [negb]; step_m; repeat split;
      try (intros H; exact H); try reflexivity.
    intros _. unfold running_has_target. fields. rewrite Hrun. reflexivity.
  - (* select_region *)
    assert (E : state_of (do_GET w SelectRegion s)
                = state_of (interactive_select_region w s)).
    { unfold do_GET, bind, ret.
      destruct (interactive_select_region w s) as [[[b | x] s1] e1]; reflexivity. }
    rewrite E. clear E.
    destruct (select_region_frame w s) as [-> | (rect & text & ->)].
    + repeat split; auto.
    + unfold save_mode_valid, running_has_target, target_absent. fields.
      change ("region" =? "window")%string with false.
      cbn [andb orb truthy_opt_obj negb]. rewrite orb_true_r. repeat split; auto.
  - (* mode *)
    unfold do_GET. step_m.
    destruct (is_running s) eqn:Hrun; cbn [negb]; step_m; repeat split;
      try (intros H; exact H); try reflexivity.
  - (* save_mode *)
    unfold do_GET. step_m.
    destruct (is_running s) eqn:Hrun; cbn [negb]; step_m;
      [repeat split; try (intros H; exact H); reflexivity |].
    destruct (str_in (param m "folder") ["folder"; "clipboard"; "both"]) eqn:Hv;
      step_m; repeat split; try (intros H; exact H); try reflexivity.
    intros _. exact Hv.
  - (* toggle *)
    destruct (toggle_frame w s sd st pi rx ry rw rh) as (Hm & Hc & Ht). cbv zeta in *.
    unfold save_mode_valid in *. rewrite Hm. repeat split; auto.
  - (* capture *)
    cbn. repeat split; auto.
  - (* open_folder *)
    cbn. repeat split; auto.
  - (* reset *)
    cbn. repeat split; auto. discriminate.
  - (* status *)
    cbn. repeat split; auto.
  - (* select_folder *)
    assert (E : state_of (do_GET w SelectFolder s) = s
                \/ exists dir c, state_of (do_GET w SelectFolder s)
                                 = set_capture_count c (set_save_dir dir s)).
    { unfold do_GET, mkdir. step_m.
      destruct (chosen_folder w) as [dir |]; [| left; reflexivity]. step_m.
      destruct (mkdir_ok w dir); step_m.
      - rewrite init_capture_count_spec. step_m.
        right. eexists. eexists. reflexivity.
      - right. exists dir, (capture_count s). destruct s; reflexivity. }
    destruct E as [-> | (dir & c & ->)]; [repeat split; auto; discriminate |].
    unfold save_mode_valid, running_has_target, target_absent. fields.
    repeat split; auto. discriminate.
  - (* any other path *)
    cbn. repeat split; auto.
Qed.

Lemma thread_step_frame (w : World) (ph : Phase) (s : AppState) :
  exists text c,
    state_of (thread_step w ph s) = set_status text (set_capture_count c s)
    /\ capture_count s <= c.
Proof.
  assert (Hsame : exists text c, s = set_status text (set_capture_count c s)
                                 /\ capture_count s <= c).
  { exists (status s), (capture_count s). split; [destruct s; reflexivity | lia]. }
  assert (Htext : forall text, exists text' c,
               set_status text s = set_status text' (set_capture_count c s)
               /\ capture_count s <= c).
  { intros text. exists text, (capture_count s).
    split; [destruct s; reflexivity | lia]. }
  destruct ph as [| | [img |] | b]; cbn [thread_step].
  - step_m. destruct (negb (is_running s)); [apply Htext |].
    destruct ((capture_mode s =? "window")%string
              && negb (truthy_opt_int (target_window_id s))); [apply Htext |].
    destruct ((capture_mode s =? "region")%string
              && negb (truthy_opt_obj (region s))); [apply Htext | exact Hsame].
  - unfold bind. rewrite do_capture_spec. exact Hsame.
  - destruct (save_image_state w img s) as [msg Hst].
    pose proof (save_image_returns w img s) as Hret.
    unfold bind, ret. destruct (save_image w img s) as [[r1 s1] e1].
    cbn [result_of state_of fst snd] in *. subst. 
    exists msg, (capture_count s + 1). split; [reflexivity | lia].
  - step_m. apply Htext.
  - exact Hsame.
Qed.

Lemma sys_step_state (w : World) (ev : Event) (sy : System) :
  (exists req, ev = Get req
               /\ sys_state (sys_step w ev sy) = state_of (do_GET w req (sys_state sy)))
  \/ (ev <> Get Reset /\ ev <> Get SelectFolder
      /\ exists text c,
           sys_state (sys_step w ev sy)
           = set_status text (set_capture_count c (sys_state sy))
           /\ capture_count (sys_state sy) <= c).
Proof.
  assert (Hsame : exists text c,
             sys_state sy = set_status text (set_capture_count c (sys_state sy))
             /\ capture_count (sys_state sy) <= c).
  { exists (status (sys_state sy)), (capture_count (sys_state sy)).
    split; [destruct (sys_state sy); reflexivity | lia]. }
  destruct ev as [req | event_type keycode flags | tid].
  - left. exists req. split; [reflexivity |]. cbn [sys_step].
    destruct (do_GET w req (sys_state sy)) as [[r s'] e]. reflexivity.
  - right. split; [discriminate |]. split; [discriminate |].
    cbn [sys_step]. unfold keyboard_callback.
    destruct (event_type =? kCGEventKeyDown); [| exact Hsame].
    destruct (negb (Z.land flags kCGEventFlagMaskCommand =? 0)
              && negb (Z.land flags kCGEventFlagMaskControl =? 0)
              && (keycode =? SHORTCUT_KEYCODE)); exact Hsame.
  - right. split; [discriminate |]. split; [discriminate |].
    cbn [sys_step].
    destruct (nth_error (sys_threads sy) tid) as [ph |]; [| exact Hsame].
    destruct (thread_step_frame w ph (sys_state sy)) as (text & c & Hst & Hc).
    destruct (thread_step w ph (sys_state sy)) as [[[ph' | x] s'] e];
      cbn [state_of fst snd sys_state] in *; exists text, c; auto.
Qed.

(** X17. The save mode stays one of "folder", "clipboard" and "both":
    no request, key event or step of a manual-capture thread, in any
    order and number, leads from a session with a valid save mode to
    one without. *)
Theorem save_mode_stays_valid (w : World) (evs : list Event) (sy : System) :
  save_mode_valid (sys_state sy) = true ->
  save_mode_valid (sys_state (sys_run w evs sy)) = true.
Proof.
  revert sy. induction evs as [| ev rest IH]; intros sy Hinv; [exact Hinv |].
  unfold sys_run in *. cbn [fold_left]. apply IH.
  destruct (sys_step_state w ev sy) as [(req & -> & E) | (_ & _ & text & c & E & _)];
    rewrite E.
  - apply (do_GET_frame w req (sys_state sy)). exact Hinv.
  - exact Hinv.
Qed.

Lemma save_mode_stays_valid_witness :
  save_mode_valid
    (sys_state (sys_run (world_with (Some frame_white) true true 0%float)
                        [Get (SaveMode (Some "pdf")); Get (SaveMode (Some "both"));
                         Get Capture; Schedule 0]
                        (mkSystem (initial_state "/Users/me") [] []))) = true.
Proof. apply save_mode_stays_valid. reflexivity. Defined.

(** X18. A running session is never in window mode without a window
    identifier, nor in region mode without a rectangle: if that holds
    before, it holds after every sequence of requests, key events and
    steps of manual-capture threads.  (Window mode and region mode
    only: in any other capture mode a session can run without a target,
    and the invariant says nothing about it.) *)
Theorem running_session_keeps_target (w : World) (evs : list Event) (sy : System) :
  running_has_target (sys_state sy) = true ->
  running_has_target (sys_state (sys_run w evs sy)) = true.
Proof.
  revert sy. induction evs as [| ev rest IH]; intros sy Hinv; [exact Hinv |].
  unfold sys_run in *. cbn [fold_left]. apply IH.
  destruct (sys_step_state w ev sy) as [(req & -> & E) | (_ & _ & text & c & E & _)];
    rewrite E.
  - apply (do_GET_frame w req (sys_state sy)). exact Hinv.
  - exact Hinv.
Qed.

Lemma running_session_keeps_target_witness :
  running_has_target
    (sys_state (sys_run (world_with (Some frame_white) true true 0%float)
                        [Get (Toggle None None None None None None None);
                         Get SelectRegion;
                         Get (Toggle None None None None None None None);
                         Get (CaptureMode (Some "window"))]
                        (mkSystem (initial_state "/Users/me") [] []))) = true.
Proof. apply running_session_keeps_target. reflexivity. Defined.

(** X19. Apart from the requests [/api/reset] and [/api/select_folder],
    nothing lowers the counter: over every sequence of other requests,
    key events and steps of manual-capture threads the counter at the
    end is at least the counter at the start. *)
Theorem counter_never_lowered (w : World) (evs : list Event) (sy : System) :
  forallb (fun ev => negb (rewrites_counter ev)) evs = true ->
  capture_count (sys_state sy) <= capture_count (sys_state (sys_run w evs sy)).
Proof.
  revert sy. induction evs as [| ev rest IH]; intros sy Hevs; [cbn; lia |].
  cbn [forallb] in Hevs. apply andb_true_iff in Hevs. destruct Hevs as [Hev Hrest].
  apply negb_true_iff in Hev.
  unfold sys_run in *. cbn [fold_left]. specialize (IH (sys_step w ev sy) Hrest).
  enough (capture_count (sys_state sy) <= capture_count (sys_state (sys_step w ev sy)))
    by lia.
  destruct (sys_step_state w ev sy) as [(req & -> & E) | (_ & _ & text & c & E & Hc)];
    rewrite E.
  - destruct (do_GET_frame w req (sys_state sy)) as (_ & _ & H). cbv zeta in H.
    rewrite (H Hev). lia.
  - fields. exact Hc.
Qed.

Lemma counter_never_lowered_witness :
  3 <= capture_count
         (sys_state (sys_run (world_with (Some frame_white) true true 0%float)
                             two_concurrent_triggers
                             (mkSystem (armed_on_window "manual" "folder") [] []))).
Proof.
  apply (counter_never_lowered (world_with (Some frame_white) true true 0%float)
                               two_concurrent_triggers
                               (mkSystem (armed_on_window "manual" "folder") [] [])).
  reflexivity.
Defined.

(** ** File names after seeding and after a reset *)

(** X20. After [init_capture_count] no save overwrites a file that the
    directory listing showed: the names built from the seeded counter
    plus 1, plus 2, and so on are all absent from that listing. *)
Theorem seeded_names_are_fresh
        (w : World) (s : AppState) (names : list string) (k : Z) :
  listdir w (save_dir s) = Some names -> 1 <= k ->
  ~ In (slide_name (capture_count (state_of (init_capture_count w s)) + k)) names.
Proof.
  intros Hdir Hk Hin.
  rewrite init_capture_count_spec, Hdir in Hin. cbn [state_of fst snd] in Hin.
  fields. unfold max_sequence_number in Hin.
  destruct (fold_right_max_bounds (slide_numbers names)) as [H0 Hall].
  set (seed := fold_right Z.max 0 (slide_numbers names)) in *.
  destruct (slide_name_reads_back (seed + k)) as [Hm Hn]; [lia |].
  pose proof (slide_numbers_In names _ (seed + k) Hin Hm Hn) as Hnum.
  pose proof (proj1 (Forall_forall _ _) Hall (seed + k) Hnum) as Hle.
  cbn in Hle. lia.
Qed.

Lemma seeded_names_are_fresh_witness :
  ~ In (slide_name
          (capture_count
             (state_of (init_capture_count
                          (world_with_files ["slide_0001.png"; "slide_0003.png"])
                          (initial_state "/Users/me"))) + 1))
       ["slide_0001.png"; "slide_0003.png"].
Proof.
  apply (seeded_names_are_fresh
           (world_with_files ["slide_0001.png"; "slide_0003.png"])
           (initial_state "/Users/me") ["slide_0001.png"; "slide_0003.png"] 1).
  - reflexivity.
  - lia.
Defined.

(** X21. [/api/reset] restarts the numbering without looking at the save
    directory: whatever the session and the directory hold, the counter
    is 0 afterwards and the next save that writes to the folder writes
    [slide_0001.png]. *)
Theorem reset_restarts_numbering (w w' : World) (image : Image) (s : AppState) :
  let after := state_of (do_GET w Reset s) in
  after = set_capture_count 0 s
  /\ save_names (effects_of (save_image w' image after))
     = (if str_in (save_mode s) ["folder"; "both"] then ["slide_0001.png"] else [])
  /\ capture_count (state_of (save_image w' image after)) = 1.
Proof.
  cbv zeta. change (state_of (do_GET w Reset s)) with (set_capture_count 0 s).
  split; [reflexivity |]. rewrite save_image_count. split; [| reflexivity].
  unfold save_image, image_save, copy_to_clipboard. step_m.
  destruct (str_in (save_mode s) ["folder"; "both"]);
    [destruct (image_save_ok w' (save_dir s) (slide_name (0 + 1))) |];
    step_m;
    destruct (str_in (save_mode s) ["clipboard"; "both"]); reflexivity.
Qed.

(** ** Which channels a save touches *)

(** X22. [save_image] hands the image to the clipboard exactly when the
    save mode has a clipboard part and no folder write has failed before
    it; it plays the sound exactly when no folder write has failed; and
    in a save mode without a folder part no file is written. *)
Theorem save_image_channels (w : World) (image : Image) (s : AppState) :
  let effects := effects_of (save_image w image s) in
  let to_folder := str_in (save_mode s) ["folder"; "both"] in
  let to_clipboard := str_in (save_mode s) ["clipboard"; "both"] in
  let folder_failed :=
    to_folder && negb (image_save_ok w (save_dir s) (slide_name (capture_count s + 1))) in
  clipboard_images effects = (if to_clipboard && negb folder_failed then [image] else [])
  /\ filter (fun e => match e with PlaySound => true | _ => false end) effects
     = (if folder_failed then [] else [PlaySound])
  /\ List.length (save_names effects) = (if to_folder then 1%nat else 0%nat).
Proof.
  cbv zeta. unfold save_image, image_save, copy_to_clipboard. step_m.
  destruct (str_in (save_mode s) ["folder"; "both"]);
    [destruct (image_save_ok w (save_dir s) (slide_name (capture_count s + 1))) |];
    step_m;
    destruct (str_in (save_mode s) ["clipboard"; "both"]); repeat split.
Qed.

(** ** Answers of the request handler *)









(** ** How much the detector can count *)

Lemma fold_add_from (l : list Z) (a : Z) :
  fold_left Z.add l a = a + fold_left Z.add l 0.
Proof.
  revert a. induction l as [| x l IH]; intros a; cbn [fold_left].
  - lia.
  - rewrite (IH (a + x)), (IH (0 + x)). lia.
Qed.

Lemma indicator_sum_absent (x : Z) (l : list nat) :
  ~ In x (map Z.of_nat l) ->
  fold_left Z.add (map (fun i => if Z.of_nat i =? x then 1 else 0) l) 0 = 0.
Proof.
  induction l as [| i l IH]; intros Hnot; cbn [map fold_left]; [reflexivity |].
  cbn [map In] in Hnot. rewrite fold_add_from.
  destruct (Z.of_nat i =? x) eqn:E.
  - apply Z.eqb_eq in E. exfalso. apply Hnot. left. exact E.
  - rewrite IH; [reflexivity |]. intros Hin. apply Hnot. right. exact Hin.
Qed.

Lemma indicator_sum_bound (x : Z) (l : list nat) :
  NoDup l ->
  0 <= fold_left Z.add (map (fun i => if Z.of_nat i =? x then 1 else 0) l) 0 <= 1.
Proof.
  induction 1 as [| i l Hnot Hnd IH]; cbn [map fold_left]; [lia |].
  rewrite fold_add_from.
  destruct (Z.of_nat i =? x) eqn:E; [| lia].
  apply Z.eqb_eq in E. rewrite indicator_sum_absent; [lia |].
  intros Hin. apply in_map_iff in Hin. destruct Hin as [j [Hj Hin]].
  apply Hnot. assert (j = i) by lia. subst j. exact Hin.
Qed.

Lemma count_sum_bound (band : list Z) (l : list nat) :
  NoDup l ->
  0 <= fold_left Z.add (map (fun i => count_value band (Z.of_nat i)) l) 0
    <= Z.of_nat (List.length band).
Proof.
  intros Hnd. induction band as [| x band IH].
  - assert (E : forall l0, fold_left Z.add
                             (map (fun i => count_value [] (Z.of_nat i)) l0) 0 = 0)
      by (induction l0 as [| i l0 IHl]; cbn [map fold_left]; auto).
    rewrite E. cbn. lia.
  - assert (E : fold_left Z.add
                  (map (fun i => count_value (x :: band) (Z.of_nat i)) l) 0
                = fold_left Z.add
                    (map (fun i => if Z.of_nat i =? x then 1 else 0) l) 0
                  + fold_left Z.add
                      (map (fun i => count_value band (Z.of_nat i)) l) 0).
    { clear. induction l as [| i l IHl]; cbn [map fold_left]; [reflexivity |].
      rewrite (fold_add_from _ (0 + count_value (x :: band) (Z.of_nat i))),
        (fold_add_from _ (0 + (if Z.of_nat i =? x then 1 else 0))),
        (fold_add_from _ (0 + count_value band (Z.of_nat i))), IHl.
      unfold count_value. cbn [filter].
      destruct (Z.of_nat i =? x); cbn [List.length]; lia. }
    rewrite E. pose proof (indicator_sum_bound x l Hnd).
    cbn [List.length]. lia.
Qed.

(** X24. The number that [images_different] compares against the
    threshold counts each pixel at most once, while the divisor counts
    each pixel three times: for every image the sum of the bins 1 to 255
    lies between 0 and the number of pixels. *)
Theorem non_zero_at_most_pixel_count (im : Image) :
  0 <= non_zero_of (histogram im) <= Z.of_nat (List.length (pixels im)).
Proof.
  unfold histogram. rewrite non_zero_of_app by apply band_histogram_length.
  unfold non_zero_of.
  assert (E : map (fun i => nth i (band_histogram (map red (pixels im))) 0) (seq 1 255)
              = map (fun i => count_value (map red (pixels im)) (Z.of_nat i)) (seq 1 255)).
  { apply map_ext_in. intros i Hi. apply in_seq in Hi. unfold band_histogram.
    rewrite (nth_indep _ 0 (count_value (map red (pixels im)) (Z.of_nat 0)))
      by (rewrite length_map, length_seq; lia).
    rewrite (map_nth (fun v => count_value (map red (pixels im)) (Z.of_nat v))).
    rewrite seq_nth by lia. reflexivity. }
  rewrite E.
  pose proof (count_sum_bound (map red (pixels im)) (seq 1 255) (seq_NoDup 255 1)) as H.
  rewrite length_map in H. exact H.
Qed.
